(** * SEO analyzer: scoring engine of [script.js]

    A shallow embedding of the decision logic of the [SEOAnalyzer] class
    (metric table, the twelve evaluators, status thresholds, canned
    recommendations, issue collection, total score, and the consumer of the
    analysis event stream), followed by the properties proved about it.

    Conventions.
    - JavaScript numbers that the code keeps integral (scores, weights,
      counts, sizes) are [Z]; the two products by [0.2] and [0.3] in the
      image evaluator are computed on binary64 floats.  [NaN] and the
      infinities appear only where the code can produce them (a division by
      zero, arithmetic on [undefined]).
    - An object literal is an association list in insertion order, which is
      the order [Object.keys] and [Object.entries] enumerate it in (no key
      here is an array index, which would come first).  A property read
      [obj[key]] looks at the own properties first and then at the members
      every object inherits from [Object.prototype].
    - [Math.random()] draws are inputs: each evaluator takes the record of the
      quantities it "measures".
    - A method that can throw returns an [Outcome]. *)

From Stdlib Require Import ZArith List String Ascii Bool Lia.
From Stdlib Require Import DecimalString Permutation Sorted.
From Stdlib Require Import PrimFloat Uint63.
Import ListNotations.

Open Scope string_scope.
Open Scope Z_scope.

(** ** JavaScript values *)

Module Js.

(** Numbers: integers, [NaN], and the two infinities. *)
Inductive Number : Type :=
| Num (z : Z)
| NaN
| Infinity (negative : bool).

Definition add (x y : Number) : Number :=
  match x, y with
  | Num a, Num b => Num (a + b)
  | NaN, _ | _, NaN => NaN
  | Infinity s, Infinity s' => if Bool.eqb s s' then Infinity s else NaN
  | Infinity s, Num _ | Num _, Infinity s => Infinity s
  end.

Definition sub (x y : Number) : Number :=
  match x, y with
  | Num a, Num b => Num (a - b)
  | NaN, _ | _, NaN => NaN
  | Infinity s, Infinity s' => if Bool.eqb s s' then NaN else Infinity s
  | Infinity s, Num _ => Infinity s
  | Num _, Infinity s => Infinity (negb s)
  end.

Definition mul (x y : Number) : Number :=
  match x, y with
  | Num a, Num b => Num (a * b)
  | NaN, _ | _, NaN => NaN
  | Infinity s, Infinity s' => Infinity (xorb s s')
  | Infinity s, Num b | Num b, Infinity s =>
      if b =? 0 then NaN else Infinity (xorb s (b <? 0))
  end.

(** [Math.round (x / y)].  [Math.round] rounds to the nearest integer, a tie
    going up, so on integers [a] and [b <> 0] it is the floor of
    [(2a + b) / 2b]; the quotient computed in binary64 lands on the same
    side of every half-integer as the exact one as long as [|a| < 2^52]. *)
Definition roundDiv (x y : Number) : Number :=
  match x, y with
  | Num a, Num b =>
      if b =? 0 then
        if a =? 0 then NaN else Infinity (a <? 0)
      else Num ((2 * a + b) / (2 * b))
  | NaN, _ | _, NaN => NaN
  | Infinity _, Infinity _ => NaN
  | Infinity s, Num b => Infinity (xorb s (b <? 0))
  | Num _, Infinity _ => Num 0
  end.

(** [x >= c], [x < c], [x > c] against an integer constant: every comparison
    with [NaN] is false. *)
Definition ge (x : Number) (c : Z) : bool :=
  match x with
  | Num a => c <=? a
  | NaN => false
  | Infinity negative => negb negative
  end.

Definition lt (x : Number) (c : Z) : bool :=
  match x with
  | Num a => a <? c
  | NaN => false
  | Infinity negative => negative
  end.

Definition gt (x : Number) (c : Z) : bool :=
  match x with
  | Num a => c <? a
  | NaN => false
  | Infinity negative => negb negative
  end.

(** An integer as a binary64 float (exact below [2^53]). *)
Definition toFloat (z : Z) : float :=
  if z <? 0 then PrimFloat.opp (PrimFloat.of_uint63 (Uint63.of_Z (- z)))
  else PrimFloat.of_uint63 (Uint63.of_Z z).

(** [`${n}`] for an integer [n]. *)
Definition show (z : Z) : string := NilZero.string_of_int (Z.to_int z).

(** [array.join(sep)]. *)
Definition join (sep : string) (parts : list string) : string :=
  String.concat sep parts.

(** Members every object inherits from [Object.prototype]. *)
Definition objectPrototype : list string :=
  [ "constructor"; "__proto__"; "hasOwnProperty"; "isPrototypeOf";
    "propertyIsEnumerable"; "toLocaleString"; "toString"; "valueOf";
    "__defineGetter__"; "__defineSetter__"; "__lookupGetter__";
    "__lookupSetter__" ].

Definition inString (s : string) (l : list string) : bool :=
  existsb (String.eqb s) l.

(** The result of the property read [obj[key]]. *)
Inductive Lookup (A : Type) : Type :=
| Own (a : A)
| Inherited (member : string)
| Undefined.
Arguments Own {A} a.
Arguments Inherited {A} member.
Arguments Undefined {A}.

Fixpoint ownProperty {A : Type} (obj : list (string * A)) (key : string)
  : option A :=
  match obj with
  | [] => None
  | (k, v) :: rest => if String.eqb k key then Some v else ownProperty rest key
  end.

Definition get {A : Type} (obj : list (string * A)) (key : string) : Lookup A :=
  match ownProperty obj key with
  | Some v => Own v
  | None => if inString key objectPrototype then Inherited key else Undefined
  end.

(** [Object.keys]. *)
Definition keys {A : Type} (obj : list (string * A)) : list string :=
  map fst obj.

(** The [name] property of an inherited member: the members are functions
    named after their key, except [constructor] (the function [Object]) and
    [__proto__] (the prototype object, which has no [name]). *)
Definition memberName (member : string) : option string :=
  if String.eqb member "constructor" then Some "Object"
  else if String.eqb member "__proto__" then None
  else Some member.

(** Exceptions and the outcome of a call that may throw. *)
Inductive Exn : Type :=
| Error (message : string)
| TypeError
| SyntaxError.

Inductive Outcome (A : Type) : Type :=
| Return (a : A)
| Throw (e : Exn).
Arguments Return {A} a.
Arguments Throw {A} e.

Definition bind {A B : Type} (c : Outcome A) (k : A -> Outcome B) : Outcome B :=
  match c with
  | Return a => k a
  | Throw e => Throw e
  end.

(** [Array.prototype.sort(compare)]: the sort is stable and an element moves
    behind another only when [compare] is positive, which determines the
    result; insertion from the right computes it. *)
Fixpoint insertSorted {A : Type} (after : A -> A -> bool) (x : A) (l : list A)
  : list A :=
  match l with
  | [] => [x]
  | y :: rest =>
      if after x y then y :: insertSorted after x rest else x :: y :: rest
  end.

Definition sort {A : Type} (compare : A -> A -> Number) (l : list A) : list A :=
  fold_right (insertSorted (fun a b => gt (compare a b) 0)) [] l.

End Js.

Notation "x <- c ;; k" := (Js.bind c (fun x => k))
  (at level 61, c at next level, right associativity).

(** ** The analyzer object *)

(** One entry of [this.metrics]. *)
Module Metric.
Record t : Type := {
  name : string;
  icon : string;
  color : string;
  weight : Z;
  description : string;
  details : string
}.
End Metric.

(** The state of an [SEOAnalyzer] instance. *)
Record Analyzer : Type := {
  metrics : list (string * Metric.t)
}.

(** The object literal assigned by [setupMetrics]. *)
Definition metricTable : list (string * Metric.t) :=
  [ ("pageSpeed",
     {| Metric.name := "Page Speed";
        Metric.icon := "fas fa-tachometer-alt";
        Metric.color := "#3b82f6";
        Metric.weight := 15;
        Metric.description := "Measures how quickly your website loads for users.";
        Metric.details := "Page speed is crucial for user experience and SEO rankings. Google considers page speed as a ranking factor." |});
    ("mobileOptimization",
     {| Metric.name := "Mobile Optimization";
        Metric.icon := "fas fa-mobile-alt";
        Metric.color := "#10b981";
        Metric.weight := 12;
        Metric.description := "Checks if your website is optimized for mobile devices.";
        Metric.details := "Mobile-first indexing means Google primarily uses the mobile version of your content for indexing and ranking." |});
    ("metaTags",
     {| Metric.name := "Meta Tags";
        Metric.icon := "fas fa-tags";
        Metric.color := "#8b5cf6";
        Metric.weight := 10;
        Metric.description := "Analyzes the presence and quality of meta tags.";
        Metric.details := "Meta tags provide information about your webpage to search engines and social media platforms." |});
    ("headingStructure",
     {| Metric.name := "Heading Structure";
        Metric.icon := "fas fa-heading";
        Metric.color := "#f59e0b";
        Metric.weight := 8;
        Metric.description := "Evaluates the proper use of heading tags (H1, H2, H3, etc.).";
        Metric.details := "Proper heading structure helps search engines understand your content hierarchy and improves accessibility." |});
    ("imageOptimization",
     {| Metric.name := "Image Optimization";
        Metric.icon := "fas fa-image";
        Metric.color := "#ef4444";
        Metric.weight := 7;
        Metric.description := "Checks if images are properly optimized for web.";
        Metric.details := "Optimized images improve page load speed and provide better user experience." |});
    ("internalLinking",
     {| Metric.name := "Internal Linking";
        Metric.icon := "fas fa-link";
        Metric.color := "#06b6d4";
        Metric.weight := 8;
        Metric.description := "Analyzes the internal linking structure of your website.";
        Metric.details := "Good internal linking helps distribute page authority and improves site navigation." |});
    ("sslCertificate",
     {| Metric.name := "SSL Certificate";
        Metric.icon := "fas fa-lock";
        Metric.color := "#84cc16";
        Metric.weight := 10;
        Metric.description := "Verifies if your website has a valid SSL certificate.";
        Metric.details := "SSL certificates encrypt data transmission and are required for HTTPS, which is a ranking factor." |});
    ("socialMediaTags",
     {| Metric.name := "Social Media Tags";
        Metric.icon := "fas fa-share-alt";
        Metric.color := "#f97316";
        Metric.weight := 5;
        Metric.description := "Checks for Open Graph and Twitter Card meta tags.";
        Metric.details := "Social media tags control how your content appears when shared on social platforms." |});
    ("contentQuality",
     {| Metric.name := "Content Quality";
        Metric.icon := "fas fa-file-alt";
        Metric.color := "#6366f1";
        Metric.weight := 12;
        Metric.description := "Evaluates content length, readability, and keyword usage.";
        Metric.details := "High-quality, relevant content is essential for good SEO performance." |});
    ("urlStructure",
     {| Metric.name := "URL Structure";
        Metric.icon := "fas fa-globe";
        Metric.color := "#ec4899";
        Metric.weight := 6;
        Metric.description := "Analyzes URL structure and SEO-friendliness.";
        Metric.details := "Clean, descriptive URLs help search engines and users understand your content." |});
    ("robotsTxt",
     {| Metric.name := "Robots.txt";
        Metric.icon := "fas fa-robot";
        Metric.color := "#6b7280";
        Metric.weight := 4;
        Metric.description := "Checks for proper robots.txt file configuration.";
        Metric.details := "Robots.txt tells search engine crawlers which pages to crawl and which to avoid." |});
    ("sitemap",
     {| Metric.name := "XML Sitemap";
        Metric.icon := "fas fa-sitemap";
        Metric.color := "#14b8a6";
        Metric.weight := 3;
        Metric.description := "Verifies the presence and validity of XML sitemap.";
        Metric.details := "XML sitemaps help search engines discover and index your pages more efficiently." |}) ].

(** [setupMetrics()]: assigns the table to [this.metrics]. *)
Definition setupMetrics (this : Analyzer) : Analyzer :=
  {| metrics := metricTable |}.

(** [new SEOAnalyzer()]: [init] binds the DOM events, which leaves the state
    alone, and calls [setupMetrics]. *)
Definition newAnalyzer : Analyzer :=
  setupMetrics {| metrics := [] |}.

(** The twelve metric keys, in the order of the table. *)
Definition metricKeys : list string :=
  [ "pageSpeed"; "mobileOptimization"; "metaTags"; "headingStructure";
    "imageOptimization"; "internalLinking"; "sslCertificate";
    "socialMediaTags"; "contentQuality"; "urlStructure"; "robotsTxt";
    "sitemap" ].

(** ** Status thresholds and recommendations *)

(** [getScoreStatus(score)]. *)
Definition getScoreStatus (score : Js.Number) : string :=
  if Js.ge score 90 then "excellent"
  else if Js.ge score 75 then "good"
  else if Js.ge score 60 then "warning"
  else "poor".

(** What a [recommendations] property holds: an array of strings, or, when
    the lookup in [generateRecommendations] hits a member inherited from
    [Object.prototype], that member. *)
Inductive Recommendations : Type :=
| Strings (items : list string)
| Member (member : string).

(** The object literal [recommendations] of [generateRecommendations]. *)
Definition recommendationTable : list (string * list string) :=
  [ ("Page Speed",
     [ "Optimize images by compressing them";
       "Enable browser caching";
       "Minify CSS and JavaScript files";
       "Use a Content Delivery Network (CDN)";
       "Remove unused plugins and scripts" ]);
    ("Mobile Optimization",
     [ "Ensure responsive design works on all devices";
       "Test touch targets are large enough";
       "Optimize font sizes for mobile";
       "Check viewport meta tag";
       "Test mobile usability" ]);
    ("Meta Tags",
     [ "Add unique title tags to all pages";
       "Write compelling meta descriptions";
       "Include relevant keywords naturally";
       "Keep titles under 60 characters";
       "Keep descriptions under 160 characters" ]);
    ("Heading Structure",
     [ "Use only one H1 tag per page";
       "Maintain logical heading hierarchy";
       "Include keywords in headings";
       "Make headings descriptive and clear";
       "Use proper heading tags, not just styling" ]);
    ("Image Optimization",
     [ "Compress images without losing quality";
       "Use appropriate image formats (WebP, JPEG, PNG)";
       "Add alt text to all images";
       "Implement lazy loading";
       "Use descriptive filenames" ]);
    ("Internal Linking",
     [ "Create logical navigation structure";
       "Link related content together";
       "Use descriptive anchor text";
       "Include breadcrumb navigation";
       "Add contextual internal links" ]);
    ("SSL Certificate",
     [ "Install SSL certificate";
       "Redirect HTTP to HTTPS";
       "Update internal links to HTTPS";
       "Fix mixed content issues";
       "Renew certificate before expiration" ]);
    ("Social Media Tags",
     [ "Add Open Graph meta tags";
       "Include Twitter Card tags";
       "Set proper image dimensions";
       "Write compelling social descriptions";
       "Test social media previews" ]);
    ("Content Quality",
     [ "Write original, valuable content";
       "Use proper keyword density";
       "Improve content readability";
       "Add relevant internal links";
       "Update content regularly" ]);
    ("URL Structure",
     [ "Use descriptive, keyword-rich URLs";
       "Keep URLs short and clean";
       "Use hyphens to separate words";
       "Avoid special characters";
       "Include relevant keywords" ]);
    ("Robots.txt",
     [ "Create robots.txt file";
       "Allow important pages to be crawled";
       "Block duplicate or low-quality pages";
       "Reference your sitemap location";
       "Test robots.txt with Google Search Console" ]);
    ("XML Sitemap",
     [ "Create XML sitemap";
       "Submit sitemap to Google Search Console";
       "Keep sitemap updated";
       "Include all important pages";
       "Use proper sitemap format" ]) ].

(** [generateRecommendations(metricName, score)]:
    [recommendations[metricName] || [...]].  Every own entry is an array and
    every inherited member a function or an object, all truthy, so the
    default is returned exactly when the read gives [undefined]. *)
Definition generateRecommendations (metricName : string) (score : Z)
  : Recommendations :=
  match Js.get recommendationTable metricName with
  | Js.Own items => Strings items
  | Js.Inherited member => Member member
  | Js.Undefined => Strings ["Improve this metric for better SEO performance"]
  end.

(** ** Measured quantities

    One record per metric: the constants an evaluator computes from
    [Math.random()] before it scores them. *)

Module PageSpeed.
Record Measured : Type := {
  loadTime : Z; totalSize : Z; imageSize : Z; cssSize : Z; jsSize : Z
}.
End PageSpeed.

Module MobileOptimization.
Record Measured : Type := {
  hasViewport : bool; touchTargets : Z; smallTouchTargets : Z; fontSize : Z;
  hasMobileMenu : bool
}.
End MobileOptimization.

Module MetaTags.
Record Measured : Type := {
  titleLength : Z; descriptionLength : Z; hasKeywords : bool;
  hasCanonical : bool; duplicateTitles : Z;
  titleNumber : Z (* the draw that numbers the mock title *)
}.
End MetaTags.

Module HeadingStructure.
Record Measured : Type := {
  h1Count : Z; h2Count : Z; h3Count : Z; missingHeadings : Z; skippedLevels : Z
}.
End HeadingStructure.

Module ImageOptimization.
Record Measured : Type := {
  totalImages : Z; largeImages : Z; missingAlt : Z; webpImages : Z;
  lazyLoaded : Z
}.
End ImageOptimization.

Module InternalLinking.
Record Measured : Type := {
  totalLinks : Z; brokenLinks : Z; externalLinks : Z; orphanPages : Z;
  deepLinks : Z
}.
End InternalLinking.

Module SSLCertificate.
Record Measured : Type := {
  hasSSL : bool; daysToExpire : Z; hasHSTS : bool; mixedContent : Z
}.
End SSLCertificate.

Module SocialMediaTags.
Record Measured : Type := {
  hasOpenGraph : bool; hasTwitterCards : bool; hasImage : bool;
  hasDescription : bool
}.
End SocialMediaTags.

Module ContentQuality.
Record Measured : Type := {
  wordCount : Z; keywordDensity : Z; readabilityScore : Z;
  duplicateContent : Z; internalLinks : Z
}.
End ContentQuality.

Module URLStructure.
Record Measured : Type := {
  urlLength : Z; hasKeywords : bool; hasSpecialChars : bool; hasNumbers : bool;
  depth : Z
}.
End URLStructure.

Module RobotsTxt.
Record Measured : Type := {
  hasRobotsTxt : bool; blocksImportantPages : bool; hasSitemapReference : bool;
  blocksCSS : bool
}.
End RobotsTxt.

Module Sitemap.
Record Measured : Type := {
  hasSitemap : bool; totalPages : Z; lastModified : Z; hasImages : bool;
  submittedToGoogle : bool
}.
End Sitemap.

(** The [specificData] object of a result: the measured quantities, with the
    mock texts three evaluators add; [{}] for the fallback; and, for results
    that come from the backend, the reported name/value pairs. *)
Inductive SpecificData : Type :=
| OfPageSpeed (m : PageSpeed.Measured)
| OfMobileOptimization (m : MobileOptimization.Measured)
| OfMetaTags (m : MetaTags.Measured) (title description : string)
| OfHeadingStructure (m : HeadingStructure.Measured)
    (h1Texts h2Texts h3Texts : list string)
| OfImageOptimization (m : ImageOptimization.Measured)
| OfInternalLinking (m : InternalLinking.Measured)
    (externalLinksList : list string)
| OfSSLCertificate (m : SSLCertificate.Measured)
| OfSocialMediaTags (m : SocialMediaTags.Measured)
| OfContentQuality (m : ContentQuality.Measured)
| OfURLStructure (m : URLStructure.Measured)
| OfRobotsTxt (m : RobotsTxt.Measured)
| OfSitemap (m : Sitemap.Measured)
| Empty
| Reported (fields : list (string * string)).

(** The object an evaluator returns.  The evaluators leave [status] out
    ([None]); the fallback of the dispatch sets it. *)
Module Analysis.
Record t : Type := {
  score : Z;
  status : option string;
  recommendations : Recommendations;
  details : string;
  specificData : SpecificData
}.
End Analysis.

(** The two locals every evaluator updates: [score] and [issues]. *)
Record Tally : Type := {
  points : Z;
  issues : list string
}.

(** [let score = 100; let issues = [];] *)
Definition fresh : Tally := {| points := 100; issues := [] |}.

(** [score -= d; issues.push(msg);] *)
Definition penalize (d : Z) (msg : string) (t : Tally) : Tally :=
  {| points := points t - d; issues := issues t ++ [msg] |}.

(** [issues.length > 0 ? issues.join('; ') : ok] *)
Definition describe (t : Tally) (ok : string) : string :=
  match issues t with
  | [] => ok
  | _ :: _ => Js.join "; " (issues t)
  end.

(** [array.slice(0, n)] for an integer [n]: a negative [n] counts from the
    end. *)
Definition slice0 {A : Type} (l : list A) (n : Z) : list A :=
  if n <? 0 then firstn (Z.to_nat (Z.of_nat (List.length l) + n)) l
  else firstn (Z.to_nat n) l.

(** ** The twelve evaluators *)

(** [analyzePageSpeed(url)]. *)
Definition analyzePageSpeed (m : PageSpeed.Measured) : Analysis.t :=
  let loadTime := PageSpeed.loadTime m in
  let totalSize := PageSpeed.totalSize m in
  let imageSize := PageSpeed.imageSize m in
  let cssSize := PageSpeed.cssSize m in
  let jsSize := PageSpeed.jsSize m in
  let t := fresh in
  let t :=
    if loadTime >? 2000 then
      penalize 30 ("页面加载时间过长: " ++ Js.show loadTime ++ "ms (建议 < 2000ms)") t
    else if loadTime >? 1500 then
      penalize 15 ("页面加载时间较慢: " ++ Js.show loadTime ++ "ms (建议 < 1500ms)") t
    else t in
  let t :=
    if totalSize >? 1500 then
      penalize 25 ("页面总大小过大: " ++ Js.show totalSize ++ "KB (建议 < 1500KB)") t
    else t in
  let t :=
    if imageSize >? 500 then
      penalize 20 ("图片资源过大: " ++ Js.show imageSize ++ "KB (建议 < 500KB)") t
    else t in
  let t :=
    if cssSize >? 150 then
      penalize 10 ("CSS文件过大: " ++ Js.show cssSize ++ "KB (建议 < 150KB)") t
    else t in
  let t :=
    if jsSize >? 200 then
      penalize 15 ("JavaScript文件过大: " ++ Js.show jsSize ++ "KB (建议 < 200KB)") t
    else t in
  let score := Z.max (points t) 0 in
  {| Analysis.score := score;
     Analysis.status := None;
     Analysis.details := describe t "页面速度表现良好";
     Analysis.specificData := OfPageSpeed m;
     Analysis.recommendations := generateRecommendations "Page Speed" score |}.

(** [analyzeMobileOptimization(url)]. *)
Definition analyzeMobileOptimization (m : MobileOptimization.Measured)
  : Analysis.t :=
  let hasViewport := MobileOptimization.hasViewport m in
  let smallTouchTargets := MobileOptimization.smallTouchTargets m in
  let fontSize := MobileOptimization.fontSize m in
  let hasMobileMenu := MobileOptimization.hasMobileMenu m in
  let t := fresh in
  let t :=
    if negb hasViewport then penalize 40 "缺少viewport meta标签" t else t in
  let t :=
    if smallTouchTargets >? 3 then
      penalize 25 ("有" ++ Js.show smallTouchTargets ++ "个触摸目标过小 (< 44px)") t
    else t in
  let t :=
    if fontSize <? 14 then
      penalize 20 ("字体过小: " ++ Js.show fontSize ++ "px (建议 ≥ 14px)") t
    else t in
  let t :=
    if negb hasMobileMenu then penalize 15 "缺少移动端导航菜单" t else t in
  let score := Z.max (points t) 0 in
  {| Analysis.score := score;
     Analysis.status := None;
     Analysis.details := describe t "移动优化表现良好";
     Analysis.specificData := OfMobileOptimization m;
     Analysis.recommendations :=
       generateRecommendations "Mobile Optimization" score |}.

(** [analyzeMetaTags(url)]. *)
Definition analyzeMetaTags (m : MetaTags.Measured) : Analysis.t :=
  let titleLength := MetaTags.titleLength m in
  let descriptionLength := MetaTags.descriptionLength m in
  let hasKeywords := MetaTags.hasKeywords m in
  let hasCanonical := MetaTags.hasCanonical m in
  let duplicateTitles := MetaTags.duplicateTitles m in
  let t := fresh in
  let t :=
    if titleLength <? 30 then
      penalize 20 ("标题过短: " ++ Js.show titleLength ++ "字符 (建议30-60字符)") t
    else if titleLength >? 60 then
      penalize 15 ("标题过长: " ++ Js.show titleLength ++ "字符 (建议30-60字符)") t
    else t in
  let t :=
    if descriptionLength <? 120 then
      penalize 15 ("描述过短: " ++ Js.show descriptionLength ++ "字符 (建议120-160字符)") t
    else if descriptionLength >? 160 then
      penalize 10 ("描述过长: " ++ Js.show descriptionLength ++ "字符 (建议120-160字符)") t
    else t in
  let t :=
    if negb hasKeywords then penalize 5 "缺少关键词meta标签" t else t in
  let t :=
    if negb hasCanonical then penalize 10 "缺少canonical标签" t else t in
  let t :=
    if duplicateTitles >? 0 then
      penalize 20 ("发现" ++ Js.show duplicateTitles ++ "个重复标题") t
    else t in
  let score := Z.max (points t) 0 in
  let title := "网站标题 - " ++ Js.show (MetaTags.titleNumber m) in
  let description :=
    "这是一个关于网站优化的详细描述，包含了关键词和相关信息，长度为"
      ++ Js.show descriptionLength ++ "字符。" in
  {| Analysis.score := score;
     Analysis.status := None;
     Analysis.details := describe t "Meta标签配置良好";
     Analysis.specificData := OfMetaTags m title description;
     Analysis.recommendations := generateRecommendations "Meta Tags" score |}.

(** [analyzeHeadingStructure(url)]. *)
Definition analyzeHeadingStructure (m : HeadingStructure.Measured)
  : Analysis.t :=
  let h1Count := HeadingStructure.h1Count m in
  let h2Count := HeadingStructure.h2Count m in
  let h3Count := HeadingStructure.h3Count m in
  let missingHeadings := HeadingStructure.missingHeadings m in
  let skippedLevels := HeadingStructure.skippedLevels m in
  let t := fresh in
  let t :=
    if h1Count >? 1 then
      penalize 30 ("发现" ++ Js.show h1Count ++ "个H1标签 (建议每页只有1个)") t
    else t in
  let t := if h1Count =? 0 then penalize 40 "缺少H1标签" t else t in
  let t :=
    if missingHeadings >? 2 then
      penalize 20 ("有" ++ Js.show missingHeadings ++ "个页面缺少标题标签") t
    else t in
  let t :=
    if skippedLevels >? 1 then
      penalize 15 ("标题层级跳跃" ++ Js.show skippedLevels ++ "次") t
    else t in
  let score := Z.max (points t) 0 in
  let h1Texts :=
    slice0 ["网站首页"; "产品介绍"; "服务详情"; "关于我们"] h1Count in
  let h2Texts :=
    slice0 ["产品特色"; "技术优势"; "客户案例"; "解决方案"; "行业应用";
            "技术支持"; "联系我们"; "新闻动态"] h2Count in
  let h3Texts :=
    slice0 ["功能特点"; "使用方法"; "常见问题"; "价格说明"; "服务流程";
            "团队介绍"; "发展历程"; "合作伙伴"] h3Count in
  {| Analysis.score := score;
     Analysis.status := None;
     Analysis.details := describe t "标题结构合理";
     Analysis.specificData := OfHeadingStructure m h1Texts h2Texts h3Texts;
     Analysis.recommendations :=
       generateRecommendations "Heading Structure" score |}.

(** The literals [0.2] and [0.3] as the binary64 values they denote. *)
Definition float_0_2 : float := 0x1.999999999999ap-3%float.
Definition float_0_3 : float := 0x1.3333333333333p-2%float.

(** [count < total * factor] in binary64. *)
Definition belowShare (count total : Z) (factor : float) : bool :=
  PrimFloat.ltb (Js.toFloat count) (PrimFloat.mul (Js.toFloat total) factor).

(** [analyzeImageOptimization(url)]. *)
Definition analyzeImageOptimization (m : ImageOptimization.Measured)
  : Analysis.t :=
  let totalImages := ImageOptimization.totalImages m in
  let largeImages := ImageOptimization.largeImages m in
  let missingAlt := ImageOptimization.missingAlt m in
  let webpImages := ImageOptimization.webpImages m in
  let lazyLoaded := ImageOptimization.lazyLoaded m in
  let t := fresh in
  let t :=
    if largeImages >? 3 then
      penalize 25 ("有" ++ Js.show largeImages ++ "张图片过大 (> 500KB)") t
    else t in
  let t :=
    if missingAlt >? 2 then
      penalize 20 ("有" ++ Js.show missingAlt ++ "张图片缺少alt属性") t
    else t in
  let t :=
    if belowShare webpImages totalImages float_0_2 then
      penalize 15 ("只有" ++ Js.show webpImages ++ "张图片使用WebP格式 (建议 > 20%)") t
    else t in
  let t :=
    if belowShare lazyLoaded totalImages float_0_3 then
      penalize 10 ("只有" ++ Js.show lazyLoaded ++ "张图片使用懒加载 (建议 > 30%)") t
    else t in
  let score := Z.max (points t) 0 in
  {| Analysis.score := score;
     Analysis.status := None;
     Analysis.details := describe t "图片优化良好";
     Analysis.specificData := OfImageOptimization m;
     Analysis.recommendations :=
       generateRecommendations "Image Optimization" score |}.

(** [analyzeInternalLinking(url)]. *)
Definition analyzeInternalLinking (m : InternalLinking.Measured) : Analysis.t :=
  let totalLinks := InternalLinking.totalLinks m in
  let brokenLinks := InternalLinking.brokenLinks m in
  let externalLinks := InternalLinking.externalLinks m in
  let orphanPages := InternalLinking.orphanPages m in
  let deepLinks := InternalLinking.deepLinks m in
  let externalLinksList :=
    slice0 [ "https://www.google.com/"; "https://www.facebook.com/";
             "https://www.twitter.com/"; "https://www.linkedin.com/";
             "https://www.github.com/"; "https://www.stackoverflow.com/";
             "https://www.wikipedia.org/"; "https://www.youtube.com/";
             "https://www.instagram.com/"; "https://www.reddit.com/";
             "https://www.medium.com/"; "https://www.quora.com/" ]
           externalLinks in
  let t := fresh in
  let t :=
    if brokenLinks >? 1 then
      penalize 30 ("发现" ++ Js.show brokenLinks ++ "个死链接") t
    else t in
  let t :=
    if orphanPages >? 3 then
      penalize 25 ("有" ++ Js.show orphanPages ++ "个页面缺少内部链接") t
    else t in
  let t :=
    if totalLinks <? 20 then
      penalize 20 ("内部链接数量较少: " ++ Js.show totalLinks ++ "个 (建议 > 20个)") t
    else t in
  let t :=
    if deepLinks >? 5 then
      penalize 15 ("有" ++ Js.show deepLinks ++ "个链接层级过深 (> 3层)") t
    else t in
  let score := Z.max (points t) 0 in
  {| Analysis.score := score;
     Analysis.status := None;
     Analysis.details := describe t "内部链接结构良好";
     Analysis.specificData := OfInternalLinking m externalLinksList;
     Analysis.recommendations :=
       generateRecommendations "Internal Linking" score |}.

(** [analyzeSSLCertificate(url)]. *)
Definition analyzeSSLCertificate (m : SSLCertificate.Measured) : Analysis.t :=
  let hasSSL := SSLCertificate.hasSSL m in
  let daysToExpire := SSLCertificate.daysToExpire m in
  let hasHSTS := SSLCertificate.hasHSTS m in
  let mixedContent := SSLCertificate.mixedContent m in
  let t := fresh in
  let t :=
    if negb hasSSL then
      {| points := 0; issues := issues t ++ ["网站未使用HTTPS"] |}
    else
      let t :=
        if daysToExpire <? 30 then
          penalize 20 ("SSL证书将在" ++ Js.show daysToExpire ++ "天后过期") t
        else t in
      let t := if negb hasHSTS then penalize 15 "缺少HSTS安全头" t else t in
      let t :=
        if mixedContent >? 0 then
          penalize 25 ("发现" ++ Js.show mixedContent ++ "个混合内容问题") t
        else t in
      t in
  let score := Z.max (points t) 0 in
  {| Analysis.score := score;
     Analysis.status := None;
     Analysis.details := describe t "SSL配置安全";
     Analysis.specificData := OfSSLCertificate m;
     Analysis.recommendations :=
       generateRecommendations "SSL Certificate" score |}.

(** [analyzeSocialMediaTags(url)]. *)
Definition analyzeSocialMediaTags (m : SocialMediaTags.Measured) : Analysis.t :=
  let hasOpenGraph := SocialMediaTags.hasOpenGraph m in
  let hasTwitterCards := SocialMediaTags.hasTwitterCards m in
  let hasImage := SocialMediaTags.hasImage m in
  let hasDescription := SocialMediaTags.hasDescription m in
  let t := fresh in
  let t := if negb hasOpenGraph then penalize 30 "缺少Open Graph标签" t else t in
  let t :=
    if negb hasTwitterCards then penalize 25 "缺少Twitter Card标签" t else t in
  let t := if negb hasImage then penalize 20 "缺少社交媒体图片" t else t in
  let t := if negb hasDescription then penalize 15 "缺少社交媒体描述" t else t in
  let score := Z.max (points t) 0 in
  {| Analysis.score := score;
     Analysis.status := None;
     Analysis.details := describe t "社交媒体标签完整";
     Analysis.specificData := OfSocialMediaTags m;
     Analysis.recommendations :=
       generateRecommendations "Social Media Tags" score |}.

(** [analyzeContentQuality(url)]. *)
Definition analyzeContentQuality (m : ContentQuality.Measured) : Analysis.t :=
  let wordCount := ContentQuality.wordCount m in
  let keywordDensity := ContentQuality.keywordDensity m in
  let readabilityScore := ContentQuality.readabilityScore m in
  let duplicateContent := ContentQuality.duplicateContent m in
  let internalLinks := ContentQuality.internalLinks m in
  let t := fresh in
  let t :=
    if wordCount <? 500 then
      penalize 25 ("内容过短: " ++ Js.show wordCount ++ "词 (建议 > 500词)") t
    else t in
  let t :=
    if (keywordDensity <? 1) || (keywordDensity >? 3) then
      penalize 20 ("关键词密度不当: " ++ Js.show keywordDensity ++ "% (建议1-3%)") t
    else t in
  let t :=
    if readabilityScore <? 50 then
      penalize 15 ("可读性较差: " ++ Js.show readabilityScore ++ "分 (建议 > 50分)") t
    else t in
  let t :=
    if duplicateContent >? 1 then
      penalize 30 ("发现" ++ Js.show duplicateContent ++ "处重复内容") t
    else t in
  let t :=
    if internalLinks <? 3 then
      penalize 10 ("内部链接较少: " ++ Js.show internalLinks ++ "个 (建议 > 3个)") t
    else t in
  let score := Z.max (points t) 0 in
  {| Analysis.score := score;
     Analysis.status := None;
     Analysis.details := describe t "内容质量良好";
     Analysis.specificData := OfContentQuality m;
     Analysis.recommendations :=
       generateRecommendations "Content Quality" score |}.

(** [analyzeURLStructure(url)]. *)
Definition analyzeURLStructure (m : URLStructure.Measured) : Analysis.t :=
  let urlLength := URLStructure.urlLength m in
  let hasKeywords := URLStructure.hasKeywords m in
  let hasSpecialChars := URLStructure.hasSpecialChars m in
  let depth := URLStructure.depth m in
  let t := fresh in
  let t :=
    if urlLength >? 60 then
      penalize 20 ("URL过长: " ++ Js.show urlLength ++ "字符 (建议 < 60字符)") t
    else t in
  let t := if negb hasKeywords then penalize 25 "URL中缺少关键词" t else t in
  let t := if hasSpecialChars then penalize 15 "URL包含特殊字符" t else t in
  let t :=
    if depth >? 3 then
      penalize 10 ("URL层级过深: " ++ Js.show depth ++ "层 (建议 < 3层)") t
    else t in
  let score := Z.max (points t) 0 in
  {| Analysis.score := score;
     Analysis.status := None;
     Analysis.details := describe t "URL结构良好";
     Analysis.specificData := OfURLStructure m;
     Analysis.recommendations := generateRecommendations "URL Structure" score |}.

(** [analyzeRobotsTxt(url)]. *)
Definition analyzeRobotsTxt (m : RobotsTxt.Measured) : Analysis.t :=
  let hasRobotsTxt := RobotsTxt.hasRobotsTxt m in
  let blocksImportantPages := RobotsTxt.blocksImportantPages m in
  let hasSitemapReference := RobotsTxt.hasSitemapReference m in
  let blocksCSS := RobotsTxt.blocksCSS m in
  let t := fresh in
  let t :=
    if negb hasRobotsTxt then penalize 40 "缺少robots.txt文件" t
    else
      let t :=
        if blocksImportantPages then penalize 30 "robots.txt阻止了重要页面" t
        else t in
      let t :=
        if negb hasSitemapReference then
          penalize 15 "robots.txt中缺少sitemap引用" t
        else t in
      let t := if blocksCSS then penalize 10 "robots.txt阻止了CSS文件" t else t in
      t in
  let score := Z.max (points t) 0 in
  {| Analysis.score := score;
     Analysis.status := None;
     Analysis.details := describe t "robots.txt配置正确";
     Analysis.specificData := OfRobotsTxt m;
     Analysis.recommendations := generateRecommendations "Robots.txt" score |}.

(** [analyzeSitemap(url)]. *)
Definition analyzeSitemap (m : Sitemap.Measured) : Analysis.t :=
  let hasSitemap := Sitemap.hasSitemap m in
  let lastModified := Sitemap.lastModified m in
  let hasImages := Sitemap.hasImages m in
  let submittedToGoogle := Sitemap.submittedToGoogle m in
  let t := fresh in
  let t :=
    if negb hasSitemap then penalize 50 "缺少XML站点地图" t
    else
      let t :=
        if lastModified >? 7 then
          penalize 20 ("站点地图" ++ Js.show lastModified ++ "天未更新") t
        else t in
      let t := if negb hasImages then penalize 10 "站点地图中缺少图片信息" t else t in
      let t :=
        if negb submittedToGoogle then
          penalize 15 "站点地图未提交到Google Search Console" t
        else t in
      t in
  let score := Z.max (points t) 0 in
  {| Analysis.score := score;
     Analysis.status := None;
     Analysis.details := describe t "XML站点地图配置良好";
     Analysis.specificData := OfSitemap m;
     Analysis.recommendations := generateRecommendations "XML Sitemap" score |}.

(** ** Dispatch *)

(** What [Math.random()] would give each evaluator: the measurements of the
    one the dispatch selects are the ones used. *)
Record Draws : Type := {
  forPageSpeed : PageSpeed.Measured;
  forMobileOptimization : MobileOptimization.Measured;
  forMetaTags : MetaTags.Measured;
  forHeadingStructure : HeadingStructure.Measured;
  forImageOptimization : ImageOptimization.Measured;
  forInternalLinking : InternalLinking.Measured;
  forSSLCertificate : SSLCertificate.Measured;
  forSocialMediaTags : SocialMediaTags.Measured;
  forContentQuality : ContentQuality.Measured;
  forURLStructure : URLStructure.Measured;
  forRobotsTxt : RobotsTxt.Measured;
  forSitemap : Sitemap.Measured
}.

(** The object of the [default] branch. *)
Definition fallbackAnalysis : Analysis.t :=
  {| Analysis.score := 50;
     Analysis.status := Some "poor";
     Analysis.recommendations := Strings [];
     Analysis.details := "";
     Analysis.specificData := Empty |}.

(** [case label:] of a [switch] on a value that is a string or
    [undefined] ([None]). *)
Definition isCase (value : option string) (label : string) : bool :=
  match value with
  | Some s => String.eqb s label
  | None => false
  end.

(** [generateDetailedAnalysis(metricKey, url)]. *)
Definition generateDetailedAnalysis (metricKey : option string) (d : Draws)
  : Analysis.t :=
  if isCase metricKey "pageSpeed" then analyzePageSpeed (forPageSpeed d)
  else if isCase metricKey "mobileOptimization" then
    analyzeMobileOptimization (forMobileOptimization d)
  else if isCase metricKey "metaTags" then analyzeMetaTags (forMetaTags d)
  else if isCase metricKey "headingStructure" then
    analyzeHeadingStructure (forHeadingStructure d)
  else if isCase metricKey "imageOptimization" then
    analyzeImageOptimization (forImageOptimization d)
  else if isCase metricKey "internalLinking" then
    analyzeInternalLinking (forInternalLinking d)
  else if isCase metricKey "sslCertificate" then
    analyzeSSLCertificate (forSSLCertificate d)
  else if isCase metricKey "socialMediaTags" then
    analyzeSocialMediaTags (forSocialMediaTags d)
  else if isCase metricKey "contentQuality" then
    analyzeContentQuality (forContentQuality d)
  else if isCase metricKey "urlStructure" then
    analyzeURLStructure (forURLStructure d)
  else if isCase metricKey "robotsTxt" then analyzeRobotsTxt (forRobotsTxt d)
  else if isCase metricKey "sitemap" then analyzeSitemap (forSitemap d)
  else fallbackAnalysis.

(** A result as the views read it from [results[key]]. *)
Module Result.
Record t : Type := {
  score : Z;
  status : string;
  recommendations : Recommendations;
  details : string;
  specificData : SpecificData
}.
End Result.

(** A reference to a metric descriptor: the object stored in [this.metrics]
    under a key, or some object that is not in the table.  The entries of
    the table are distinct objects, so [===] on two of them compares keys. *)
Inductive MetricRef : Type :=
| EntryOf (key : string)
| OtherObject.

(** [Object.keys(this.metrics).find(key => this.metrics[key] === metric)]. *)
Definition keyOfMetric (this : Analyzer) (metric : MetricRef) : option string :=
  match metric with
  | EntryOf key => find (String.eqb key) (Js.keys (metrics this))
  | OtherObject => None
  end.

(** [generateMetricResult(metric, url)]. *)
Definition generateMetricResult (this : Analyzer) (metric : MetricRef)
  (d : Draws) : Result.t :=
  let metricKey := keyOfMetric this metric in
  let detailedAnalysis := generateDetailedAnalysis metricKey d in
  {| Result.score := Analysis.score detailedAnalysis;
     Result.status := getScoreStatus (Js.Num (Analysis.score detailedAnalysis));
     Result.recommendations := Analysis.recommendations detailedAnalysis;
     Result.details := Analysis.details detailedAnalysis;
     Result.specificData := Analysis.specificData detailedAnalysis |}.

(** ** The results object *)

(** The [_totalScore] object that [performAnalysis] adds to [results]. *)
Module TotalInfo.
Record t : Type := {
  score : Z;
  status : string;
  websiteType : string
}.
End TotalInfo.

(** A value of the [results] object: a metric result, or the total. *)
Inductive Entry : Type :=
| OfMetric (r : Result.t)
| OfTotal (t : TotalInfo.t).

(** [results], in insertion order. *)
Definition Results : Type := list (string * Entry).

(** [result.score]: both kinds of value have the property. *)
Definition scoreOf (result : Entry) : Z :=
  match result with
  | OfMetric r => Result.score r
  | OfTotal t => TotalInfo.score t
  end.

(** ** Issues *)

Module Issue.
Record t : Type := {
  metric : option string; (* [None]: [undefined] *)
  score : Z;
  severity : string;
  details : string;
  specificData : SpecificData;
  recommendations : list string
}.
End Issue.

(** [getIssueSeverity(score)]. *)
Definition getIssueSeverity (score : Z) : string :=
  if score <? 30 then "critical"
  else if score <? 50 then "high"
  else if score <? 65 then "medium"
  else "low".

(** [metric.name] for the value read from [this.metrics[key]]; reading a
    property of [undefined] throws. *)
Definition nameOf (metric : Js.Lookup Metric.t) : Js.Outcome (option string) :=
  match metric with
  | Js.Own m => Js.Return (Some (Metric.name m))
  | Js.Inherited member => Js.Return (Js.memberName member)
  | Js.Undefined => Js.Throw Js.TypeError
  end.

(** [extractIssueData(metricName, result, severity)].
    [result.recommendations.slice(0, 3)] throws unless [recommendations] is
    an array: the total has none and an inherited member has no [slice]. *)
Definition extractIssueData (metricName : option string) (result : Entry)
  (severity : string) : Js.Outcome Issue.t :=
  match result with
  | OfMetric r =>
      match Result.recommendations r with
      | Strings items =>
          Js.Return
            {| Issue.metric := metricName;
               Issue.score := Result.score r;
               Issue.severity := severity;
               Issue.details := Result.details r;
               Issue.specificData := Result.specificData r;
               Issue.recommendations := slice0 items 3 |}
      | Member _ => Js.Throw Js.TypeError
      end
  | OfTotal _ => Js.Throw Js.TypeError
  end.

(** The loop of [collectAllIssues] over [Object.entries(results)]. *)
Fixpoint collectLoop (this : Analyzer) (entries : Results)
  (issues : list Issue.t) : Js.Outcome (list Issue.t) :=
  match entries with
  | [] => Js.Return issues
  | (key, result) :: rest =>
      let metric := Js.get (metrics this) key in
      if scoreOf result <? 75 then
        let severity := getIssueSeverity (scoreOf result) in
        metricName <- nameOf metric ;;
        issueData <- extractIssueData metricName result severity ;;
        collectLoop this rest (issues ++ [issueData])
      else collectLoop this rest issues
  end.

(** The literal [severityOrder]. *)
Definition severityOrder : list (string * Z) :=
  [ ("critical", 0); ("high", 1); ("medium", 2); ("low", 3) ].

(** [severityOrder[s]] as an operand of [-]: anything but an own entry
    converts to [NaN]. *)
Definition severityRank (s : string) : Js.Number :=
  match Js.get severityOrder s with
  | Js.Own n => Js.Num n
  | Js.Inherited _ | Js.Undefined => Js.NaN
  end.

(** The comparator of the sort. *)
Definition compareSeverity (a b : Issue.t) : Js.Number :=
  Js.sub (severityRank (Issue.severity a)) (severityRank (Issue.severity b)).

(** [collectAllIssues(results)]. *)
Definition collectAllIssues (this : Analyzer) (results : Results)
  : Js.Outcome (list Issue.t) :=
  issues <- collectLoop this results [] ;;
  Js.Return (Js.sort compareSeverity issues).

(** ** Total score *)

Module Total.
Record t : Type := {
  score : Js.Number;
  status : string;
  weightedSum : Js.Number;
  totalWeight : Js.Number
}.
End Total.

(** [metric.weight] as an operand of [*] and [+]: an inherited member has no
    [weight], and [undefined] converts to [NaN]; reading it off [undefined]
    throws. *)
Definition weightOf (metric : Js.Lookup Metric.t) : Js.Outcome Js.Number :=
  match metric with
  | Js.Own m => Js.Return (Js.Num (Metric.weight m))
  | Js.Inherited _ => Js.Return Js.NaN
  | Js.Undefined => Js.Throw Js.TypeError
  end.

(** The loop of [calculateTotalScore]: the pair is
    ([weightedSum], [totalWeight]). *)
Fixpoint sumLoop (this : Analyzer) (entries : Results)
  (weightedSum totalWeight : Js.Number) : Js.Outcome (Js.Number * Js.Number) :=
  match entries with
  | [] => Js.Return (weightedSum, totalWeight)
  | (key, result) :: rest =>
      let metric := Js.get (metrics this) key in
      weight <- weightOf metric ;;
      let score := Js.Num (scoreOf result) in
      sumLoop this rest
        (Js.add weightedSum (Js.mul score weight))
        (Js.add totalWeight weight)
  end.

(** [calculateTotalScore(results)]. *)
Definition calculateTotalScore (this : Analyzer) (results : Results)
  : Js.Outcome Total.t :=
  sums <- sumLoop this results (Js.Num 0) (Js.Num 0) ;;
  let weightedSum := fst sums in
  let totalWeight := snd sums in
  let totalScore := Js.roundDiv weightedSum totalWeight in
  let status := getScoreStatus totalScore in
  Js.Return
    {| Total.score := totalScore;
       Total.status := status;
       Total.weightedSum := weightedSum;
       Total.totalWeight := totalWeight |}.

(** The total a report is displayed with:
    [results._totalScore || this.calculateTotalScore(results)].  A value
    stored under [_totalScore] is an object, hence truthy. *)
Inductive DisplayedTotal : Type :=
| Provided (value : Entry)
| Computed (total : Total.t).

Definition displayedTotal (this : Analyzer) (results : Results)
  : Js.Outcome DisplayedTotal :=
  match Js.ownProperty results "_totalScore" with
  | Some value => Js.Return (Provided value)
  | None =>
      total <- calculateTotalScore this results ;;
      Js.Return (Computed total)
  end.

(** ** The analysis stream *)

(** A metric of the report the backend sends: [details] is an array
    there. *)
Module Reported.
Record t : Type := {
  score : Z;
  status : string;
  details : list string;
  recommendations : list string;
  specificData : SpecificData
}.
End Reported.

(** The report carried by a [complete] event. *)
Module Report.
Record t : Type := {
  results : list (string * Reported.t);
  totalScore : Z;
  status : string;
  websiteType : string
}.
End Report.

(** A parsed event, by its [type]; [data] of a [complete] event is [None]
    when it is missing or otherwise falsy; an event of any other type is
    [Unknown]. *)
Inductive Event : Type :=
| Progress (message : string)
| Complete (data : option Report.t)
| Failed (message : string)
| Unknown.

(** The body of a response, as [reader.read()] delivers it: decoded chunks,
    then [done], unless a read is rejected. *)
Inductive Body : Type :=
| Done
| Chunk (value : string) (rest : Body)
| Rejected (e : Js.Exn).

Record Response : Type := {
  ok : bool;
  body : Body
}.

Record Request : Type := {
  endpoint : string;
  url : string;
  fullSiteAnalysis : bool
}.

(** The page, as far as the consumer changes it: the messages appended to
    the element [progressMessages], [None] when the page has no such
    element. *)
Definition Page : Type := option (list string).

(** Computations that change the page and may throw. *)
Definition Eff (A : Type) : Type := Page -> Page * Js.Outcome A.

Definition ret {A : Type} (a : A) : Eff A := fun page => (page, Js.Return a).

Definition throw {A : Type} (e : Js.Exn) : Eff A :=
  fun page => (page, Js.Throw e).

Definition andThen {A B : Type} (c : Eff A) (k : A -> Eff B) : Eff B :=
  fun page =>
    match c page with
    | (page', Js.Return a) => k a page'
    | (page', Js.Throw e) => (page', Js.Throw e)
    end.

Definition lift {A : Type} (c : Js.Outcome A) : Eff A :=
  fun page => (page, c).

Notation "x <~ c ;; k" := (andThen c (fun x => k))
  (at level 61, c at next level, right associativity).

(** [addProgressMessage(message)]. *)
Definition addProgressMessage (message : string) : Eff unit :=
  fun page =>
    match page with
    | None => (None, Js.Return tt)
    | Some shown => (Some (shown ++ [message])%list, Js.Return tt)
    end.

Definition isLF (c : ascii) : bool := Ascii.eqb c "010"%char.

(** Puts a character in front of the first piece. *)
Definition consFirst (c : ascii) (pieces : list string) : list string :=
  match pieces with
  | [] => [String c EmptyString]
  | p :: ps => String c p :: ps
  end.

(** [buffer.split('\n\n')]: cut at each pair of line feeds, left to
    right. *)
Fixpoint splitMessages (s : string) : list string :=
  match s with
  | EmptyString => [EmptyString]
  | String a rest =>
      match rest with
      | EmptyString => [String a EmptyString]
      | String b rest' =>
          if isLF a && isLF b then EmptyString :: splitMessages rest'
          else consFirst a (splitMessages rest)
      end
  end.

(** [line.slice(6)]. *)
Definition slice6 (line : string) : string :=
  String.substring 6 (String.length line - 6) line.

(** [obj[key] = value]: replaces the value of an own property or adds the
    property at the end; assigning to [__proto__] adds none. *)
Fixpoint replaceOrAdd {A : Type} (obj : list (string * A)) (key : string)
  (value : A) : list (string * A) :=
  match obj with
  | [] => [(key, value)]
  | (k, v) :: rest =>
      if String.eqb k key then (k, value) :: rest
      else (k, v) :: replaceOrAdd rest key value
  end.

Definition setProperty {A : Type} (obj : list (string * A)) (key : string)
  (value : A) : list (string * A) :=
  if String.eqb key "__proto__" then obj else replaceOrAdd obj key value.

(** The conversion of the report to the shape the views expect. *)
Definition toResult (metricData : Reported.t) : Result.t :=
  {| Result.score := Reported.score metricData;
     Result.status := Reported.status metricData;
     Result.details := Js.join "; " (Reported.details metricData);
     Result.recommendations := Strings (Reported.recommendations metricData);
     Result.specificData := Reported.specificData metricData |}.

Definition toResults (result : Report.t) : Results :=
  let results :=
    fold_left
      (fun results entry =>
         setProperty results (fst entry) (OfMetric (toResult (snd entry))))
      (Report.results result) [] in
  setProperty results "_totalScore"
    (OfTotal
       {| TotalInfo.score := Report.totalScore result;
          TotalInfo.status := Report.status result;
          TotalInfo.websiteType := Report.websiteType result |}).

Section Stream.

(** [fetch(apiUrl, ...)] and [JSON.parse] read as an event; either may
    throw. *)
Variable fetch : Request -> Js.Outcome Response.
Variable parse : string -> Js.Outcome Event.

(** One turn of [for (const line of lines)]; [result] is the local of that
    name. *)
Definition handleLine (line : string) (result : option Report.t)
  : Eff (option Report.t) :=
  if String.prefix "data: " line then
    data <~ lift (parse (slice6 line)) ;;
    match data with
    | Progress message =>
        _ <~ addProgressMessage message ;;
        ret result
    | Complete data => ret data
    | Failed message => throw (Js.Error message)
    | Unknown => ret result
    end
  else ret result.

Fixpoint handleLines (lines : list string) (result : option Report.t)
  : Eff (option Report.t) :=
  match lines with
  | [] => ret result
  | line :: rest =>
      result <~ handleLine line result ;;
      handleLines rest result
  end.

(** The [while (true)] loop over the reader. *)
Fixpoint readAll (stream : Body) (buffer : string) (result : option Report.t)
  : Eff (option Report.t) :=
  match stream with
  | Done => ret result
  | Rejected e => throw e
  | Chunk value rest =>
      let buffer := (buffer ++ value)%string in
      let lines := splitMessages buffer in
      let buffer := last lines EmptyString in
      let lines := removelast lines in
      result <~ handleLines lines result ;;
      readAll rest buffer result
  end.

(** [performAnalysis(url)].  The [catch] logs and throws the error on. *)
Definition performAnalysis (url : string) : Eff Results :=
  let url :=
    if negb (String.prefix "http://" url) && negb (String.prefix "https://" url)
    then ("https://" ++ url)%string else url in
  let apiUrl := "http://localhost:5001/api/analyze-stream" in
  response <~
    lift (fetch
            {| endpoint := apiUrl; url := url; fullSiteAnalysis := false |}) ;;
  if negb (ok response) then throw (Js.Error "分析请求失败")
  else
    result <~ readAll (body response) EmptyString None ;;
    match result with
    | None => throw (Js.Error "未收到分析结果")
    | Some result => ret (toResults result)
    end.

End Stream.

(** ** Penalty rules

    The rule tables of the evaluators, read off their [if] statements: the
    condition of the [if], the amount subtracted, the issue pushed, and the
    [guard], the condition under which control reaches the [if] at all:
    [true] for a statement at the top level of the function, the negation of
    the preceding conditions for an [else] or [else if]. *)

Record Rule (M : Type) : Type := {
  guard : M -> bool;
  condition : M -> bool;
  deduction : Z;
  issue : M -> string
}.
Arguments guard {M} r m.
Arguments condition {M} r m.
Arguments deduction {M} r.
Arguments issue {M} r m.

Definition always {M : Type} : M -> bool := fun _ => true.

(** A rule at the top level of an evaluator. *)
Definition rule {M : Type} (condition : M -> bool) (deduction : Z)
  (issue : M -> string) : Rule M :=
  {| guard := always; condition := condition; deduction := deduction;
     issue := issue |}.

(** A rule inside an [else]. *)
Definition ruleUnder {M : Type} (guard condition : M -> bool) (deduction : Z)
  (issue : M -> string) : Rule M :=
  {| guard := guard; condition := condition; deduction := deduction;
     issue := issue |}.

(** Every rule whose condition holds is applied, in order: the reading in
    which no rule is skipped on account of another. *)
Definition applyUnconditionally {M : Type} (rules : list (Rule M)) (m : M)
  : Tally :=
  fold_left
    (fun t r => if condition r m then penalize (deduction r) (issue r m) t else t)
    rules fresh.

(** A rule is applied when control reaches it and its condition holds. *)
Definition applyGuarded {M : Type} (rules : list (Rule M)) (m : M) : Tally :=
  fold_left
    (fun t r =>
       if guard r m && condition r m then penalize (deduction r) (issue r m) t
       else t)
    rules fresh.

(** The score and the details an evaluator derives from the final tally. *)
Definition conclude (t : Tally) (allClear : string) : Z * string :=
  (Z.max (points t) 0, describe t allClear).

Definition verdict (a : Analysis.t) : Z * string :=
  (Analysis.score a, Analysis.details a).

(** The sum of the deductions of the rules that fire. *)
Definition deducted {M : Type} (rules : list (Rule M)) (m : M) : Z :=
  fold_right
    (fun r acc => (if guard r m && condition r m then deduction r else 0) + acc)
    0 rules.

Definition pageSpeedRules : list (Rule PageSpeed.Measured) :=
  [ rule (fun m => PageSpeed.loadTime m >? 2000) 30
      (fun m => "页面加载时间过长: " ++ Js.show (PageSpeed.loadTime m) ++ "ms (建议 < 2000ms)");
    ruleUnder (fun m => negb (PageSpeed.loadTime m >? 2000))
      (fun m => PageSpeed.loadTime m >? 1500) 15
      (fun m => "页面加载时间较慢: " ++ Js.show (PageSpeed.loadTime m) ++ "ms (建议 < 1500ms)");
    rule (fun m => PageSpeed.totalSize m >? 1500) 25
      (fun m => "页面总大小过大: " ++ Js.show (PageSpeed.totalSize m) ++ "KB (建议 < 1500KB)");
    rule (fun m => PageSpeed.imageSize m >? 500) 20
      (fun m => "图片资源过大: " ++ Js.show (PageSpeed.imageSize m) ++ "KB (建议 < 500KB)");
    rule (fun m => PageSpeed.cssSize m >? 150) 10
      (fun m => "CSS文件过大: " ++ Js.show (PageSpeed.cssSize m) ++ "KB (建议 < 150KB)");
    rule (fun m => PageSpeed.jsSize m >? 200) 15
      (fun m => "JavaScript文件过大: " ++ Js.show (PageSpeed.jsSize m) ++ "KB (建议 < 200KB)") ].

Definition mobileOptimizationRules : list (Rule MobileOptimization.Measured) :=
  [ rule (fun m => negb (MobileOptimization.hasViewport m)) 40
      (fun _ => "缺少viewport meta标签");
    rule (fun m => MobileOptimization.smallTouchTargets m >? 3) 25
      (fun m => "有" ++ Js.show (MobileOptimization.smallTouchTargets m) ++ "个触摸目标过小 (< 44px)");
    rule (fun m => MobileOptimization.fontSize m <? 14) 20
      (fun m => "字体过小: " ++ Js.show (MobileOptimization.fontSize m) ++ "px (建议 ≥ 14px)");
    rule (fun m => negb (MobileOptimization.hasMobileMenu m)) 15
      (fun _ => "缺少移动端导航菜单") ].

Definition metaTagsRules : list (Rule MetaTags.Measured) :=
  [ rule (fun m => MetaTags.titleLength m <? 30) 20
      (fun m => "标题过短: " ++ Js.show (MetaTags.titleLength m) ++ "字符 (建议30-60字符)");
    ruleUnder (fun m => negb (MetaTags.titleLength m <? 30))
      (fun m => MetaTags.titleLength m >? 60) 15
      (fun m => "标题过长: " ++ Js.show (MetaTags.titleLength m) ++ "字符 (建议30-60字符)");
    rule (fun m => MetaTags.descriptionLength m <? 120) 15
      (fun m => "描述过短: " ++ Js.show (MetaTags.descriptionLength m) ++ "字符 (建议120-160字符)");
    ruleUnder (fun m => negb (MetaTags.descriptionLength m <? 120))
      (fun m => MetaTags.descriptionLength m >? 160) 10
      (fun m => "描述过长: " ++ Js.show (MetaTags.descriptionLength m) ++ "字符 (建议120-160字符)");
    rule (fun m => negb (MetaTags.hasKeywords m)) 5
      (fun _ => "缺少关键词meta标签");
    rule (fun m => negb (MetaTags.hasCanonical m)) 10
      (fun _ => "缺少canonical标签");
    rule (fun m => MetaTags.duplicateTitles m >? 0) 20
      (fun m => "发现" ++ Js.show (MetaTags.duplicateTitles m) ++ "个重复标题") ].

Definition headingStructureRules : list (Rule HeadingStructure.Measured) :=
  [ rule (fun m => HeadingStructure.h1Count m >? 1) 30
      (fun m => "发现" ++ Js.show (HeadingStructure.h1Count m) ++ "个H1标签 (建议每页只有1个)");
    rule (fun m => HeadingStructure.h1Count m =? 0) 40
      (fun _ => "缺少H1标签");
    rule (fun m => HeadingStructure.missingHeadings m >? 2) 20
      (fun m => "有" ++ Js.show (HeadingStructure.missingHeadings m) ++ "个页面缺少标题标签");
    rule (fun m => HeadingStructure.skippedLevels m >? 1) 15
      (fun m => "标题层级跳跃" ++ Js.show (HeadingStructure.skippedLevels m) ++ "次") ].

Definition imageOptimizationRules : list (Rule ImageOptimization.Measured) :=
  [ rule (fun m => ImageOptimization.largeImages m >? 3) 25
      (fun m => "有" ++ Js.show (ImageOptimization.largeImages m) ++ "张图片过大 (> 500KB)");
    rule (fun m => ImageOptimization.missingAlt m >? 2) 20
      (fun m => "有" ++ Js.show (ImageOptimization.missingAlt m) ++ "张图片缺少alt属性");
    rule (fun m => belowShare (ImageOptimization.webpImages m)
                     (ImageOptimization.totalImages m) float_0_2) 15
      (fun m => "只有" ++ Js.show (ImageOptimization.webpImages m) ++ "张图片使用WebP格式 (建议 > 20%)");
    rule (fun m => belowShare (ImageOptimization.lazyLoaded m)
                     (ImageOptimization.totalImages m) float_0_3) 10
      (fun m => "只有" ++ Js.show (ImageOptimization.lazyLoaded m) ++ "张图片使用懒加载 (建议 > 30%)") ].

Definition internalLinkingRules : list (Rule InternalLinking.Measured) :=
  [ rule (fun m => InternalLinking.brokenLinks m >? 1) 30
      (fun m => "发现" ++ Js.show (InternalLinking.brokenLinks m) ++ "个死链接");
    rule (fun m => InternalLinking.orphanPages m >? 3) 25
      (fun m => "有" ++ Js.show (InternalLinking.orphanPages m) ++ "个页面缺少内部链接");
    rule (fun m => InternalLinking.totalLinks m <? 20) 20
      (fun m => "内部链接数量较少: " ++ Js.show (InternalLinking.totalLinks m) ++ "个 (建议 > 20个)");
    rule (fun m => InternalLinking.deepLinks m >? 5) 15
      (fun m => "有" ++ Js.show (InternalLinking.deepLinks m) ++ "个链接层级过深 (> 3层)") ].

(** The first rule of the SSL evaluator assigns [score = 0]; it is the first
    statement to touch the score, which is still 100 there, so it takes off
    100. *)
Definition sslCertificateRules : list (Rule SSLCertificate.Measured) :=
  [ rule (fun m => negb (SSLCertificate.hasSSL m)) 100
      (fun _ => "网站未使用HTTPS");
    ruleUnder SSLCertificate.hasSSL
      (fun m => SSLCertificate.daysToExpire m <? 30) 20
      (fun m => "SSL证书将在" ++ Js.show (SSLCertificate.daysToExpire m) ++ "天后过期");
    ruleUnder SSLCertificate.hasSSL
      (fun m => negb (SSLCertificate.hasHSTS m)) 15
      (fun _ => "缺少HSTS安全头");
    ruleUnder SSLCertificate.hasSSL
      (fun m => SSLCertificate.mixedContent m >? 0) 25
      (fun m => "发现" ++ Js.show (SSLCertificate.mixedContent m) ++ "个混合内容问题") ].

Definition socialMediaTagsRules : list (Rule SocialMediaTags.Measured) :=
  [ rule (fun m => negb (SocialMediaTags.hasOpenGraph m)) 30
      (fun _ => "缺少Open Graph标签");
    rule (fun m => negb (SocialMediaTags.hasTwitterCards m)) 25
      (fun _ => "缺少Twitter Card标签");
    rule (fun m => negb (SocialMediaTags.hasImage m)) 20
      (fun _ => "缺少社交媒体图片");
    rule (fun m => negb (SocialMediaTags.hasDescription m)) 15
      (fun _ => "缺少社交媒体描述") ].

Definition contentQualityRules : list (Rule ContentQuality.Measured) :=
  [ rule (fun m => ContentQuality.wordCount m <? 500) 25
      (fun m => "内容过短: " ++ Js.show (ContentQuality.wordCount m) ++ "词 (建议 > 500词)");
    rule (fun m => (ContentQuality.keywordDensity m <? 1)
                   || (ContentQuality.keywordDensity m >? 3)) 20
      (fun m => "关键词密度不当: " ++ Js.show (ContentQuality.keywordDensity m) ++ "% (建议1-3%)");
    rule (fun m => ContentQuality.readabilityScore m <? 50) 15
      (fun m => "可读性较差: " ++ Js.show (ContentQuality.readabilityScore m) ++ "分 (建议 > 50分)");
    rule (fun m => ContentQuality.duplicateContent m >? 1) 30
      (fun m => "发现" ++ Js.show (ContentQuality.duplicateContent m) ++ "处重复内容");
    rule (fun m => ContentQuality.internalLinks m <? 3) 10
      (fun m => "内部链接较少: " ++ Js.show (ContentQuality.internalLinks m) ++ "个 (建议 > 3个)") ].

Definition urlStructureRules : list (Rule URLStructure.Measured) :=
  [ rule (fun m => URLStructure.urlLength m >? 60) 20
      (fun m => "URL过长: " ++ Js.show (URLStructure.urlLength m) ++ "字符 (建议 < 60字符)");
    rule (fun m => negb (URLStructure.hasKeywords m)) 25
      (fun _ => "URL中缺少关键词");
    rule URLStructure.hasSpecialChars 15
      (fun _ => "URL包含特殊字符");
    rule (fun m => URLStructure.depth m >? 3) 10
      (fun m => "URL层级过深: " ++ Js.show (URLStructure.depth m) ++ "层 (建议 < 3层)") ].

Definition robotsTxtRules : list (Rule RobotsTxt.Measured) :=
  [ rule (fun m => negb (RobotsTxt.hasRobotsTxt m)) 40
      (fun _ => "缺少robots.txt文件");
    ruleUnder RobotsTxt.hasRobotsTxt RobotsTxt.blocksImportantPages 30
      (fun _ => "robots.txt阻止了重要页面");
    ruleUnder RobotsTxt.hasRobotsTxt
      (fun m => negb (RobotsTxt.hasSitemapReference m)) 15
      (fun _ => "robots.txt中缺少sitemap引用");
    ruleUnder RobotsTxt.hasRobotsTxt RobotsTxt.blocksCSS 10
      (fun _ => "robots.txt阻止了CSS文件") ].

Definition sitemapRules : list (Rule Sitemap.Measured) :=
  [ rule (fun m => negb (Sitemap.hasSitemap m)) 50
      (fun _ => "缺少XML站点地图");
    ruleUnder Sitemap.hasSitemap (fun m => Sitemap.lastModified m >? 7) 20
      (fun m => "站点地图" ++ Js.show (Sitemap.lastModified m) ++ "天未更新");
    ruleUnder Sitemap.hasSitemap (fun m => negb (Sitemap.hasImages m)) 10
      (fun _ => "站点地图中缺少图片信息");
    ruleUnder Sitemap.hasSitemap (fun m => negb (Sitemap.submittedToGoogle m)) 15
      (fun _ => "站点地图未提交到Google Search Console") ].

(** An evaluator with the key it is dispatched on, the name it asks
    recommendations for, its rule table and its "no issue" text. *)
Record Evaluator : Type := {
  dispatchKey : string;
  displayName : string;
  Measured : Type;
  evaluate : Measured -> Analysis.t;
  rules : list (Rule Measured);
  allClear : string
}.

Definition evaluators : list Evaluator :=
  [ {| dispatchKey := "pageSpeed"; displayName := "Page Speed";
       evaluate := analyzePageSpeed; rules := pageSpeedRules;
       allClear := "页面速度表现良好" |};
    {| dispatchKey := "mobileOptimization"; displayName := "Mobile Optimization";
       evaluate := analyzeMobileOptimization; rules := mobileOptimizationRules;
       allClear := "移动优化表现良好" |};
    {| dispatchKey := "metaTags"; displayName := "Meta Tags";
       evaluate := analyzeMetaTags; rules := metaTagsRules;
       allClear := "Meta标签配置良好" |};
    {| dispatchKey := "headingStructure"; displayName := "Heading Structure";
       evaluate := analyzeHeadingStructure; rules := headingStructureRules;
       allClear := "标题结构合理" |};
    {| dispatchKey := "imageOptimization"; displayName := "Image Optimization";
       evaluate := analyzeImageOptimization; rules := imageOptimizationRules;
       allClear := "图片优化良好" |};
    {| dispatchKey := "internalLinking"; displayName := "Internal Linking";
       evaluate := analyzeInternalLinking; rules := internalLinkingRules;
       allClear := "内部链接结构良好" |};
    {| dispatchKey := "sslCertificate"; displayName := "SSL Certificate";
       evaluate := analyzeSSLCertificate; rules := sslCertificateRules;
       allClear := "SSL配置安全" |};
    {| dispatchKey := "socialMediaTags"; displayName := "Social Media Tags";
       evaluate := analyzeSocialMediaTags; rules := socialMediaTagsRules;
       allClear := "社交媒体标签完整" |};
    {| dispatchKey := "contentQuality"; displayName := "Content Quality";
       evaluate := analyzeContentQuality; rules := contentQualityRules;
       allClear := "内容质量良好" |};
    {| dispatchKey := "urlStructure"; displayName := "URL Structure";
       evaluate := analyzeURLStructure; rules := urlStructureRules;
       allClear := "URL结构良好" |};
    {| dispatchKey := "robotsTxt"; displayName := "Robots.txt";
       evaluate := analyzeRobotsTxt; rules := robotsTxtRules;
       allClear := "robots.txt配置正确" |};
    {| dispatchKey := "sitemap"; displayName := "XML Sitemap";
       evaluate := analyzeSitemap; rules := sitemapRules;
       allClear := "XML站点地图配置良好" |} ].

(** A rule is unguarded when control always reaches it. *)
Definition unguarded {M : Type} (r : Rule M) : Prop :=
  forall m, guard r m = true.

(** The evaluators all of whose statements stand at the top level, or whose
    [else if] tests a condition that excludes the one before it. *)
Definition flatEvaluators : list string :=
  [ "mobileOptimization"; "metaTags"; "headingStructure"; "imageOptimization";
    "internalLinking"; "socialMediaTags"; "contentQuality"; "urlStructure" ].

(** ** Sample inputs *)

(** A site without robots.txt whose measurements say that important pages
    are blocked. *)
Definition robotsWithoutFile : RobotsTxt.Measured :=
  {| RobotsTxt.hasRobotsTxt := false;
     RobotsTxt.blocksImportantPages := true;
     RobotsTxt.hasSitemapReference := true;
     RobotsTxt.blocksCSS := false |}.

(** A page that loads in 2.5 s and weighs 1600 KB. *)
Definition slowAndHeavy : PageSpeed.Measured :=
  {| PageSpeed.loadTime := 2500;
     PageSpeed.totalSize := 1600;
     PageSpeed.imageSize := 100;
     PageSpeed.cssSize := 100;
     PageSpeed.jsSize := 100 |}.

(** A certificate with every fault the SSL rules look for. *)
Definition weakCertificate : SSLCertificate.Measured :=
  {| SSLCertificate.hasSSL := true;
     SSLCertificate.daysToExpire := 10;
     SSLCertificate.hasHSTS := false;
     SSLCertificate.mixedContent := 2 |}.

(** A rule table without its second rule. *)
Definition withoutSecond {A : Type} (l : list A) : list A :=
  match l with
  | a :: _ :: rest => a :: rest
  | _ => l
  end.

(** Measurements for every evaluator: a page with nothing to report. *)
Definition sampleDraws : Draws :=
  {| forPageSpeed :=
       {| PageSpeed.loadTime := 1200; PageSpeed.totalSize := 900;
          PageSpeed.imageSize := 300; PageSpeed.cssSize := 80;
          PageSpeed.jsSize := 150 |};
     forMobileOptimization :=
       {| MobileOptimization.hasViewport := true;
          MobileOptimization.touchTargets := 12;
          MobileOptimization.smallTouchTargets := 1;
          MobileOptimization.fontSize := 16;
          MobileOptimization.hasMobileMenu := true |};
     forMetaTags :=
       {| MetaTags.titleLength := 45; MetaTags.descriptionLength := 140;
          MetaTags.hasKeywords := true; MetaTags.hasCanonical := true;
          MetaTags.duplicateTitles := 0; MetaTags.titleNumber := 7 |};
     forHeadingStructure :=
       {| HeadingStructure.h1Count := 1; HeadingStructure.h2Count := 4;
          HeadingStructure.h3Count := 6;
          HeadingStructure.missingHeadings := 0;
          HeadingStructure.skippedLevels := 0 |};
     forImageOptimization :=
       {| ImageOptimization.totalImages := 10;
          ImageOptimization.largeImages := 1;
          ImageOptimization.missingAlt := 0;
          ImageOptimization.webpImages := 2;
          ImageOptimization.lazyLoaded := 3 |};
     forInternalLinking :=
       {| InternalLinking.totalLinks := 30; InternalLinking.brokenLinks := 0;
          InternalLinking.externalLinks := 5; InternalLinking.orphanPages := 0;
          InternalLinking.deepLinks := 2 |};
     forSSLCertificate :=
       {| SSLCertificate.hasSSL := true; SSLCertificate.daysToExpire := 200;
          SSLCertificate.hasHSTS := true; SSLCertificate.mixedContent := 0 |};
     forSocialMediaTags :=
       {| SocialMediaTags.hasOpenGraph := true;
          SocialMediaTags.hasTwitterCards := true;
          SocialMediaTags.hasImage := true;
          SocialMediaTags.hasDescription := true |};
     forContentQuality :=
       {| ContentQuality.wordCount := 900; ContentQuality.keywordDensity := 2;
          ContentQuality.readabilityScore := 70;
          ContentQuality.duplicateContent := 0;
          ContentQuality.internalLinks := 5 |};
     forURLStructure :=
       {| URLStructure.urlLength := 30; URLStructure.hasKeywords := true;
          URLStructure.hasSpecialChars := false;
          URLStructure.hasNumbers := false; URLStructure.depth := 2 |};
     forRobotsTxt :=
       {| RobotsTxt.hasRobotsTxt := true;
          RobotsTxt.blocksImportantPages := false;
          RobotsTxt.hasSitemapReference := true;
          RobotsTxt.blocksCSS := false |};
     forSitemap :=
       {| Sitemap.hasSitemap := true; Sitemap.totalPages := 40;
          Sitemap.lastModified := 3; Sitemap.hasImages := true;
          Sitemap.submittedToGoogle := true |} |}.

(** ** The dispatch with the evaluators as methods *)

(** What the call of each evaluator method gives.  The dispatch calls the
    evaluators as methods of [this]; the methods of the class return, a
    method put in their place (a forced fault) may throw. *)
Module Methods.
Record t : Type := {
  analyzePageSpeed : Js.Outcome Analysis.t;
  analyzeMobileOptimization : Js.Outcome Analysis.t;
  analyzeMetaTags : Js.Outcome Analysis.t;
  analyzeHeadingStructure : Js.Outcome Analysis.t;
  analyzeImageOptimization : Js.Outcome Analysis.t;
  analyzeInternalLinking : Js.Outcome Analysis.t;
  analyzeSSLCertificate : Js.Outcome Analysis.t;
  analyzeSocialMediaTags : Js.Outcome Analysis.t;
  analyzeContentQuality : Js.Outcome Analysis.t;
  analyzeURLStructure : Js.Outcome Analysis.t;
  analyzeRobotsTxt : Js.Outcome Analysis.t;
  analyzeSitemap : Js.Outcome Analysis.t
}.
End Methods.

(** [generateDetailedAnalysis(metricKey, url)] with the methods it calls:
    each case returns what the method gives, and nothing catches what it
    throws. *)
Definition generateDetailedAnalysisWith (methods : Methods.t)
  (metricKey : option string) : Js.Outcome Analysis.t :=
  if isCase metricKey "pageSpeed" then Methods.analyzePageSpeed methods
  else if isCase metricKey "mobileOptimization"
  then Methods.analyzeMobileOptimization methods
  else if isCase metricKey "metaTags" then Methods.analyzeMetaTags methods
  else if isCase metricKey "headingStructure"
  then Methods.analyzeHeadingStructure methods
  else if isCase metricKey "imageOptimization"
  then Methods.analyzeImageOptimization methods
  else if isCase metricKey "internalLinking"
  then Methods.analyzeInternalLinking methods
  else if isCase metricKey "sslCertificate"
  then Methods.analyzeSSLCertificate methods
  else if isCase metricKey "socialMediaTags"
  then Methods.analyzeSocialMediaTags methods
  else if isCase metricKey "contentQuality"
  then Methods.analyzeContentQuality methods
  else if isCase metricKey "urlStructure"
  then Methods.analyzeURLStructure methods
  else if isCase metricKey "robotsTxt" then Methods.analyzeRobotsTxt methods
  else if isCase metricKey "sitemap" then Methods.analyzeSitemap methods
  else Js.Return fallbackAnalysis.

(** [generateMetricResult(metric, url)] with the methods. *)
Definition generateMetricResultWith (methods : Methods.t) (this : Analyzer)
  (metric : MetricRef) : Js.Outcome Result.t :=
  let metricKey := keyOfMetric this metric in
  detailedAnalysis <- generateDetailedAnalysisWith methods metricKey ;;
  Js.Return
    {| Result.score := Analysis.score detailedAnalysis;
       Result.status :=
         getScoreStatus (Js.Num (Analysis.score detailedAnalysis));
       Result.recommendations := Analysis.recommendations detailedAnalysis;
       Result.details := Analysis.details detailedAnalysis;
       Result.specificData := Analysis.specificData detailedAnalysis |}.

(** The methods of the class, on given draws. *)
Definition ownMethods (d : Draws) : Methods.t :=
  {| Methods.analyzePageSpeed := Js.Return (analyzePageSpeed (forPageSpeed d));
     Methods.analyzeMobileOptimization :=
       Js.Return (analyzeMobileOptimization (forMobileOptimization d));
     Methods.analyzeMetaTags := Js.Return (analyzeMetaTags (forMetaTags d));
     Methods.analyzeHeadingStructure :=
       Js.Return (analyzeHeadingStructure (forHeadingStructure d));
     Methods.analyzeImageOptimization :=
       Js.Return (analyzeImageOptimization (forImageOptimization d));
     Methods.analyzeInternalLinking :=
       Js.Return (analyzeInternalLinking (forInternalLinking d));
     Methods.analyzeSSLCertificate :=
       Js.Return (analyzeSSLCertificate (forSSLCertificate d));
     Methods.analyzeSocialMediaTags :=
       Js.Return (analyzeSocialMediaTags (forSocialMediaTags d));
     Methods.analyzeContentQuality :=
       Js.Return (analyzeContentQuality (forContentQuality d));
     Methods.analyzeURLStructure :=
       Js.Return (analyzeURLStructure (forURLStructure d));
     Methods.analyzeRobotsTxt := Js.Return (analyzeRobotsTxt (forRobotsTxt d));
     Methods.analyzeSitemap := Js.Return (analyzeSitemap (forSitemap d)) |}.

(** The methods of the class but for the page speed evaluator, which is
    made to throw. *)
Definition forcedFault (d : Draws) : Methods.t :=
  {| Methods.analyzePageSpeed := Js.Throw (Js.Error "forced fault");
     Methods.analyzeMobileOptimization :=
       Methods.analyzeMobileOptimization (ownMethods d);
     Methods.analyzeMetaTags := Methods.analyzeMetaTags (ownMethods d);
     Methods.analyzeHeadingStructure :=
       Methods.analyzeHeadingStructure (ownMethods d);
     Methods.analyzeImageOptimization :=
       Methods.analyzeImageOptimization (ownMethods d);
     Methods.analyzeInternalLinking :=
       Methods.analyzeInternalLinking (ownMethods d);
     Methods.analyzeSSLCertificate :=
       Methods.analyzeSSLCertificate (ownMethods d);
     Methods.analyzeSocialMediaTags :=
       Methods.analyzeSocialMediaTags (ownMethods d);
     Methods.analyzeContentQuality :=
       Methods.analyzeContentQuality (ownMethods d);
     Methods.analyzeURLStructure := Methods.analyzeURLStructure (ownMethods d);
     Methods.analyzeRobotsTxt := Methods.analyzeRobotsTxt (ownMethods d);
     Methods.analyzeSitemap := Methods.analyzeSitemap (ownMethods d) |}.

(** The twelve metric keys with the method each is dispatched to. *)
Definition dispatched (methods : Methods.t)
  : list (string * Js.Outcome Analysis.t) :=
  [ ("pageSpeed", Methods.analyzePageSpeed methods);
    ("mobileOptimization", Methods.analyzeMobileOptimization methods);
    ("metaTags", Methods.analyzeMetaTags methods);
    ("headingStructure", Methods.analyzeHeadingStructure methods);
    ("imageOptimization", Methods.analyzeImageOptimization methods);
    ("internalLinking", Methods.analyzeInternalLinking methods);
    ("sslCertificate", Methods.analyzeSSLCertificate methods);
    ("socialMediaTags", Methods.analyzeSocialMediaTags methods);
    ("contentQuality", Methods.analyzeContentQuality methods);
    ("urlStructure", Methods.analyzeURLStructure methods);
    ("robotsTxt", Methods.analyzeRobotsTxt methods);
    ("sitemap", Methods.analyzeSitemap methods) ].

(** ** Sums over the weight table *)

Definition sumZ (l : list Z) : Z := fold_right Z.add 0 l.

(** The weight the table gives a key (0 for a key that is not in it). *)
Definition tableWeight (key : string) : Z :=
  match Js.ownProperty metricTable key with
  | Some m => Metric.weight m
  | None => 0
  end.

(** The sum of score times weight over the entries of [results]. *)
Definition weightedScores (results : Results) : Z :=
  sumZ (map (fun entry => scoreOf (snd entry) * tableWeight (fst entry)) results).

(** A results object with the twelve metrics, all at the same score. *)
Definition uniformResults (s : Z) : Results :=
  map
    (fun key =>
       (key,
        OfMetric
          {| Result.score := s;
             Result.status := getScoreStatus (Js.Num s);
             Result.recommendations := Strings [];
             Result.details := "";
             Result.specificData := Empty |}))
    metricKeys.

(** The total of section 4.4 of the specification, for comparison, in exact
    arithmetic: [round(weightedSum / 100 * 1.2)] clamped to [0, 120]. *)
Definition specifiedTotalScore (weightedSum : Z) : Z :=
  Z.min 120 (Z.max 0 ((2 * (12 * weightedSum) + 1000) / 2000)).

(** ** Issues expected of a results object *)

(** An entry of [results] that is the result of one of the twelve metrics,
    with an array of recommendations. *)
Definition metricEntry (entry : string * Entry) : Prop :=
  In (fst entry) metricKeys
  /\ match snd entry with
     | OfMetric r =>
         match Result.recommendations r with
         | Strings _ => True
         | Member _ => False
         end
     | OfTotal _ => False
     end.

(** [result.score < 75]. *)
Definition needsAttention (entry : string * Entry) : bool :=
  scoreOf (snd entry) <? 75.

(** The issue an entry gives rise to: the name of its metric, its score, the
    severity of that score, its details and data, and its first three
    recommendations. *)
Definition expectedIssue (entry : string * Entry) : Issue.t :=
  {| Issue.metric :=
       option_map Metric.name (Js.ownProperty metricTable (fst entry));
     Issue.score := scoreOf (snd entry);
     Issue.severity := getIssueSeverity (scoreOf (snd entry));
     Issue.details :=
       match snd entry with
       | OfMetric r => Result.details r
       | OfTotal _ => ""
       end;
     Issue.specificData :=
       match snd entry with
       | OfMetric r => Result.specificData r
       | OfTotal _ => Empty
       end;
     Issue.recommendations :=
       match snd entry with
       | OfMetric r =>
           match Result.recommendations r with
           | Strings items => slice0 items 3
           | Member _ => []
           end
       | OfTotal _ => []
       end |}.

(** The rank [severityOrder] gives a severity (4 for any other string). *)
Definition rankOfSeverity (severity : string) : Z :=
  match Js.ownProperty severityOrder severity with
  | Some n => n
  | None => 4
  end.

(** An issue whose severity was computed from its score. *)
Definition graded (i : Issue.t) : Prop :=
  Issue.severity i = getIssueSeverity (Issue.score i).

(** A metric result with a score and nothing else of note. *)
Definition scored (key : string) (s : Z) : string * Entry :=
  (key,
   OfMetric
     {| Result.score := s;
        Result.status := getScoreStatus (Js.Num s);
        Result.recommendations :=
          Strings ["first"; "second"; "third"; "fourth"];
        Result.details := "";
        Result.specificData := Empty |}).

(** ** Well-formed streams *)

(** A body that delivers the given chunks and ends normally. *)
Definition bodyOf (chunks : list string) : Body :=
  fold_right Chunk Done chunks.

(** The text the chunks add up to. *)
Definition textOf (chunks : list string) : string :=
  fold_right String.append EmptyString chunks.

Definition lineFeed : string := String "010"%char EmptyString.

(** The wire format of the events: each payload after ["data: "], followed
    by two line feeds. *)
Definition frame (payloads : list string) : string :=
  textOf (map (fun payload => "data: " ++ payload ++ lineFeed ++ lineFeed)
            payloads).

(** A payload on one line, as [JSON.stringify] writes it. *)
Fixpoint singleLine (s : string) : Prop :=
  match s with
  | EmptyString => True
  | String c rest => isLF c = false /\ singleLine rest
  end.

(** How a stream ends: without a terminal event, with an [error] event, or
    with a [complete] event. *)
Inductive Ending : Type :=
| NoTerminal
| Errored (message : string)
| Completed (data : option Report.t).

Definition terminalEvents (ending : Ending) : list Event :=
  match ending with
  | NoTerminal => []
  | Errored message => [Failed message]
  | Completed data => [Complete data]
  end.

(** A report as [JSON.parse] gives it from the backend: its metric keys are
    distinct, and none of them is [__proto__] or [_totalScore]. *)
Definition wellKeyed (report : Report.t) : Prop :=
  NoDup (Js.keys (Report.results report))
  /\ ~ In "__proto__" (Js.keys (Report.results report))
  /\ ~ In "_totalScore" (Js.keys (Report.results report)).

(** The report a [complete] event carries, as the caller is to get it: the
    metrics in the report's order, each under its key with the score, the
    status, the recommendations and the data of the report and with its
    details in one text, the pieces separated by a semicolon and a space;
    then, under [_totalScore], the total, the status and the website type
    of the report. *)
Definition converted (report : Report.t) : Results :=
  (map
     (fun entry =>
        (fst entry,
         OfMetric
           {| Result.score := Reported.score (snd entry);
              Result.status := Reported.status (snd entry);
              Result.recommendations :=
                Strings (Reported.recommendations (snd entry));
              Result.details :=
                String.concat "; " (Reported.details (snd entry));
              Result.specificData := Reported.specificData (snd entry) |}))
     (Report.results report)
   ++ [("_totalScore",
        OfTotal
          {| TotalInfo.score := Report.totalScore report;
             TotalInfo.status := Report.status report;
             TotalInfo.websiteType := Report.websiteType report |})])%list.

(** What the caller of [performAnalysis] is to get for each ending. *)
Definition decided (ending : Ending) : Js.Outcome Results :=
  match ending with
  | NoTerminal => Js.Throw (Js.Error "未收到分析结果")
  | Errored message => Js.Throw (Js.Error message)
  | Completed (Some report) => Js.Return (converted report)
  | Completed None => Js.Throw (Js.Error "未收到分析结果")
  end.

(** The report of a [complete] event is well keyed. *)
Definition wellFormed (ending : Ending) : Prop :=
  match ending with
  | Completed (Some report) => wellKeyed report
  | _ => True
  end.

(** The page after the given messages were appended. *)
Definition showing (page : Page) (messages : list string) : Page :=
  option_map (fun shown => shown ++ messages)%list page.

Definition isProgress (event : Event) : bool :=
  match event with
  | Progress _ => true
  | _ => false
  end.

(** A report with two metrics. *)
Definition sampleReport : Report.t :=
  {| Report.results :=
       [ ("pageSpeed",
          {| Reported.score := 85;
             Reported.status := "good";
             Reported.details := ["slow images"; "no caching"];
             Reported.recommendations := ["Enable browser caching"];
             Reported.specificData := Reported [("loadTime", "1800")] |});
         ("sitemap",
          {| Reported.score := 100;
             Reported.status := "excellent";
             Reported.details := [];
             Reported.recommendations := [];
             Reported.specificData := Reported [] |}) ];
     Report.totalScore := 104;
     Report.status := "excellent";
     Report.websiteType := "content" |}.

(** A report with two weak metrics and a total below 75. *)
Definition lowReport : Report.t :=
  {| Report.results :=
       [ ("pageSpeed",
          {| Reported.score := 40;
             Reported.status := "poor";
             Reported.details := ["slow images"; "no caching"];
             Reported.recommendations := ["Enable browser caching"];
             Reported.specificData := Reported [("loadTime", "3200")] |});
         ("sitemap",
          {| Reported.score := 70;
             Reported.status := "warning";
             Reported.details := ["not submitted"];
             Reported.recommendations := [];
             Reported.specificData := Reported [] |}) ];
     Report.totalScore := 54;
     Report.status := "poor";
     Report.websiteType := "content" |}.

(** A server that answers every request with the same two chunks, cut in
    the middle of a separator, and a reader of the two payloads. *)
Definition sampleFetch (request : Request) : Js.Outcome Response :=
  Js.Return
    {| ok := true;
       body :=
         bodyOf [ "data: P" ++ lineFeed;
                  lineFeed ++ "data: C" ++ lineFeed ++ lineFeed ] |}.

Definition sampleParse (payload : string) : Js.Outcome Event :=
  if String.eqb payload "P" then Js.Return (Progress "half way")
  else if String.eqb payload "C" then Js.Return (Complete (Some sampleReport))
  else Js.Throw Js.SyntaxError.

(** The consumer on the parsed events of a stream: what the loop does with
    the lines once they are cut out and parsed. *)
Fixpoint consumeEvents (events : list Event) (result : option Report.t)
  : Eff (option Report.t) :=
  match events with
  | [] => ret result
  | Progress message :: rest =>
      _ <~ addProgressMessage message ;;
      consumeEvents rest result
  | Complete data :: rest => consumeEvents rest data
  | Failed message :: _ => throw (Js.Error message)
  | Unknown :: rest => consumeEvents rest result
  end.

Definition isFailed (event : Event) : bool :=
  match event with
  | Failed _ => true
  | _ => false
  end.

(** The data of the last [complete] event, or [result] when there is
    none. *)
Fixpoint lastComplete (events : list Event) (result : option Report.t)
  : option Report.t :=
  match events with
  | [] => result
  | Complete data :: rest => lastComplete rest data
  | _ :: rest => lastComplete rest result
  end.

(** ** More of the analyzer: URL check, labels and key data *)

(** [if (!s.startsWith('http://') && !s.startsWith('https://')) s = 'https://' + s],
    the statement [isValidUrl] and [performAnalysis] both begin with. *)
Definition withProtocol (s : string) : string :=
  if negb (String.prefix "http://" s) && negb (String.prefix "https://" s)
  then ("https://" ++ s)%string else s.

Section UrlCheck.

(** [new URL(string)], which throws on a string that is not a URL. *)
Variable newURL : string -> Js.Outcome unit.

(** [isValidUrl(string)]. *)
Definition isValidUrl (s : string) : bool :=
  match newURL (withProtocol s) with
  | Js.Return _ => true
  | Js.Throw _ => false
  end.

End UrlCheck.

(** The messages of the progress events, in order. *)
Fixpoint progressMessages (events : list Event) : list string :=
  match events with
  | [] => []
  | Progress message :: rest => message :: progressMessages rest
  | _ :: rest => progressMessages rest
  end.

(** Two line feeds in a row somewhere in the text. *)
Fixpoint hasBlankLine (s : string) : bool :=
  match s with
  | EmptyString => false
  | String a rest =>
      match rest with
      | EmptyString => false
      | String b _ => (isLF a && isLF b) || hasBlankLine rest
      end
  end.

(** What [performAnalysis] makes of the local [result] after the loop. *)
Definition settle (result : option Report.t) : Js.Outcome Results :=
  match result with
  | None => Js.Throw (Js.Error "未收到分析结果")
  | Some report => Js.Return (toResults report)
  end.

(** ** Sample streams *)

(** The sample stream in one chunk, and in three chunks cut inside a
    payload and inside a separator. *)
Definition oneChunk : list string :=
  [ "data: P" ++ lineFeed ++ lineFeed ++ "data: C" ++ lineFeed ++ lineFeed ].

Definition threeChunks : list string :=
  [ "data"; ": P" ++ lineFeed; lineFeed ++ "data: C" ++ lineFeed ++ lineFeed ].

(** The sample stream with a complete event that no blank line follows. *)
Definition cutShort : list string :=
  [ "data: P" ++ lineFeed ++ lineFeed; "data: C" ].

Definition progressOnly : list string :=
  [ "data: P" ++ lineFeed ++ lineFeed ].

(** A server that answers every request with the given chunks. *)
Definition serving (chunks : list string) (request : Request)
  : Js.Outcome Response :=
  Js.Return {| ok := true; body := bodyOf chunks |}.

(** A reader of five payloads: progress, complete, error, a second complete
    without data, and anything else is not JSON. *)
Definition readEvent (payload : string) : Js.Outcome Event :=
  if String.eqb payload "P" then Js.Return (Progress "half way")
  else if String.eqb payload "C" then Js.Return (Complete (Some sampleReport))
  else if String.eqb payload "E" then Js.Return (Failed "backend down")
  else if String.eqb payload "N" then Js.Return (Complete None)
  else Js.Throw Js.SyntaxError.

(** The sample events sent one after another in one chunk. *)
Definition sending (payloads : list string) : list string := [frame payloads].

(** A server whose request fails, and one that answers with a status other
    than 2xx. *)
Definition unreachable (request : Request) : Js.Outcome Response :=
  Js.Throw Js.TypeError.

Definition refusing (request : Request) : Js.Outcome Response :=
  Js.Return {| ok := false; body := bodyOf (sending ["C"]) |}.

(** What a request that brought no readable response throws. *)
Definition requestError (outcome : Js.Outcome Response) : Js.Exn :=
  match outcome with
  | Js.Throw e => e
  | Js.Return _ => Js.Error "分析请求失败"
  end.

(** A server whose body breaks off after the given events. *)
Definition breakingOff (payloads : list string) (e : Js.Exn)
  (request : Request) : Js.Outcome Response :=
  Js.Return {| ok := true; body := Chunk (frame payloads) (Rejected e) |}.

(** The request [performAnalysis] sends for an address. *)
Definition requestFor (address : string) : Request :=
  {| endpoint := "http://localhost:5001/api/analyze-stream";
     url := withProtocol address;
     fullSiteAnalysis := false |}.

(** A server that knows one address only. *)
Definition onlyExample (request : Request) : Js.Outcome Response :=
  if String.eqb (url request) "https://example.com"
  then serving oneChunk request else unreachable request.

(** ** Totals of partial results *)

(** The sum of the weights of the metrics present in [results]. *)
Definition weightPresent (results : Results) : Z :=
  sumZ (map tableWeight (Js.keys results)).

(** The weighted mean of the scores present, rounded as [Math.round]
    does. *)
Definition meanOfPresent (results : Results) : Z :=
  (2 * weightedScores results + weightPresent results)
  / (2 * weightPresent results).

(** Two results objects with the same keys in the same order, the scores of
    the second at least those of the first. *)
Definition noLower (results1 results2 : Results) : Prop :=
  Forall2
    (fun entry1 entry2 =>
       fst entry1 = fst entry2
       /\ scoreOf (snd entry1) <= scoreOf (snd entry2))
    results1 results2.

(** Results for two of the twelve metrics. *)
Definition twoResults : Results := [ scored "pageSpeed" 80; scored "sitemap" 60 ].

Definition twoBetter : Results := [ scored "pageSpeed" 85; scored "sitemap" 60 ].

(** A key is read from the table as [undefined]. *)
Definition unknownKey (this : Analyzer) (key : string) : Prop :=
  Js.get (metrics this) key = Js.Undefined.

(** A key names a member the table inherits. *)
Definition inheritedKey (this : Analyzer) (key : string) : Prop :=
  exists member, Js.get (metrics this) key = Js.Inherited member.

(** Results with a key the table inherits, and results with a key it does
    not have. *)
Definition withInherited : Results := [ scored "pageSpeed" 80; scored "toString" 60 ].

(** ** Labels *)

(** What [table[key] || fallback] evaluates to for a table of strings: the
    own entry unless it is empty, a member inherited from
    [Object.prototype] (a function or an object, hence truthy), or the
    fallback. *)
Inductive Label : Type :=
| LabelText (text : string)
| LabelMember (member : string).

Definition orElse (found : Js.Lookup string) (fallback : string) : Label :=
  match found with
  | Js.Own text =>
      if String.eqb text EmptyString then LabelText fallback else LabelText text
  | Js.Inherited member => LabelMember member
  | Js.Undefined => LabelText fallback
  end.

(** [getStatusText(status)]. *)
Definition getStatusText (status : string) : Label :=
  let statusTexts :=
    [ ("excellent", "优秀"); ("good", "良好"); ("warning", "一般");
      ("poor", "较差") ] in
  orElse (Js.get statusTexts status) "未知".

(** [getStatusIcon(status)]. *)
Definition getStatusIcon (status : string) : Label :=
  let statusIcons :=
    [ ("excellent", "fas fa-star"); ("good", "fas fa-check-circle");
      ("warning", "fas fa-exclamation-triangle");
      ("poor", "fas fa-times-circle") ] in
  orElse (Js.get statusIcons status) "fas fa-question-circle".

(** [getSeverityText(severity)]. *)
Definition getSeverityText (severity : string) : Label :=
  let texts :=
    [ ("critical", "严重"); ("high", "高"); ("medium", "中"); ("low", "低") ] in
  orElse (Js.get texts severity) "未知".

(** [getSeverityIcon(severity)]. *)
Definition getSeverityIcon (severity : string) : Label :=
  let icons :=
    [ ("critical", "fas fa-times-circle");
      ("high", "fas fa-exclamation-triangle");
      ("medium", "fas fa-exclamation-circle");
      ("low", "fas fa-info-circle") ] in
  orElse (Js.get icons severity) "fas fa-question-circle".

(** The four statuses from worst to best. *)
Definition statusGrade (status : string) : Z :=
  if String.eqb status "excellent" then 3
  else if String.eqb status "good" then 2
  else if String.eqb status "warning" then 1
  else 0.

(** A label is a text other than the fallback. *)
Definition properLabel (label : Label) (fallback : string) : Prop :=
  exists text, label = LabelText text /\ text <> fallback.

(** ** Issues in the order they are listed *)

(** The issues of one severity, in the order they have in the list. *)
Definition ofSeverity (severity : string) (issues : list Issue.t)
  : list Issue.t :=
  filter (fun i => String.eqb (Issue.severity i) severity) issues.

(** The issues by severity, each severity in the order of the list. *)
Definition bySeverity (issues : list Issue.t) : list Issue.t :=
  (ofSeverity "critical" issues ++ ofSeverity "high" issues
   ++ ofSeverity "medium" issues ++ ofSeverity "low" issues)%list.

(** An entry the loop of [collectAllIssues] cannot turn into an issue: its
    score is below 75 and either the table has no metric for its key or it
    has no array of recommendations. *)
Definition uncollectable (this : Analyzer) (entry : string * Entry) : Prop :=
  scoreOf (snd entry) < 75
  /\ (unknownKey this (fst entry)
      \/ match snd entry with
         | OfMetric r =>
             match Result.recommendations r with
             | Strings _ => False
             | Member _ => True
             end
         | OfTotal _ => True
         end).

(** Results with two warnings around a critical result. *)
Definition twoWarnings : Results :=
  [ scored "pageSpeed" 70; scored "metaTags" 20; scored "sitemap" 66;
    scored "robotsTxt" 95 ].

(** Results with a metric the table does not have. *)
Definition withUnknown : Results :=
  [ scored "pageSpeed" 90; scored "coreWebVitals" 40 ].

(** ** What the evaluators can return *)

(** A rule fires when control reaches it and its condition holds. *)
Definition fired {M : Type} (m : M) (r : Rule M) : bool :=
  guard r m && condition r m.

(** The issues of the rules that fire, in the order of the table. *)
Definition firedIssues {M : Type} (rules : list (Rule M)) (m : M)
  : list string :=
  map (fun r => issue r m) (filter (fired m) rules).

(** [Math.floor(Math.random() * count) + lowest]: an integer from [lowest]
    to [lowest + count - 1]. *)
Definition drawn (lowest count : Z) (x : Z) : Prop :=
  lowest <= x < lowest + count.

(** The numbers [analyzeMetaTags], [analyzeHeadingStructure] and
    [analyzeContentQuality] draw. *)
Definition metaTagsDrawn (m : MetaTags.Measured) : Prop :=
  drawn 30 40 (MetaTags.titleLength m)
  /\ drawn 100 60 (MetaTags.descriptionLength m)
  /\ drawn 0 3 (MetaTags.duplicateTitles m)
  /\ drawn 0 1000 (MetaTags.titleNumber m).

Definition headingStructureDrawn (m : HeadingStructure.Measured) : Prop :=
  drawn 1 3 (HeadingStructure.h1Count m)
  /\ drawn 2 8 (HeadingStructure.h2Count m)
  /\ drawn 3 12 (HeadingStructure.h3Count m)
  /\ drawn 0 5 (HeadingStructure.missingHeadings m)
  /\ drawn 0 3 (HeadingStructure.skippedLevels m).

Definition contentQualityDrawn (m : ContentQuality.Measured) : Prop :=
  drawn 300 2000 (ContentQuality.wordCount m)
  /\ drawn 1 3 (ContentQuality.keywordDensity m)
  /\ drawn 40 40 (ContentQuality.readabilityScore m)
  /\ drawn 0 3 (ContentQuality.duplicateContent m)
  /\ drawn 2 10 (ContentQuality.internalLinks m).

(** The numbers the other evaluators draw; a flag drawn as
    [Math.random() > p] can be either. *)
Definition pageSpeedDrawn (m : PageSpeed.Measured) : Prop :=
  drawn 500 3000 (PageSpeed.loadTime m)
  /\ drawn 500 2000 (PageSpeed.totalSize m)
  /\ drawn 200 800 (PageSpeed.imageSize m)
  /\ drawn 50 200 (PageSpeed.cssSize m)
  /\ drawn 100 300 (PageSpeed.jsSize m).

Definition mobileOptimizationDrawn (m : MobileOptimization.Measured) : Prop :=
  drawn 5 20 (MobileOptimization.touchTargets m)
  /\ drawn 0 8 (MobileOptimization.smallTouchTargets m)
  /\ drawn 12 8 (MobileOptimization.fontSize m).

(** [Math.floor(Math.random() * totalImages * share)] for a share of so many
    tenths: from 0 to that share of the images, at most. *)
Definition drawnShare (tenths totalImages : Z) (x : Z) : Prop :=
  0 <= x /\ 10 * x <= tenths * totalImages.

Definition imageOptimizationDrawn (m : ImageOptimization.Measured) : Prop :=
  drawn 5 20 (ImageOptimization.totalImages m)
  /\ drawn 1 8 (ImageOptimization.largeImages m)
  /\ drawn 0 6 (ImageOptimization.missingAlt m)
  /\ drawnShare 3 (ImageOptimization.totalImages m)
       (ImageOptimization.webpImages m)
  /\ drawnShare 4 (ImageOptimization.totalImages m)
       (ImageOptimization.lazyLoaded m).

Definition internalLinkingDrawn (m : InternalLinking.Measured) : Prop :=
  drawn 10 50 (InternalLinking.totalLinks m)
  /\ drawn 0 5 (InternalLinking.brokenLinks m)
  /\ drawn 5 15 (InternalLinking.externalLinks m)
  /\ drawn 0 8 (InternalLinking.orphanPages m)
  /\ drawn 0 10 (InternalLinking.deepLinks m).

Definition sslCertificateDrawn (m : SSLCertificate.Measured) : Prop :=
  drawn 1 365 (SSLCertificate.daysToExpire m)
  /\ drawn 0 3 (SSLCertificate.mixedContent m).

Definition socialMediaTagsDrawn (m : SocialMediaTags.Measured) : Prop := True.

Definition urlStructureDrawn (m : URLStructure.Measured) : Prop :=
  drawn 20 50 (URLStructure.urlLength m)
  /\ drawn 1 4 (URLStructure.depth m).

Definition robotsTxtDrawn (m : RobotsTxt.Measured) : Prop := True.

Definition sitemapDrawn (m : Sitemap.Measured) : Prop :=
  drawn 10 100 (Sitemap.totalPages m)
  /\ drawn 1 30 (Sitemap.lastModified m).

(** [lowest] is the lowest score an evaluator returns on the numbers it
    draws: no draw gives less, and some draw gives it. *)
Definition lowestDrawn {M : Type} (evaluate : M -> Analysis.t)
  (drawable : M -> Prop) (lowest : Z) : Prop :=
  (forall m, drawable m -> lowest <= Analysis.score (evaluate m))
  /\ exists m, drawable m /\ Analysis.score (evaluate m) = lowest.

(** The worst the three evaluators can draw. *)
Definition worstMetaTags : MetaTags.Measured :=
  {| MetaTags.titleLength := 69; MetaTags.descriptionLength := 100;
     MetaTags.hasKeywords := false; MetaTags.hasCanonical := false;
     MetaTags.duplicateTitles := 2; MetaTags.titleNumber := 0 |}.

Definition worstHeadingStructure : HeadingStructure.Measured :=
  {| HeadingStructure.h1Count := 3; HeadingStructure.h2Count := 2;
     HeadingStructure.h3Count := 3; HeadingStructure.missingHeadings := 4;
     HeadingStructure.skippedLevels := 2 |}.

Definition worstContentQuality : ContentQuality.Measured :=
  {| ContentQuality.wordCount := 300; ContentQuality.keywordDensity := 3;
     ContentQuality.readabilityScore := 40;
     ContentQuality.duplicateContent := 2;
     ContentQuality.internalLinks := 2 |}.

(** ** The views *)

(** A value of a field of [specificData]. *)
Inductive Value : Type :=
| VNumber (z : Z)
| VBoolean (b : bool)
| VString (s : string)
| VStrings (items : list string)
| VUndefined.

(** The fields of a [specificData] object, as the object literal of each
    evaluator writes them.  The values of a report's data are held as
    text. *)
Definition fieldsOf (data : SpecificData) : list (string * Value) :=
  match data with
  | OfPageSpeed m =>
      [ ("loadTime", VNumber (PageSpeed.loadTime m));
        ("totalSize", VNumber (PageSpeed.totalSize m));
        ("imageSize", VNumber (PageSpeed.imageSize m));
        ("cssSize", VNumber (PageSpeed.cssSize m));
        ("jsSize", VNumber (PageSpeed.jsSize m)) ]
  | OfMobileOptimization m =>
      [ ("hasViewport", VBoolean (MobileOptimization.hasViewport m));
        ("touchTargets", VNumber (MobileOptimization.touchTargets m));
        ("smallTouchTargets", VNumber (MobileOptimization.smallTouchTargets m));
        ("fontSize", VNumber (MobileOptimization.fontSize m));
        ("hasMobileMenu", VBoolean (MobileOptimization.hasMobileMenu m)) ]
  | OfMetaTags m title description =>
      [ ("titleLength", VNumber (MetaTags.titleLength m));
        ("descriptionLength", VNumber (MetaTags.descriptionLength m));
        ("hasKeywordMeta", VBoolean (MetaTags.hasKeywords m));
        ("hasCanonical", VBoolean (MetaTags.hasCanonical m));
        ("duplicateTitles", VNumber (MetaTags.duplicateTitles m));
        ("title", VString title);
        ("description", VString description) ]
  | OfHeadingStructure m h1Texts h2Texts h3Texts =>
      [ ("h1Count", VNumber (HeadingStructure.h1Count m));
        ("h2Count", VNumber (HeadingStructure.h2Count m));
        ("h3Count", VNumber (HeadingStructure.h3Count m));
        ("missingHeadings", VNumber (HeadingStructure.missingHeadings m));
        ("skippedLevels", VNumber (HeadingStructure.skippedLevels m));
        ("h1Texts", VStrings h1Texts);
        ("h2Texts", VStrings h2Texts);
        ("h3Texts", VStrings h3Texts) ]
  | OfImageOptimization m =>
      [ ("totalImages", VNumber (ImageOptimization.totalImages m));
        ("largeImages", VNumber (ImageOptimization.largeImages m));
        ("missingAlt", VNumber (ImageOptimization.missingAlt m));
        ("webpImages", VNumber (ImageOptimization.webpImages m));
        ("lazyLoaded", VNumber (ImageOptimization.lazyLoaded m)) ]
  | OfInternalLinking m externalLinksList =>
      [ ("totalLinks", VNumber (InternalLinking.totalLinks m));
        ("brokenLinks", VNumber (InternalLinking.brokenLinks m));
        ("externalLinks", VNumber (InternalLinking.externalLinks m));
        ("orphanPages", VNumber (InternalLinking.orphanPages m));
        ("deepLinks", VNumber (InternalLinking.deepLinks m));
        ("externalLinksList", VStrings externalLinksList) ]
  | OfSSLCertificate m =>
      [ ("hasSSL", VBoolean (SSLCertificate.hasSSL m));
        ("daysToExpire", VNumber (SSLCertificate.daysToExpire m));
        ("hasHSTS", VBoolean (SSLCertificate.hasHSTS m));
        ("mixedContent", VNumber (SSLCertificate.mixedContent m)) ]
  | OfSocialMediaTags m =>
      [ ("hasOpenGraph", VBoolean (SocialMediaTags.hasOpenGraph m));
        ("hasTwitterCards", VBoolean (SocialMediaTags.hasTwitterCards m));
        ("hasImage", VBoolean (SocialMediaTags.hasImage m));
        ("hasDescription", VBoolean (SocialMediaTags.hasDescription m)) ]
  | OfContentQuality m =>
      [ ("wordCount", VNumber (ContentQuality.wordCount m));
        ("keywordDensity", VNumber (ContentQuality.keywordDensity m));
        ("readabilityScore", VNumber (ContentQuality.readabilityScore m));
        ("duplicateContent", VNumber (ContentQuality.duplicateContent m));
        ("internalLinks", VNumber (ContentQuality.internalLinks m)) ]
  | OfURLStructure m =>
      [ ("urlLength", VNumber (URLStructure.urlLength m));
        ("hasKeywords", VBoolean (URLStructure.hasKeywords m));
        ("hasSpecialChars", VBoolean (URLStructure.hasSpecialChars m));
        ("hasNumbers", VBoolean (URLStructure.hasNumbers m));
        ("depth", VNumber (URLStructure.depth m)) ]
  | OfRobotsTxt m =>
      [ ("hasRobotsTxt", VBoolean (RobotsTxt.hasRobotsTxt m));
        ("blocksImportantPages", VBoolean (RobotsTxt.blocksImportantPages m));
        ("hasSitemapReference", VBoolean (RobotsTxt.hasSitemapReference m));
        ("blocksCSS", VBoolean (RobotsTxt.blocksCSS m)) ]
  | OfSitemap m =>
      [ ("hasSitemap", VBoolean (Sitemap.hasSitemap m));
        ("totalPages", VNumber (Sitemap.totalPages m));
        ("lastModified", VNumber (Sitemap.lastModified m));
        ("hasImages", VBoolean (Sitemap.hasImages m));
        ("submittedToGoogle", VBoolean (Sitemap.submittedToGoogle m)) ]
  | Empty => []
  | Reported fields => map (fun entry => (fst entry, VString (snd entry))) fields
  end.

(** [data.name] for the field names the views read; none of them is a
    member of [Object.prototype], so a field that is not written reads as
    [undefined]. *)
Definition field (data : SpecificData) (name : string) : Value :=
  match Js.ownProperty (fieldsOf data) name with
  | Some v => v
  | None => VUndefined
  end.

(** Whether a value counts as true in a condition. *)
Definition truthy (v : Value) : bool :=
  match v with
  | VNumber z => negb (z =? 0)
  | VBoolean b => b
  | VString s => negb (String.eqb s EmptyString)
  | VStrings _ => true
  | VUndefined => false
  end.

(** A value interpolated into a template literal. *)
Definition toText (v : Value) : string :=
  match v with
  | VNumber z => Js.show z
  | VBoolean b => if b then "true" else "false"
  | VString s => s
  | VStrings items => Js.join "," items
  | VUndefined => "undefined"
  end.

(** The parts of the template literals of the views: text, and the four
    interpolations they use, [${data.f}], [${data.f || 0}],
    [${data.f ? '✓' : '✗'}] and [${data.f ? '✗' : '✓'}]. *)
Inductive Piece : Type :=
| Literal (text : string)
| Shown (name : string)
| ShownOr0 (name : string)
| Ticked (name : string)
| Crossed (name : string).

Definition renderPiece (data : SpecificData) (piece : Piece) : string :=
  match piece with
  | Literal text => text
  | Shown name => toText (field data name)
  | ShownOr0 name =>
      if truthy (field data name) then toText (field data name) else "0"
  | Ticked name => if truthy (field data name) then "✓" else "✗"
  | Crossed name => if truthy (field data name) then "✗" else "✓"
  end.

Definition render (data : SpecificData) (pieces : list Piece) : string :=
  String.concat EmptyString (map (renderPiece data) pieces).

(** The line breaks inside the template literals of [extractKeyInfo], with
    the indentation of the source. *)
Definition row : string := lineFeed ++ "                    ".

Definition rowEnd : string := lineFeed ++ "                ".

(** The cases of the [switch] of [extractKeyInfo]. *)
Definition keyInfoCases : list (string * list Piece) :=
  [ ("Page Speed",
     [ Literal (row ++ "<strong>页面大小:</strong> ");
       ShownOr0 "totalSize";
       Literal ("MB<br>" ++ row ++ "<strong>图片数量:</strong> ");
       ShownOr0 "totalImages";
       Literal ("个<br>" ++ row ++ "<strong>大图片:</strong> ");
       ShownOr0 "largeImages";
       Literal ("个" ++ rowEnd) ]);
    ("Mobile Optimization",
     [ Literal (row ++ "<strong>Viewport:</strong> ");
       Ticked "hasViewport";
       Literal ("<br>" ++ row ++ "<strong>字体大小:</strong> ");
       ShownOr0 "fontSize";
       Literal ("px<br>" ++ row ++ "<strong>小触摸目标:</strong> ");
       ShownOr0 "smallTouchTargets";
       Literal ("个" ++ rowEnd) ]);
    ("Meta Tags",
     [ Literal (row ++ "<strong>标题长度:</strong> ");
       ShownOr0 "titleLength";
       Literal ("字符<br>" ++ row ++ "<strong>描述长度:</strong> ");
       ShownOr0 "descriptionLength";
       Literal ("字符<br>" ++ row ++ "<strong>重复标题:</strong> ");
       ShownOr0 "duplicateTitles";
       Literal ("个" ++ rowEnd) ]);
    ("Heading Structure",
     [ Literal (row ++ "<strong>H1标签:</strong> ");
       ShownOr0 "h1Count";
       Literal ("个<br>" ++ row ++ "<strong>H2标签:</strong> ");
       ShownOr0 "h2Count";
       Literal ("个<br>" ++ row ++ "<strong>层级跳跃:</strong> ");
       ShownOr0 "skippedLevels";
       Literal ("次" ++ rowEnd) ]);
    ("Image Optimization",
     [ Literal (row ++ "<strong>总图片:</strong> ");
       ShownOr0 "totalImages";
       Literal ("个<br>" ++ row ++ "<strong>缺少Alt:</strong> ");
       ShownOr0 "missingAlt";
       Literal ("个<br>" ++ row ++ "<strong>WebP格式:</strong> ");
       ShownOr0 "webpImages";
       Literal ("个" ++ rowEnd) ]);
    ("Internal Linking",
     [ Literal (row ++ "<strong>总链接:</strong> ");
       ShownOr0 "totalLinks";
       Literal ("个<br>" ++ row ++ "<strong>断链:</strong> ");
       ShownOr0 "brokenLinks";
       Literal ("个<br>" ++ row ++ "<strong>孤立页面:</strong> ");
       ShownOr0 "orphanPages";
       Literal ("个" ++ rowEnd) ]);
    ("SSL Certificate",
     [ Literal (row ++ "<strong>SSL证书:</strong> ");
       Ticked "hasSSL";
       Literal ("<br>" ++ row ++ "<strong>HSTS:</strong> ");
       Ticked "hasHSTS";
       Literal ("<br>" ++ row ++ "<strong>混合内容:</strong> ");
       ShownOr0 "mixedContent";
       Literal ("个" ++ rowEnd) ]);
    ("Content Quality",
     [ Literal (row ++ "<strong>字数:</strong> ");
       ShownOr0 "wordCount";
       Literal ("字<br>" ++ row ++ "<strong>关键词密度:</strong> ");
       ShownOr0 "keywordDensity";
       Literal ("%<br>" ++ row ++ "<strong>内部链接:</strong> ");
       ShownOr0 "internalLinks";
       Literal ("个" ++ rowEnd) ]);
    ("URL Structure",
     [ Literal (row ++ "<strong>URL长度:</strong> ");
       ShownOr0 "urlLength";
       Literal ("字符<br>" ++ row ++ "<strong>URL深度:</strong> ");
       ShownOr0 "urlDepth";
       Literal ("层<br>" ++ row ++ "<strong>包含关键词:</strong> ");
       Ticked "hasKeyword";
       Literal rowEnd ]);
    ("Robots.txt",
     [ Literal (row ++ "<strong>存在:</strong> ");
       Ticked "hasRobotsTxt";
       Literal ("<br>" ++ row ++ "<strong>引用Sitemap:</strong> ");
       Ticked "hasSitemapReference";
       Literal ("<br>" ++ row ++ "<strong>阻止CSS:</strong> ");
       Crossed "blockingCSS";
       Literal rowEnd ]);
    ("XML Sitemap",
     [ Literal (row ++ "<strong>存在:</strong> ");
       Ticked "hasSitemap";
       Literal ("<br>" ++ row ++ "<strong>页面数:</strong> ");
       ShownOr0 "totalPages";
       Literal ("个<br>" ++ row ++ "<strong>包含图片:</strong> ");
       Ticked "includesImages";
       Literal rowEnd ]) ].

(** [result.specificData || {}]: the total has no such property. *)
Definition dataOf (result : Entry) : SpecificData :=
  match result with
  | OfMetric r => Result.specificData r
  | OfTotal _ => Empty
  end.

(** [extractKeyInfo(metricName, result)]; [metricName] is [None] for
    [undefined]. *)
Definition extractKeyInfo (metricName : option string) (result : Entry)
  : string :=
  let specificData := dataOf result in
  match metricName with
  | Some name =>
      match Js.ownProperty keyInfoCases name with
      | Some pieces => render specificData pieces
      | None => "暂无关键信息"
      end
  | None => "暂无关键信息"
  end.

(** The cases of the [switch] of [getKeyDataForIssue]. *)
Definition keyDataCases : list (string * list Piece) :=
  [ ("Page Speed",
     [ Literal "加载时间: ";
       Shown "loadTime";
       Literal "ms | 页面大小: ";
       Shown "totalSize";
       Literal "KB" ]);
    ("Mobile Optimization",
     [ Literal "Viewport: ";
       Ticked "hasViewport";
       Literal " | 小触摸目标: ";
       Shown "smallTouchTargets";
       Literal "个" ]);
    ("Meta Tags",
     [ Literal "标题长度: ";
       Shown "titleLength";
       Literal "字符 | 描述长度: ";
       Shown "descriptionLength";
       Literal "字符" ]);
    ("Heading Structure",
     [ Literal "H1数量: ";
       Shown "h1Count";
       Literal "个 | 缺失标题: ";
       Shown "missingHeadings";
       Literal "个" ]);
    ("Image Optimization",
     [ Literal "图片总数: ";
       Shown "totalImages";
       Literal "张 | 过大图片: ";
       Shown "largeImages";
       Literal "张" ]);
    ("Internal Linking",
     [ Literal "内部链接: ";
       Shown "totalLinks";
       Literal "个 | 死链接: ";
       Shown "brokenLinks";
       Literal "个" ]);
    ("SSL Certificate",
     [ Literal "HTTPS: ";
       Ticked "hasSSL";
       Literal " | 证书到期: ";
       Shown "daysToExpire";
       Literal "天" ]);
    ("Social Media Tags",
     [ Literal "Open Graph: ";
       Ticked "hasOpenGraph";
       Literal " | Twitter Cards: ";
       Ticked "hasTwitterCards" ]);
    ("Content Quality",
     [ Literal "字数: ";
       Shown "wordCount";
       Literal "词 | 关键词密度: ";
       Shown "keywordDensity";
       Literal "%" ]);
    ("URL Structure",
     [ Literal "URL长度: ";
       Shown "urlLength";
       Literal "字符 | 层级深度: ";
       Shown "depth";
       Literal "层" ]);
    ("Robots.txt",
     [ Literal "文件存在: ";
       Ticked "hasRobotsTxt";
       Literal " | 阻止重要页面: ";
       Crossed "blocksImportantPages" ]);
    ("XML Sitemap",
     [ Literal "站点地图: ";
       Ticked "hasSitemap";
       Literal " | 页面数: ";
       Shown "totalPages";
       Literal "个" ]) ].

(** [getKeyDataForIssue(issue)]. *)
Definition getKeyDataForIssue (issue : Issue.t) : string :=
  let data := Issue.specificData issue in
  let metric := Issue.metric issue in
  match metric with
  | Some name =>
      match Js.ownProperty keyDataCases name with
      | Some pieces => render data pieces
      | None => EmptyString
      end
  | None => EmptyString
  end.

(** A summary card, by the values interpolated into its markup: the icon
    and the name of the metric, the details or the text that stands for
    none, and the key information. *)
Module Card.
Record t : Type := {
  icon : option string;
  name : option string;
  details : string;
  keyInfo : string
}.
End Card.

(** [metric.icon]: an inherited member has none. *)
Definition iconOf (metric : Js.Lookup Metric.t) : option string :=
  match metric with
  | Js.Own m => Some (Metric.icon m)
  | Js.Inherited _ | Js.Undefined => None
  end.

(** [result.details ? result.details : '暂无问题']. *)
Definition detailsOrNone (result : Entry) : string :=
  match result with
  | OfMetric r =>
      if String.eqb (Result.details r) EmptyString then "暂无问题"
      else Result.details r
  | OfTotal _ => "暂无问题"
  end.

(** [createSummaryCard(metric, result)]: reading [metric.name] throws when
    the table has no metric for the key. *)
Definition createSummaryCard (metric : Js.Lookup Metric.t) (result : Entry)
  : Js.Outcome Card.t :=
  name <- nameOf metric ;;
  let keyInfo := extractKeyInfo name result in
  Js.Return
    {| Card.icon := iconOf metric;
       Card.name := name;
       Card.details := detailsOrNone result;
       Card.keyInfo := keyInfo |}.

(** The loop of [generateSummaryCards] over [Object.entries(results)]: the
    cards appended to the container so far, and how the loop ended. *)
Fixpoint appendCards (this : Analyzer) (entries : Results)
  (shown : list Card.t) : list Card.t * Js.Outcome unit :=
  match entries with
  | [] => (shown, Js.Return tt)
  | (key, result) :: rest =>
      if String.eqb key "_totalScore" then appendCards this rest shown
      else
        let metric := Js.get (metrics this) key in
        match createSummaryCard metric result with
        | Js.Return card => appendCards this rest (shown ++ [card])%list
        | Js.Throw e => (shown, Js.Throw e)
        end
  end.

(** [generateSummaryCards(results)] on the container [summaryMetrics], given
    by the cards it holds ([None] when the page has no such element). *)
Definition generateSummaryCards (this : Analyzer) (results : Results)
  (summaryContainer : option (list Card.t))
  : option (list Card.t) * Js.Outcome unit :=
  match summaryContainer with
  | None => (None, Js.Return tt)
  | Some _ =>
      let (shown, outcome) := appendCards this results [] in
      (Some shown, outcome)
  end.

(** The names of the fields a template reads. *)
Definition fieldsRead (pieces : list Piece) : list string :=
  flat_map
    (fun piece =>
       match piece with
       | Literal _ => []
       | Shown name | ShownOr0 name | Ticked name | Crossed name => [name]
       end)
    pieces.

(** The fields a view reads for a metric that the data does not have;
    [None] when the view has no case for the metric. *)
Definition unwritten (cases : list (string * list Piece)) (metricName : string)
  (data : SpecificData) : option (list string) :=
  match Js.ownProperty cases metricName with
  | Some pieces =>
      Some
        (filter
           (fun name =>
              match Js.ownProperty (fieldsOf data) name with
              | Some _ => false
              | None => true
              end)
           (fieldsRead pieces))
  | None => None
  end.

(** The fields [extractKeyInfo] reads and the evaluators do not write, in
    the order of [evaluators]. *)
Definition unwrittenKeyInfo : list (option (list string)) :=
  [ Some ["totalImages"; "largeImages"]; Some []; Some []; Some []; Some [];
    Some []; Some []; None; Some []; Some ["urlDepth"; "hasKeyword"];
    Some ["blockingCSS"]; Some ["includesImages"] ].

(** The card of a metric of the table for a result. *)
Definition cardOf (entry : string * Entry) : Card.t :=
  {| Card.icon := option_map Metric.icon (Js.ownProperty metricTable (fst entry));
     Card.name := option_map Metric.name (Js.ownProperty metricTable (fst entry));
     Card.details := detailsOrNone (snd entry);
     Card.keyInfo :=
       extractKeyInfo
         (option_map Metric.name (Js.ownProperty metricTable (fst entry)))
         (snd entry) |}.

(** The entries of [results] but the total. *)
Definition metricsOf (results : Results) : Results :=
  filter (fun entry => negb (String.eqb (fst entry) "_totalScore")) results.

(** ** The entry point *)

(** The screen, as far as [analyzeWebsite] changes it: the progress
    messages, the loading overlay, the button, and the alerts raised so
    far.  The elements [loadingOverlay] and [analyzeBtn] are taken to
    exist. *)
Module Screen.
Record t : Type := {
  progress : Page;
  loading : bool;
  buttonDisabled : bool;
  alerts : list string
}.
End Screen.

Definition alert (message : string) (screen : Screen.t) : Screen.t :=
  {| Screen.progress := Screen.progress screen;
     Screen.loading := Screen.loading screen;
     Screen.buttonDisabled := Screen.buttonDisabled screen;
     Screen.alerts := (Screen.alerts screen ++ [message])%list |}.

(** [clearProgressMessages()]. *)
Definition clearProgressMessages (page : Page) : Page :=
  match page with
  | Some _ => Some []
  | None => None
  end.

(** [showLoading()]. *)
Definition showLoading (screen : Screen.t) : Screen.t :=
  {| Screen.progress := clearProgressMessages (Screen.progress screen);
     Screen.loading := true;
     Screen.buttonDisabled := true;
     Screen.alerts := Screen.alerts screen |}.

(** [hideLoading()]. *)
Definition hideLoading (screen : Screen.t) : Screen.t :=
  {| Screen.progress := Screen.progress screen;
     Screen.loading := false;
     Screen.buttonDisabled := false;
     Screen.alerts := Screen.alerts screen |}.

Definition withProgress (page : Page) (screen : Screen.t) : Screen.t :=
  {| Screen.progress := page;
     Screen.loading := Screen.loading screen;
     Screen.buttonDisabled := Screen.buttonDisabled screen;
     Screen.alerts := Screen.alerts screen |}.

Section EntryPoint.

(** [new URL], [fetch] and [JSON.parse]; the message of an exception the
    engine raises; and what [displayResults] does, as far as it may throw. *)
Variable newURL : string -> Js.Outcome unit.
Variable fetch : Request -> Js.Outcome Response.
Variable parse : string -> Js.Outcome Event.
Variable engineMessage : Js.Exn -> string.
Variable displayResults : Results -> Js.Outcome unit.

(** [error.message]. *)
Definition messageOf (e : Js.Exn) : string :=
  match e with
  | Js.Error message => message
  | _ => engineMessage e
  end.

(** The [try] block of [analyzeWebsite]. *)
Definition analyzeAndDisplay (url : string) : Eff unit :=
  results <~ performAnalysis fetch parse url ;;
  lift (displayResults results).

(** [analyzeWebsite()], on the trimmed value of the input. *)
Definition analyzeWebsite (url : string) (screen : Screen.t) : Screen.t :=
  if String.eqb url EmptyString then alert "Please enter a website URL" screen
  else if negb (isValidUrl newURL url) then
    alert "Please enter a valid URL (e.g., example.com or https://example.com)"
      screen
  else
    let screen := showLoading screen in
    let (page, outcome) := analyzeAndDisplay url (Screen.progress screen) in
    let screen := withProgress page screen in
    let screen :=
      match outcome with
      | Js.Return _ => screen
      | Js.Throw error =>
          alert ("分析失败，请重试。错误: " ++ messageOf error) screen
      end in
    hideLoading screen.

End EntryPoint.

(** A parser of addresses that rejects those with a space, and a screen at
    rest. *)
Definition noSpace (s : string) : Js.Outcome unit :=
  if existsb (Ascii.eqb " "%char) (list_ascii_of_string s)
  then Js.Throw Js.TypeError else Js.Return tt.

Definition atRest : Screen.t :=
  {| Screen.progress := Some ["old"]; Screen.loading := false;
     Screen.buttonDisabled := false; Screen.alerts := [] |}.

(** A page that is no faster and no lighter than another. *)
Definition noFaster (m m' : PageSpeed.Measured) : Prop :=
  PageSpeed.loadTime m <= PageSpeed.loadTime m'
  /\ PageSpeed.totalSize m <= PageSpeed.totalSize m'
  /\ PageSpeed.imageSize m <= PageSpeed.imageSize m'
  /\ PageSpeed.cssSize m <= PageSpeed.cssSize m'
  /\ PageSpeed.jsSize m <= PageSpeed.jsSize m'.

(** * Properties *)

(** ** Evaluators and their rule tables *)

Lemma points_fold_guarded {M : Type} (rules : list (Rule M)) (m : M) (t : Tally) :
  points
    (fold_left
       (fun t r =>
          if guard r m && condition r m then penalize (deduction r) (issue r m) t
          else t)
       rules t)
  = points t - deducted rules m.
Proof.
  revert t; induction rules as [|r rules IH]; intros t; simpl.
  - lia.
  - rewrite IH. destruct (guard r m && condition r m); simpl; lia.
Qed.

Lemma points_applyGuarded {M : Type} (rules : list (Rule M)) (m : M) :
  points (applyGuarded rules m) = 100 - deducted rules m.
Proof. unfold applyGuarded. now rewrite points_fold_guarded. Qed.

Lemma deducted_nonneg {M : Type} (rules : list (Rule M)) (m : M) :
  Forall (fun r => 0 < deduction r) rules -> 0 <= deducted rules m.
Proof.
  induction 1 as [|r rules Hr _ IH]; simpl; [lia|].
  destruct (guard r m && condition r m); lia.
Qed.

Lemma unguarded_same {M : Type} (rules : list (Rule M)) (m : M) :
  Forall unguarded rules -> applyGuarded rules m = applyUnconditionally rules m.
Proof.
  unfold applyGuarded, applyUnconditionally. generalize fresh.
  induction rules as [|r rules IH]; intros t H; simpl; [reflexivity|].
  inversion H as [|? ? Hr Hrest]; subst. rewrite (Hr m). simpl. now apply IH.
Qed.

Ltac by_conversion m := destruct m; reflexivity.

Lemma analyzePageSpeed_rules m :
  verdict (analyzePageSpeed m)
  = conclude (applyGuarded pageSpeedRules m) "页面速度表现良好".
Proof.
  destruct m as [loadTime ? ? ? ?].
  unfold analyzePageSpeed, pageSpeedRules, applyGuarded, verdict, conclude.
  cbn [PageSpeed.loadTime fold_left guard condition rule ruleUnder always andb].
  destruct (loadTime >? 2000); reflexivity.
Qed.

Lemma analyzeMobileOptimization_rules m :
  verdict (analyzeMobileOptimization m)
  = conclude (applyGuarded mobileOptimizationRules m) "移动优化表现良好".
Proof. by_conversion m. Qed.

Lemma analyzeMetaTags_rules m :
  verdict (analyzeMetaTags m)
  = conclude (applyGuarded metaTagsRules m) "Meta标签配置良好".
Proof.
  destruct m as [titleLength descriptionLength ? ? ? ?].
  unfold analyzeMetaTags, metaTagsRules, applyGuarded, verdict, conclude.
  cbn [MetaTags.titleLength MetaTags.descriptionLength fold_left guard
       condition rule ruleUnder always andb].
  destruct (titleLength <? 30), (descriptionLength <? 120); reflexivity.
Qed.

Lemma analyzeHeadingStructure_rules m :
  verdict (analyzeHeadingStructure m)
  = conclude (applyGuarded headingStructureRules m) "标题结构合理".
Proof. by_conversion m. Qed.

Lemma analyzeImageOptimization_rules m :
  verdict (analyzeImageOptimization m)
  = conclude (applyGuarded imageOptimizationRules m) "图片优化良好".
Proof. by_conversion m. Qed.

Lemma analyzeInternalLinking_rules m :
  verdict (analyzeInternalLinking m)
  = conclude (applyGuarded internalLinkingRules m) "内部链接结构良好".
Proof. by_conversion m. Qed.

Lemma analyzeSSLCertificate_rules m :
  verdict (analyzeSSLCertificate m)
  = conclude (applyGuarded sslCertificateRules m) "SSL配置安全".
Proof. destruct m as [[] ? ? ?]; reflexivity. Qed.

Lemma analyzeSocialMediaTags_rules m :
  verdict (analyzeSocialMediaTags m)
  = conclude (applyGuarded socialMediaTagsRules m) "社交媒体标签完整".
Proof. by_conversion m. Qed.

Lemma analyzeContentQuality_rules m :
  verdict (analyzeContentQuality m)
  = conclude (applyGuarded contentQualityRules m) "内容质量良好".
Proof. by_conversion m. Qed.

Lemma analyzeURLStructure_rules m :
  verdict (analyzeURLStructure m)
  = conclude (applyGuarded urlStructureRules m) "URL结构良好".
Proof. by_conversion m. Qed.

Lemma analyzeRobotsTxt_rules m :
  verdict (analyzeRobotsTxt m)
  = conclude (applyGuarded robotsTxtRules m) "robots.txt配置正确".
Proof. destruct m as [[] ? ? ?]; reflexivity. Qed.

Lemma analyzeSitemap_rules m :
  verdict (analyzeSitemap m)
  = conclude (applyGuarded sitemapRules m) "XML站点地图配置良好".
Proof. destruct m as [[] ? ? ? ?]; reflexivity. Qed.

(** Every evaluator is the guarded application of its rule table. *)
Lemma evaluators_follow_rules :
  Forall
    (fun e => forall m,
         verdict (evaluate e m)
         = conclude (applyGuarded (rules e) m) (allClear e))
    evaluators.
Proof.
  unfold evaluators.
  repeat (apply Forall_cons; [ intro m; cbn [evaluate rules allClear] | ]).
  13: apply Forall_nil.
  - apply analyzePageSpeed_rules.
  - apply analyzeMobileOptimization_rules.
  - apply analyzeMetaTags_rules.
  - apply analyzeHeadingStructure_rules.
  - apply analyzeImageOptimization_rules.
  - apply analyzeInternalLinking_rules.
  - apply analyzeSSLCertificate_rules.
  - apply analyzeSocialMediaTags_rules.
  - apply analyzeContentQuality_rules.
  - apply analyzeURLStructure_rules.
  - apply analyzeRobotsTxt_rules.
  - apply analyzeSitemap_rules.
Qed.

Lemma deductions_positive :
  Forall (fun e => Forall (fun r => 0 < deduction r) (rules e)) evaluators.
Proof.
  unfold evaluators.
  repeat (apply Forall_cons; [ cbn [rules]; repeat constructor | ]).
  apply Forall_nil.
Qed.

(** ** Scores stay in range *)

Lemma score_from_rules {M : Type} (rules : list (Rule M)) (m : M)
  (a : Analysis.t) (allClear : string) :
  verdict a = conclude (applyGuarded rules m) allClear ->
  Analysis.score a = Z.max (100 - deducted rules m) 0.
Proof.
  unfold verdict, conclude. intros H.
  apply (f_equal fst) in H. simpl in H.
  now rewrite H, points_applyGuarded.
Qed.

Lemma evaluators_score :
  Forall
    (fun e => forall m,
         Analysis.score (evaluate e m) = Z.max (100 - deducted (rules e) m) 0
         /\ 0 <= deducted (rules e) m
         /\ 0 <= Analysis.score (evaluate e m) <= 100)
    evaluators.
Proof.
  generalize (Forall_and evaluators_follow_rules deductions_positive).
  apply Forall_impl. intros e [Hrules Hpos] m.
  pose proof (score_from_rules _ _ _ _ (Hrules m)) as Hscore.
  pose proof (deducted_nonneg (rules e) m Hpos) as Hded.
  rewrite Hscore. repeat split; lia.
Qed.

Lemma evaluator_range {M : Type} (rules : list (Rule M)) (m : M)
  (a : Analysis.t) (allClear : string) :
  verdict a = conclude (applyGuarded rules m) allClear ->
  Forall (fun r => 0 < deduction r) rules ->
  0 <= Analysis.score a <= 100.
Proof.
  intros H Hpos. rewrite (score_from_rules _ _ _ _ H).
  pose proof (deducted_nonneg rules m Hpos). lia.
Qed.

Lemma isCase_true (value : option string) (label : string) :
  isCase value label = true -> value = Some label.
Proof.
  destruct value as [s|]; simpl; [|discriminate].
  intros H. apply String.eqb_eq in H. now subst.
Qed.

Ltac positive_deductions := repeat constructor.

Lemma dispatch_range (metricKey : option string) (d : Draws) :
  0 <= Analysis.score (generateDetailedAnalysis metricKey d) <= 100.
Proof.
  unfold generateDetailedAnalysis.
  repeat match goal with
         | |- context [if isCase ?v ?l then _ else _] => destruct (isCase v l)
         end.
  - eapply evaluator_range; [apply analyzePageSpeed_rules | positive_deductions].
  - eapply evaluator_range;
      [apply analyzeMobileOptimization_rules | positive_deductions].
  - eapply evaluator_range; [apply analyzeMetaTags_rules | positive_deductions].
  - eapply evaluator_range;
      [apply analyzeHeadingStructure_rules | positive_deductions].
  - eapply evaluator_range;
      [apply analyzeImageOptimization_rules | positive_deductions].
  - eapply evaluator_range;
      [apply analyzeInternalLinking_rules | positive_deductions].
  - eapply evaluator_range;
      [apply analyzeSSLCertificate_rules | positive_deductions].
  - eapply evaluator_range;
      [apply analyzeSocialMediaTags_rules | positive_deductions].
  - eapply evaluator_range;
      [apply analyzeContentQuality_rules | positive_deductions].
  - eapply evaluator_range;
      [apply analyzeURLStructure_rules | positive_deductions].
  - eapply evaluator_range; [apply analyzeRobotsTxt_rules | positive_deductions].
  - eapply evaluator_range; [apply analyzeSitemap_rules | positive_deductions].
  - simpl. lia.
Qed.

(** C2. Every evaluator returns a score in [0, 100]: the score is the base
    of 100 less the deductions of the rules that fired (each a positive
    constant; the assignment [score = 0] of the SSL evaluator takes off the
    whole base), floored at 0.  The same bounds hold for whatever the
    dispatch returns, the fallback of an unknown key included, and for the
    result built from it. *)
Theorem evaluator_score_in_range :
  Forall
    (fun e => forall m,
         Analysis.score (evaluate e m) = Z.max (100 - deducted (rules e) m) 0
         /\ 0 <= deducted (rules e) m
         /\ 0 <= Analysis.score (evaluate e m) <= 100)
    evaluators
  /\ (forall metricKey d,
         0 <= Analysis.score (generateDetailedAnalysis metricKey d) <= 100)
  /\ (forall this metric d,
         0 <= Result.score (generateMetricResult this metric d) <= 100).
Proof.
  split; [exact evaluators_score|]. split.
  - exact dispatch_range.
  - intros this metric d. unfold generateMetricResult.
    cbn [Result.score]. apply dispatch_range.
Qed.

(** ** Which rules are skipped *)

Lemma flat_rules_unguarded :
  Forall unguarded mobileOptimizationRules
  /\ Forall unguarded headingStructureRules
  /\ Forall unguarded imageOptimizationRules
  /\ Forall unguarded internalLinkingRules
  /\ Forall unguarded socialMediaTagsRules
  /\ Forall unguarded contentQualityRules
  /\ Forall unguarded urlStructureRules.
Proof. repeat split; repeat constructor. Qed.

Lemma metaTags_tiers_exclusive m :
  applyGuarded metaTagsRules m = applyUnconditionally metaTagsRules m.
Proof.
  destruct m as [titleLength descriptionLength ? ? ? ?].
  unfold metaTagsRules, applyGuarded, applyUnconditionally.
  cbn [MetaTags.titleLength MetaTags.descriptionLength fold_left guard
       condition rule ruleUnder always andb].
  rewrite !Z.gtb_ltb.
  destruct (Z.ltb_spec titleLength 30), (Z.ltb_spec 60 titleLength),
    (Z.ltb_spec descriptionLength 120), (Z.ltb_spec 160 descriptionLength);
    try lia; reflexivity.
Qed.

Lemma flat_evaluators_skip_nothing :
  Forall
    (fun e =>
       In (dispatchKey e) flatEvaluators ->
       forall m, applyGuarded (rules e) m = applyUnconditionally (rules e) m)
    evaluators.
Proof.
  destruct flat_rules_unguarded as (Hmobile & Hheading & Himage & Hlinking
                                   & Hsocial & Hcontent & Hurl).
  unfold evaluators.
  repeat (apply Forall_cons;
          [ cbn [dispatchKey rules Measured]; intros Hin m | ]).
  13: apply Forall_nil.
  all: try (exfalso; unfold flatEvaluators in Hin; simpl in Hin;
            intuition discriminate).
  - now apply unguarded_same.
  - apply metaTags_tiers_exclusive.
  - now apply unguarded_same.
  - now apply unguarded_same.
  - now apply unguarded_same.
  - now apply unguarded_same.
  - now apply unguarded_same.
  - now apply unguarded_same.
Qed.

(** C4, as stated, fails: without a robots.txt file the rule "blocks
    important pages" is not evaluated although its condition holds; the
    evaluator returns 60 with one issue where unconditional evaluation of
    the four rules gives 30 with two. *)
Lemma skipped_rule_counterexample :
  RobotsTxt.blocksImportantPages robotsWithoutFile = true
  /\ verdict (analyzeRobotsTxt robotsWithoutFile) = (60, "缺少robots.txt文件")
  /\ conclude (applyUnconditionally robotsTxtRules robotsWithoutFile)
       "robots.txt配置正确"
     = (30, "缺少robots.txt文件; robots.txt阻止了重要页面")
  /\ verdict (analyzeRobotsTxt robotsWithoutFile)
     <> conclude (applyUnconditionally robotsTxtRules robotsWithoutFile)
          "robots.txt配置正确".
Proof.
  repeat split; try reflexivity. intros H. discriminate H.
Qed.

(** C4, amended. Every evaluator applies, in order, each rule that control
    reaches and whose condition holds, and the penalties stack: the score is
    100 less the sum of all applied deductions, floored at 0.  In the eight
    evaluators without a nested rule no rule is skipped on account of
    another.  The nested rules are: the three rules about the certificate,
    about the content of robots.txt and about the content of the sitemap,
    evaluated only when the certificate or file exists (when it is missing
    the only penalty is the one for its absence), and the lower tier of the
    page load time, evaluated only when the upper tier did not fire. *)
Theorem rules_apply_where_reached :
  Forall
    (fun e => forall m,
         verdict (evaluate e m)
         = conclude (applyGuarded (rules e) m) (allClear e)
         /\ Analysis.score (evaluate e m)
            = Z.max (100 - deducted (rules e) m) 0)
    evaluators
  /\ Forall
       (fun e =>
          In (dispatchKey e) flatEvaluators ->
          forall m, applyGuarded (rules e) m = applyUnconditionally (rules e) m)
       evaluators
  /\ (forall m,
         SSLCertificate.hasSSL m = true ->
         applyGuarded sslCertificateRules m
         = applyUnconditionally sslCertificateRules m)
  /\ (forall m,
         SSLCertificate.hasSSL m = false ->
         verdict (analyzeSSLCertificate m) = (0, "网站未使用HTTPS"))
  /\ (forall m,
         RobotsTxt.hasRobotsTxt m = true ->
         applyGuarded robotsTxtRules m = applyUnconditionally robotsTxtRules m)
  /\ (forall m,
         RobotsTxt.hasRobotsTxt m = false ->
         verdict (analyzeRobotsTxt m) = (60, "缺少robots.txt文件"))
  /\ (forall m,
         Sitemap.hasSitemap m = true ->
         applyGuarded sitemapRules m = applyUnconditionally sitemapRules m)
  /\ (forall m,
         Sitemap.hasSitemap m = false ->
         verdict (analyzeSitemap m) = (50, "缺少XML站点地图"))
  /\ (forall m,
         PageSpeed.loadTime m <= 2000 ->
         applyGuarded pageSpeedRules m = applyUnconditionally pageSpeedRules m)
  /\ (forall m,
         2000 < PageSpeed.loadTime m ->
         applyGuarded pageSpeedRules m
         = applyUnconditionally (withoutSecond pageSpeedRules) m)
  /\ Analysis.score (analyzePageSpeed slowAndHeavy) = 100 - 30 - 25
  /\ Analysis.score (analyzeSSLCertificate weakCertificate) = 100 - 20 - 15 - 25.
Proof.
  split.
  { generalize evaluators_follow_rules. apply Forall_impl.
    intros e Hrules m. split; [apply Hrules|].
    eapply score_from_rules, Hrules. }
  split; [exact flat_evaluators_skip_nothing|].
  repeat split.
  - intros [hasSSL ? ? ?] H; simpl in H; subst; reflexivity.
  - intros [hasSSL ? ? ?] H; simpl in H; subst; reflexivity.
  - intros [hasRobotsTxt ? ? ?] H; simpl in H; subst; reflexivity.
  - intros [hasRobotsTxt ? ? ?] H; simpl in H; subst; reflexivity.
  - intros [hasSitemap ? ? ? ?] H; simpl in H; subst; reflexivity.
  - intros [hasSitemap ? ? ? ?] H; simpl in H; subst; reflexivity.
  - intros [loadTime ? ? ? ?] H; simpl in H.
    unfold pageSpeedRules, applyGuarded, applyUnconditionally.
    cbn [PageSpeed.loadTime fold_left guard condition rule ruleUnder always
         andb].
    rewrite (Z.gtb_ltb loadTime 2000).
    destruct (Z.ltb_spec 2000 loadTime); [lia | reflexivity].
  - intros [loadTime ? ? ? ?] H; simpl in H.
    unfold pageSpeedRules, applyGuarded, applyUnconditionally, withoutSecond.
    cbn [PageSpeed.loadTime fold_left guard condition rule ruleUnder always
         andb].
    rewrite (Z.gtb_ltb loadTime 2000).
    destruct (Z.ltb_spec 2000 loadTime); [reflexivity | lia].
Qed.

(** The rules about the certificate stack when there is one. *)
Lemma rules_apply_where_reached_witness :
  applyGuarded sslCertificateRules weakCertificate
  = applyUnconditionally sslCertificateRules weakCertificate.
Proof.
  apply (proj1 (proj2 (proj2 rules_apply_where_reached)) weakCertificate).
  reflexivity.
Defined.

(** ** Recommendations *)

Lemma ownProperty_In {A : Type} (obj : list (string * A)) (key : string)
  (v : A) :
  Js.ownProperty obj key = Some v -> In (key, v) obj.
Proof.
  induction obj as [|[k w] obj IH]; simpl; [discriminate|].
  destruct (String.eqb_spec k key) as [->|Hne].
  - intros [= ->]. now left.
  - intros H. right. now apply IH.
Qed.

Lemma recommendationTable_sizes :
  Forall (fun entry => List.length (snd entry) = 5%nat) recommendationTable.
Proof. repeat constructor. Qed.

(** C5. The recommendations are a fixed list selected by the metric name
    alone: two calls of [generateRecommendations] with the same name and any
    two scores return the same value; a list it returns has at most 5
    strings; and every evaluator returns, whatever it measured, the 5
    strings its metric name selects. *)
Theorem recommendations_ignore_score :
  (forall metricName s1 s2,
      generateRecommendations metricName s1
      = generateRecommendations metricName s2)
  /\ (forall metricName score items,
         generateRecommendations metricName score = Strings items ->
         (List.length items <= 5)%nat)
  /\ Forall
       (fun e =>
          exists items,
            Js.ownProperty recommendationTable (displayName e) = Some items
            /\ List.length items = 5%nat
            /\ forall m,
                Analysis.recommendations (evaluate e m) = Strings items)
       evaluators
  /\ Forall
       (fun e => forall m1 m2,
            Analysis.recommendations (evaluate e m1)
            = Analysis.recommendations (evaluate e m2))
       evaluators.
Proof.
  split; [reflexivity|]. split.
  { intros metricName score items. unfold generateRecommendations, Js.get.
    destruct (Js.ownProperty recommendationTable metricName) as [found|] eqn:E.
    - intros [= <-]. apply ownProperty_In in E.
      pose proof recommendationTable_sizes as Hsizes.
      rewrite Forall_forall in Hsizes. specialize (Hsizes _ E).
      simpl in Hsizes. lia.
    - destruct (Js.inString metricName Js.objectPrototype); [discriminate|].
      intros [= <-]. simpl. lia. }
  split.
  - unfold evaluators.
    repeat (apply Forall_cons;
            [ cbn [displayName evaluate Measured];
              eexists; split; [reflexivity|]; split; [reflexivity|];
              intros m; reflexivity | ]).
    apply Forall_nil.
  - unfold evaluators.
    repeat (apply Forall_cons; [ intros m1 m2; reflexivity | ]).
    apply Forall_nil.
Qed.

(** A name with no entry gets the one-line default, whatever the score. *)
Lemma recommendations_ignore_score_witness :
  (List.length ["Improve this metric for better SEO performance"] <= 5)%nat.
Proof.
  apply (proj1 (proj2 recommendations_ignore_score) "Accessibility" 40).
  reflexivity.
Defined.

(** ** The fallback of the dispatch *)

Lemma isCase_outside (value : option string) (label : string) :
  In label metricKeys ->
  (forall key, In key metricKeys -> value <> Some key) ->
  isCase value label = false.
Proof.
  intros Hin Hout. destruct (isCase value label) eqn:E; [|reflexivity].
  apply isCase_true in E. now apply Hout in Hin.
Qed.

Lemma dispatch_outside (metricKey : option string) (d : Draws) :
  (forall key, In key metricKeys -> metricKey <> Some key) ->
  generateDetailedAnalysis metricKey d = fallbackAnalysis.
Proof.
  intros Hout. unfold generateDetailedAnalysis.
  repeat (rewrite isCase_outside; [| simpl; tauto | exact Hout]).
  reflexivity.
Qed.

Lemma keyOfMetric_table (key : string) :
  keyOfMetric newAnalyzer (EntryOf key)
  = if Js.inString key metricKeys then Some key else None.
Proof.
  unfold keyOfMetric, newAnalyzer, setupMetrics, metrics.
  change (Js.keys metricTable) with metricKeys.
  unfold Js.inString.
  induction metricKeys as [|k keys IH]; simpl; [reflexivity|].
  destruct (String.eqb_spec key k) as [->|Hne]; [reflexivity|].
  exact IH.
Qed.

Lemma dispatchWith_outside (methods : Methods.t) (metricKey : option string) :
  (forall key, In key metricKeys -> metricKey <> Some key) ->
  generateDetailedAnalysisWith methods metricKey = Js.Return fallbackAnalysis.
Proof.
  intros Hout. unfold generateDetailedAnalysisWith.
  repeat (rewrite isCase_outside; [| simpl; tauto | exact Hout]).
  reflexivity.
Qed.

Lemma dispatchWith_own (d : Draws) (metricKey : option string) :
  generateDetailedAnalysisWith (ownMethods d) metricKey
  = Js.Return (generateDetailedAnalysis metricKey d).
Proof.
  unfold generateDetailedAnalysisWith, generateDetailedAnalysis.
  repeat match goal with
         | |- context [if isCase ?v ?l then _ else _] => destruct (isCase v l)
         end; reflexivity.
Qed.

(** C7, as stated, fails on the dispatch: with the page speed evaluator
    made to throw, [generateDetailedAnalysis] and [generateMetricResult]
    throw what it throws, where the claim has them give the fallback. *)
Lemma forced_fault_counterexample :
  generateDetailedAnalysisWith (forcedFault sampleDraws) (Some "pageSpeed")
  = Js.Throw (Js.Error "forced fault")
  /\ generateMetricResultWith (forcedFault sampleDraws) newAnalyzer
       (EntryOf "pageSpeed")
     = Js.Throw (Js.Error "forced fault")
  /\ generateDetailedAnalysisWith (forcedFault sampleDraws) (Some "pageSpeed")
     <> Js.Return fallbackAnalysis.
Proof.
  split; [reflexivity|]. split; [reflexivity|]. discriminate.
Qed.

(** C7, amended. Whatever the evaluator methods do, a key outside the
    twelve, [undefined] included, is dispatched to the fallback: score 50,
    status poor, no recommendations; the call returns it and throws
    nothing, and the result built for a descriptor that is not in the table
    is that fallback.  Each of the twelve keys is dispatched to its own
    evaluator, and the call gives what the evaluator gives: nothing catches
    what an evaluator throws, so a fault in an evaluator reaches the caller
    of [generateDetailedAnalysis] and of [generateMetricResult].  The
    evaluators of the class never throw. *)
Theorem fallback_is_for_unknown_keys_only (methods : Methods.t) :
  (forall metricKey,
      (forall key, In key metricKeys -> metricKey <> Some key) ->
      generateDetailedAnalysisWith methods metricKey
      = Js.Return fallbackAnalysis)
  /\ Analysis.score fallbackAnalysis = 50
  /\ Analysis.status fallbackAnalysis = Some "poor"
  /\ Analysis.recommendations fallbackAnalysis = Strings []
  /\ generateMetricResultWith methods newAnalyzer OtherObject
     = Js.Return
         {| Result.score := 50;
            Result.status := "poor";
            Result.recommendations := Strings [];
            Result.details := "";
            Result.specificData := Empty |}
  /\ map fst (dispatched methods) = metricKeys
  /\ Forall
       (fun case =>
          generateDetailedAnalysisWith methods (Some (fst case)) = snd case
          /\ forall e,
               snd case = Js.Throw e ->
               generateMetricResultWith methods newAnalyzer (EntryOf (fst case))
               = Js.Throw e)
       (dispatched methods)
  /\ (forall d metricKey,
         generateDetailedAnalysisWith (ownMethods d) metricKey
         = Js.Return (generateDetailedAnalysis metricKey d)).
Proof.
  split; [intros metricKey; apply dispatchWith_outside|].
  do 5 (split; [reflexivity|]).
  split; [|intros d metricKey; apply dispatchWith_own].
  unfold dispatched.
  repeat (apply Forall_cons;
          [ cbn [fst snd]; split; [reflexivity|];
            intros e He; unfold generateMetricResultWith;
            rewrite keyOfMetric_table;
            match goal with
            | |- context [Js.inString ?k metricKeys] =>
                change (Js.inString k metricKeys) with true
            end;
            cbv iota;
            match type of He with
            | ?method = _ =>
                match goal with
                | |- context [generateDetailedAnalysisWith methods (Some ?k)] =>
                    change (generateDetailedAnalysisWith methods (Some k))
                      with method
                end
            end;
            rewrite He; reflexivity
          | ]).
  apply Forall_nil.
Qed.

(** ** Status thresholds *)

Lemma calculateTotalScore_status (this : Analyzer) (results : Results)
  (total : Total.t) :
  calculateTotalScore this results = Js.Return total ->
  Total.status total = getScoreStatus (Total.score total).
Proof.
  unfold calculateTotalScore.
  destruct (sumLoop this results (Js.Num 0) (Js.Num 0)) as [[ws tw]|e];
    simpl; [|discriminate].
  now intros [= <-].
Qed.

(** C3. The status is a function of the score alone, by the thresholds 90,
    75 and 60; a score that is not a number is poor.  The result of a metric
    and the total both take their status from that function. *)
Theorem status_follows_thresholds :
  (forall score : Z,
      (90 <= score -> getScoreStatus (Js.Num score) = "excellent")
      /\ (75 <= score < 90 -> getScoreStatus (Js.Num score) = "good")
      /\ (60 <= score < 75 -> getScoreStatus (Js.Num score) = "warning")
      /\ (score < 60 -> getScoreStatus (Js.Num score) = "poor"))
  /\ getScoreStatus Js.NaN = "poor"
  /\ (forall this metric d,
         Result.status (generateMetricResult this metric d)
         = getScoreStatus
             (Js.Num (Result.score (generateMetricResult this metric d))))
  /\ (forall this results total,
         calculateTotalScore this results = Js.Return total ->
         Total.status total = getScoreStatus (Total.score total)).
Proof.
  split.
  { intros score. unfold getScoreStatus, Js.ge.
    destruct (Z.leb_spec 90 score), (Z.leb_spec 75 score),
      (Z.leb_spec 60 score); repeat split; intros; try lia; reflexivity. }
  split; [reflexivity|]. split; [reflexivity|].
  exact calculateTotalScore_status.
Qed.

(** ** The total score *)

Lemma sumZ_app (l1 l2 : list Z) : sumZ (l1 ++ l2) = sumZ l1 + sumZ l2.
Proof. induction l1 as [|x l1 IH]; simpl; lia. Qed.

Lemma sumZ_cons (x : Z) (l : list Z) : sumZ (x :: l) = x + sumZ l.
Proof. reflexivity. Qed.

Lemma sumZ_Permutation (l1 l2 : list Z) :
  Permutation l1 l2 -> sumZ l1 = sumZ l2.
Proof. induction 1; simpl; lia. Qed.

Lemma metric_of_key (key : string) :
  In key metricKeys ->
  exists m, Js.ownProperty metricTable key = Some m
            /\ 0 < Metric.weight m.
Proof.
  intros Hin. simpl in Hin.
  repeat (destruct Hin as [<-|Hin];
          [eexists; split; [reflexivity | reflexivity]|]).
  contradiction.
Qed.

Lemma get_metric (key : string) :
  In key metricKeys ->
  exists m, Js.get metricTable key = Js.Own m
            /\ Metric.weight m = tableWeight key.
Proof.
  intros Hin. destruct (metric_of_key key Hin) as (m & Hm & _).
  exists m. unfold Js.get, tableWeight. now rewrite Hm.
Qed.

Lemma sumLoop_table (results : Results) (ws tw : Z) :
  Forall (fun entry => In (fst entry) metricKeys) results ->
  sumLoop newAnalyzer results (Js.Num ws) (Js.Num tw)
  = Js.Return
      (Js.Num (ws + weightedScores results),
       Js.Num (tw + sumZ (map tableWeight (Js.keys results)))).
Proof.
  intros Hkeys. revert ws tw.
  induction Hkeys as [|[key result] results Hkey _ IH]; intros ws tw.
  - simpl. now rewrite !Z.add_0_r.
  - destruct (get_metric key Hkey) as (m & Hget & Hweight).
    cbn [sumLoop]. change (metrics newAnalyzer) with metricTable.
    rewrite Hget. cbn [weightOf Js.bind Js.mul Js.add].
    rewrite IH, Hweight. unfold weightedScores, Js.keys.
    rewrite !map_cons, !sumZ_cons. cbn [fst snd].
    f_equal. f_equal; f_equal; lia.
Qed.

Lemma table_weights_total : sumZ (map tableWeight metricKeys) = 100.
Proof. reflexivity. Qed.

Lemma keys_of_permutation (results : Results) :
  Permutation (Js.keys results) metricKeys ->
  Forall (fun entry => In (fst entry) metricKeys) results
  /\ sumZ (map tableWeight (Js.keys results)) = 100.
Proof.
  intros Hperm. split.
  - apply Forall_forall. intros entry Hin.
    apply (Permutation_in _ Hperm). unfold Js.keys. now apply in_map.
  - rewrite <- table_weights_total.
    apply sumZ_Permutation. now apply Permutation_map.
Qed.

Lemma roundDiv_hundred (a : Z) :
  Js.roundDiv (Js.Num a) (Js.Num 100) = Js.Num ((a + 50) / 100).
Proof.
  unfold Js.roundDiv. change (100 =? 0) with false. cbv iota. f_equal.
  replace (2 * a + 100) with (2 * (a + 50)) by lia.
  apply Z.div_mul_cancel_l; lia.
Qed.

(** What [calculateTotalScore] returns for the twelve metrics. *)
Lemma calculateTotalScore_table (results : Results) :
  Permutation (Js.keys results) metricKeys ->
  calculateTotalScore newAnalyzer results
  = Js.Return
      {| Total.score := Js.Num ((weightedScores results + 50) / 100);
         Total.status :=
           getScoreStatus (Js.Num ((weightedScores results + 50) / 100));
         Total.weightedSum := Js.Num (weightedScores results);
         Total.totalWeight := Js.Num 100 |}.
Proof.
  intros Hperm. destruct (keys_of_permutation results Hperm) as [Hkeys Hsum].
  unfold calculateTotalScore. rewrite (sumLoop_table results 0 0 Hkeys).
  rewrite Hsum. cbn [Js.bind fst snd Z.add].
  now rewrite roundDiv_hundred.
Qed.

Lemma weightedScores_uniform (results : Results) (s : Z) :
  Forall (fun entry => scoreOf (snd entry) = s) results ->
  weightedScores results = s * sumZ (map tableWeight (Js.keys results)).
Proof.
  unfold weightedScores, Js.keys.
  induction 1 as [|entry results Hs _ IH]; [simpl; lia|].
  rewrite !map_cons, !sumZ_cons, IH, Hs. lia.
Qed.

Lemma weightedScores_bounds (results : Results) (lo hi : Z) :
  Forall (fun entry => In (fst entry) metricKeys) results ->
  Forall (fun entry => lo <= scoreOf (snd entry) <= hi) results ->
  lo * sumZ (map tableWeight (Js.keys results))
  <= weightedScores results
  <= hi * sumZ (map tableWeight (Js.keys results)).
Proof.
  unfold weightedScores, Js.keys.
  induction 1 as [|entry results Hkey _ IH]; intros Hrange; [simpl; lia|].
  inversion Hrange as [|? ? Hs Hrest]; subst.
  specialize (IH Hrest). rewrite !map_cons, !sumZ_cons.
  destruct (metric_of_key _ Hkey) as (m & Hm & Hpos).
  assert (0 < tableWeight (fst entry)) as Hw
      by (unfold tableWeight; now rewrite Hm).
  nia.
Qed.

(** C1, as stated, fails on [calculateTotalScore]: with the twelve scores at
    100 the total is 100, where the scaled and clamped total of the
    specification is 120. *)
Lemma total_is_not_scaled_counterexample :
  calculateTotalScore newAnalyzer (uniformResults 100)
  = Js.Return
      {| Total.score := Js.Num 100;
         Total.status := "excellent";
         Total.weightedSum := Js.Num 10000;
         Total.totalWeight := Js.Num 100 |}
  /\ specifiedTotalScore 10000 = 120
  /\ Js.Num 100 <> Js.Num (specifiedTotalScore 10000).
Proof. repeat split. intros H. discriminate H. Qed.

(** C1, amended. Given results for the twelve metrics, in any order,
    [calculateTotalScore] computes weightedSum = the sum of score times
    weight and totalWeight = 100, and returns
    round(weightedSum / totalWeight): no multiplier, no clamp.  Scores
    within [0, 100] give a total within [0, 100]; twelve scores of 100 give
    100 and excellent, twelve scores of 0 give 0 and poor. *)
Theorem total_is_weighted_mean (results : Results) :
  Permutation (Js.keys results) metricKeys ->
  calculateTotalScore newAnalyzer results
  = Js.Return
      {| Total.score := Js.Num ((weightedScores results + 50) / 100);
         Total.status :=
           getScoreStatus (Js.Num ((weightedScores results + 50) / 100));
         Total.weightedSum := Js.Num (weightedScores results);
         Total.totalWeight := Js.Num 100 |}
  /\ (Forall (fun entry => 0 <= scoreOf (snd entry) <= 100) results ->
      0 <= (weightedScores results + 50) / 100 <= 100)
  /\ (Forall (fun entry => scoreOf (snd entry) = 100) results ->
      (weightedScores results + 50) / 100 = 100
      /\ getScoreStatus (Js.Num ((weightedScores results + 50) / 100))
         = "excellent")
  /\ (Forall (fun entry => scoreOf (snd entry) = 0) results ->
      (weightedScores results + 50) / 100 = 0
      /\ getScoreStatus (Js.Num ((weightedScores results + 50) / 100))
         = "poor").
Proof.
  intros Hperm. split; [now apply calculateTotalScore_table|].
  destruct (keys_of_permutation results Hperm) as [Hkeys Hsum].
  repeat split.
  - pose proof (weightedScores_bounds results 0 100 Hkeys H) as Hb.
    rewrite Hsum in Hb. apply Z.div_pos; lia.
  - pose proof (weightedScores_bounds results 0 100 Hkeys H) as Hb.
    rewrite Hsum in Hb.
    assert ((weightedScores results + 50) / 100 < 101); [|lia].
    apply Z.div_lt_upper_bound; lia.
  - rewrite (weightedScores_uniform results 100 H), Hsum. reflexivity.
  - rewrite (weightedScores_uniform results 100 H), Hsum. reflexivity.
  - rewrite (weightedScores_uniform results 0 H), Hsum. reflexivity.
  - rewrite (weightedScores_uniform results 0 H), Hsum. reflexivity.
Qed.

(** The twelve metrics at 100. *)
Lemma total_is_weighted_mean_witness :
  calculateTotalScore newAnalyzer (uniformResults 100)
  = Js.Return
      {| Total.score := Js.Num 100;
         Total.status := "excellent";
         Total.weightedSum := Js.Num 10000;
         Total.totalWeight := Js.Num 100 |}.
Proof.
  apply (proj1 (total_is_weighted_mean (uniformResults 100)
                  (Permutation_refl metricKeys))).
Defined.

(** C9. With the twelve metrics all at one score [s] (any integer, in
    particular one in [0, 100]), [calculateTotalScore] returns exactly [s]:
    the weighted sum is 100 s, the total weight 100, and nothing scales the
    quotient. *)
Theorem uniform_scores_give_that_score (results : Results) (s : Z) :
  Permutation (Js.keys results) metricKeys ->
  Forall (fun entry => scoreOf (snd entry) = s) results ->
  calculateTotalScore newAnalyzer results
  = Js.Return
      {| Total.score := Js.Num s;
         Total.status := getScoreStatus (Js.Num s);
         Total.weightedSum := Js.Num (s * 100);
         Total.totalWeight := Js.Num 100 |}.
Proof.
  intros Hperm Hs.
  destruct (keys_of_permutation results Hperm) as [_ Hsum].
  rewrite (calculateTotalScore_table results Hperm).
  rewrite (weightedScores_uniform results s Hs), Hsum.
  replace ((s * 100 + 50) / 100) with s; [reflexivity|].
  apply Z.div_unique with (r := 50); lia.
Qed.

(** The twelve metrics at 73. *)
Lemma uniform_scores_give_that_score_witness :
  calculateTotalScore newAnalyzer (uniformResults 73)
  = Js.Return
      {| Total.score := Js.Num 73;
         Total.status := "warning";
         Total.weightedSum := Js.Num 7300;
         Total.totalWeight := Js.Num 100 |}.
Proof.
  apply (uniform_scores_give_that_score (uniformResults 73) 73
           (Permutation_refl metricKeys)).
  repeat constructor.
Defined.

(** ** Collected issues *)

Lemma getIssueSeverity_cases (score : Z) :
  (score < 30 /\ getIssueSeverity score = "critical")
  \/ (30 <= score < 50 /\ getIssueSeverity score = "high")
  \/ (50 <= score < 65 /\ getIssueSeverity score = "medium")
  \/ (65 <= score /\ getIssueSeverity score = "low").
Proof.
  unfold getIssueSeverity.
  destruct (Z.ltb_spec score 30); [now left|].
  destruct (Z.ltb_spec score 50); [right; left; split; [lia|reflexivity]|].
  destruct (Z.ltb_spec score 65);
    [right; right; left; split; [lia|reflexivity]|].
  right; right; right. split; [lia|reflexivity].
Qed.

Lemma compare_graded (a b : Issue.t) :
  graded a -> graded b ->
  Js.gt (compareSeverity a b) 0
  = (rankOfSeverity (Issue.severity b) <? rankOfSeverity (Issue.severity a)).
Proof.
  unfold graded, compareSeverity. intros -> ->.
  destruct (getIssueSeverity_cases (Issue.score a)) as [[_ ->]|[[_ ->]|[[_ ->]|[_ ->]]]];
    destruct (getIssueSeverity_cases (Issue.score b)) as [[_ ->]|[[_ ->]|[[_ ->]|[_ ->]]]];
    reflexivity.
Qed.

Lemma collectLoop_entries (results : Results) (issues : list Issue.t) :
  Forall metricEntry results ->
  collectLoop newAnalyzer results issues
  = Js.Return (issues ++ map expectedIssue (filter needsAttention results))%list.
Proof.
  intros Hentries. revert issues.
  induction Hentries as [|[key result] results [Hkey Hentry] _ IH];
    intros issues.
  - simpl. now rewrite app_nil_r.
  - cbn [collectLoop filter]. unfold needsAttention at 1. cbn [fst snd] in *.
    destruct (scoreOf result <? 75) eqn:Hlow; [|apply IH].
    destruct (metric_of_key key Hkey) as (m & Hm & _).
    change (metrics newAnalyzer) with metricTable.
    unfold Js.get. rewrite Hm. cbn [nameOf Js.bind].
    destruct result as [r|t]; [|contradiction].
    unfold extractIssueData.
    destruct (Result.recommendations r) as [items|member] eqn:Hrec;
      [|contradiction].
    cbn [Js.bind]. rewrite IH, <- app_assoc. do 2 f_equal.
    cbn [map app]. f_equal. unfold expectedIssue. cbn [fst snd scoreOf].
    now rewrite Hm, Hrec.
Qed.

(** ** The conversion of the report *)

Lemma replaceOrAdd_fresh {A : Type} (obj : list (string * A)) (key : string)
  (value : A) :
  ~ In key (map fst obj) ->
  replaceOrAdd obj key value = (obj ++ [(key, value)])%list.
Proof.
  induction obj as [|[k v] obj IH]; intros Hfresh; [reflexivity|].
  cbn [replaceOrAdd app]. cbn [map fst In] in Hfresh.
  destruct (String.eqb k key) eqn:E.
  - apply String.eqb_eq in E. tauto.
  - rewrite IH by tauto. reflexivity.
Qed.

Lemma setProperty_fresh {A : Type} (obj : list (string * A)) (key : string)
  (value : A) :
  key <> "__proto__" ->
  ~ In key (map fst obj) ->
  setProperty obj key value = (obj ++ [(key, value)])%list.
Proof.
  intros Hproto Hfresh. unfold setProperty.
  destruct (String.eqb key "__proto__") eqn:E.
  - now apply String.eqb_eq in E.
  - now apply replaceOrAdd_fresh.
Qed.

Lemma convert_entries (entries : list (string * Reported.t)) (acc : Results) :
  NoDup (map fst acc ++ map fst entries) ->
  ~ In "__proto__" (map fst entries) ->
  fold_left
    (fun results entry =>
       setProperty results (fst entry) (OfMetric (toResult (snd entry))))
    entries acc
  = (acc ++ map (fun entry => (fst entry, OfMetric (toResult (snd entry))))
              entries)%list.
Proof.
  revert acc. induction entries as [|[k md] entries IH]; intros acc Hnodup Hproto.
  - cbn. now rewrite app_nil_r.
  - cbn [fold_left map fst snd] in *.
    rewrite setProperty_fresh.
    + rewrite IH.
      * now rewrite <- app_assoc.
      * rewrite map_app. cbn [map fst]. now rewrite <- app_assoc.
      * cbn [In] in Hproto. tauto.
    + cbn [In] in Hproto. intros ->. tauto.
    + apply NoDup_remove_2 in Hnodup. rewrite in_app_iff in Hnodup. tauto.
Qed.

(** On a well-keyed report the conversion of the code gives the report
    entry by entry, with the total last. *)
Lemma toResults_converted (report : Report.t) :
  wellKeyed report -> toResults report = converted report.
Proof.
  intros (Hnodup & Hproto & Htotal).
  unfold toResults, converted. rewrite convert_entries by assumption.
  cbn [app]. rewrite setProperty_fresh; [reflexivity|discriminate|].
  unfold Js.keys in Htotal. now rewrite map_map.
Qed.

(** ** The stream consumer *)

Lemma append_assoc (a b c : string) :
  ((a ++ b) ++ c)%string = (a ++ (b ++ c))%string.
Proof. induction a as [|x a IH]; simpl; [reflexivity | now rewrite IH]. Qed.

Lemma append_empty_r (s : string) : (s ++ "")%string = s.
Proof. induction s as [|x s IH]; simpl; [reflexivity | now rewrite IH]. Qed.

Lemma substring_whole (s : string) : String.substring 0 (String.length s) s = s.
Proof. induction s as [|x s IH]; simpl; [reflexivity | now rewrite IH]. Qed.

(** Induction on strings two characters at a time. *)
Lemma string_pairs_ind (P : string -> Prop) :
  P EmptyString ->
  (forall a, P (String a EmptyString)) ->
  (forall a b r, P r -> P (String b r) -> P (String a (String b r))) ->
  forall s, P s.
Proof.
  intros Hnil Hone Hpair s.
  assert (P s /\ forall a, P (String a s)) as [H _]; [|exact H].
  induction s as [|b r [IHr IHbr]].
  - split; [exact Hnil | exact Hone].
  - split; [apply IHbr|]. intros a. apply Hpair; [exact IHr | apply IHbr].
Qed.

Lemma splitMessages_step (a b : ascii) (r : string) :
  splitMessages (String a (String b r))
  = if isLF a && isLF b then EmptyString :: splitMessages r
    else consFirst a (splitMessages (String b r)).
Proof. reflexivity. Qed.

Lemma consFirst_nonempty (a : ascii) (l : list string) : consFirst a l <> [].
Proof. destruct l; discriminate. Qed.

Lemma splitMessages_nonempty (s : string) : splitMessages s <> [].
Proof.
  induction s as [|a|a b r _ _] using string_pairs_ind; try discriminate.
  rewrite splitMessages_step.
  destruct (isLF a && isLF b); [discriminate | apply consFirst_nonempty].
Qed.

Lemma splitMessages_single (s p : string) : splitMessages s = [p] -> p = s.
Proof.
  revert p. induction s as [|a|a b r _ IH] using string_pairs_ind; intros p.
  - now intros [= <-].
  - now intros [= <-].
  - rewrite splitMessages_step. destruct (isLF a && isLF b).
    + intros [= _ H]. now apply splitMessages_nonempty in H.
    + destruct (splitMessages (String b r)) as [|q [|q' qs]] eqn:E.
      * now apply splitMessages_nonempty in E.
      * intros [= <-]. now rewrite (IH q eq_refl).
      * discriminate.
Qed.

(** Splitting a text that grows: the complete messages of the first part
    stay, and the rest starts over from its last, incomplete piece. *)
Lemma splitMessages_append (s t : string) :
  splitMessages (s ++ t)
  = (removelast (splitMessages s)
       ++ splitMessages (last (splitMessages s) EmptyString ++ t))%list.
Proof.
  induction s as [|a|a b r IHr IHbr] using string_pairs_ind.
  - reflexivity.
  - reflexivity.
  - change (String a (String b r) ++ t)%string
      with (String a (String b (r ++ t))).
    rewrite !splitMessages_step.
    destruct (isLF a && isLF b) eqn:Hsep.
    + rewrite IHr.
      destruct (splitMessages r) as [|p ps] eqn:E;
        [now apply splitMessages_nonempty in E|].
      reflexivity.
    + change (String b (r ++ t)) with (String b r ++ t)%string.
      rewrite IHbr.
      destruct (splitMessages (String b r)) as [|p [|q qs]] eqn:E.
      * now apply splitMessages_nonempty in E.
      * apply splitMessages_single in E. subst p.
        cbn [removelast last consFirst app].
        change (String a (String b r) ++ t)%string
          with (String a (String b (r ++ t))).
        now rewrite splitMessages_step, Hsep.
      * reflexivity.
Qed.

Lemma prefix_data (payload : string) :
  String.prefix "data: " ("data: " ++ payload) = true.
Proof. simpl. now destruct payload. Qed.

Lemma slice6_data (payload : string) : slice6 ("data: " ++ payload) = payload.
Proof.
  unfold slice6. simpl. rewrite Nat.sub_0_r. apply substring_whole.
Qed.

Lemma andThen_ret {A : Type} (c : Eff A) (page : Page) :
  andThen c ret page = c page.
Proof. unfold andThen, ret. now destruct (c page) as [page' [a|e]]. Qed.

Section Consumer.

Variable parse : string -> Js.Outcome Event.

Lemma handleLines_app (l1 l2 : list string) (result : option Report.t)
  (page : Page) :
  handleLines parse (l1 ++ l2) result page
  = andThen (handleLines parse l1 result) (handleLines parse l2) page.
Proof.
  revert result page. induction l1 as [|line l1 IH]; intros result page.
  - reflexivity.
  - cbn [app handleLines]. unfold andThen at 1 2 3.
    destruct (handleLine parse line result page) as [page' [r|e]];
      [|reflexivity].
    rewrite IH. reflexivity.
Qed.

Lemma readAll_Chunk (value : string) (rest : Body) (buffer : string)
  (result : option Report.t) (page : Page) :
  readAll parse (Chunk value rest) buffer result page
  = andThen
      (handleLines parse (removelast (splitMessages (buffer ++ value))) result)
      (readAll parse rest (last (splitMessages (buffer ++ value)) EmptyString))
      page.
Proof. reflexivity. Qed.

Lemma textOf_cons (value : string) (rest : list string) :
  textOf (value :: rest) = (value ++ textOf rest)%string.
Proof. reflexivity. Qed.

Lemma readAll_chunks (chunks : list string) (buffer : string)
  (result : option Report.t) (page : Page) :
  chunks <> [] ->
  readAll parse (bodyOf chunks) buffer result page
  = handleLines parse
      (removelast (splitMessages (buffer ++ textOf chunks))) result page.
Proof.
  revert buffer result page.
  induction chunks as [|value rest IH]; intros buffer result page Hne;
    [contradiction|].
  change (bodyOf (value :: rest)) with (Chunk value (bodyOf rest)).
  rewrite readAll_Chunk, textOf_cons.
  destruct rest as [|next rest].
  - change (textOf []) with EmptyString. rewrite append_empty_r.
    change (bodyOf []) with Done. apply andThen_ret.
  - rewrite <- (append_assoc buffer value).
    rewrite (splitMessages_append (buffer ++ value) (textOf (next :: rest))).
    rewrite removelast_app by apply splitMessages_nonempty.
    rewrite handleLines_app. unfold andThen.
    destruct (handleLines parse (removelast (splitMessages (buffer ++ value)))
                result page) as [page' [r|e]]; [|reflexivity].
    apply IH. discriminate.
Qed.

Lemma readAll_text (chunks : list string) (result : option Report.t)
  (page : Page) :
  readAll parse (bodyOf chunks) EmptyString result page
  = handleLines parse (removelast (splitMessages (textOf chunks))) result page.
Proof.
  destruct chunks as [|value rest]; [reflexivity|].
  now rewrite readAll_chunks.
Qed.

Lemma handleLine_data (payload : string) (event : Event)
  (result : option Report.t) (page : Page) :
  parse payload = Js.Return event ->
  handleLine parse ("data: " ++ payload) result page
  = consumeEvents [event] result page.
Proof.
  intros Hparse. unfold handleLine.
  rewrite prefix_data, slice6_data, Hparse. unfold andThen, lift.
  destruct event as [message|data|message|];
    first
      [ reflexivity
      | cbn [consumeEvents]; unfold andThen;
        now destruct (addProgressMessage message page) as [page' [[]|e]] ].
Qed.

Lemma consumeEvents_cons (event : Event) (events : list Event)
  (result : option Report.t) (page : Page) :
  consumeEvents (event :: events) result page
  = andThen (consumeEvents [event] result) (consumeEvents events) page.
Proof.
  destruct event as [message|data|message|];
    first
      [ reflexivity
      | cbn [consumeEvents]; unfold andThen;
        now destruct (addProgressMessage message page) as [page' [[]|e]] ].
Qed.

Lemma handleLines_events (payloads : list string) (events : list Event)
  (result : option Report.t) (page : Page) :
  Forall2 (fun payload event => parse payload = Js.Return event)
    payloads events ->
  handleLines parse (map (String.append "data: ") payloads) result page
  = consumeEvents events result page.
Proof.
  intros Hparsed. revert result page.
  induction Hparsed as [|payload event payloads events Hparse _ IH];
    intros result page; [reflexivity|].
  cbn [map handleLines]. rewrite consumeEvents_cons. unfold andThen.
  rewrite (handleLine_data payload event result page Hparse).
  destruct (consumeEvents [event] result page) as [page' [r|e]];
    [apply IH | reflexivity].
Qed.

End Consumer.

Lemma splitMessages_line (s rest : string) :
  singleLine s ->
  splitMessages (s ++ lineFeed ++ lineFeed ++ rest)
  = s :: splitMessages rest.
Proof.
  induction s as [|c s IH]; intros Hline; [reflexivity|].
  destruct Hline as [Hc Hs]. specialize (IH Hs).
  change (String c s ++ lineFeed ++ lineFeed ++ rest)%string
    with (String c (s ++ lineFeed ++ lineFeed ++ rest)).
  destruct (s ++ lineFeed ++ lineFeed ++ rest)%string as [|b r] eqn:E.
  - destruct s; discriminate E.
  - rewrite splitMessages_step, Hc, IH. reflexivity.
Qed.

Lemma splitMessages_frame (payloads : list string) :
  Forall singleLine payloads ->
  splitMessages (frame payloads)
  = (map (String.append "data: ") payloads ++ [EmptyString])%list.
Proof.
  unfold frame. induction 1 as [|payload payloads Hline _ IH];
    [reflexivity|].
  cbn [map textOf fold_right app].
  fold (textOf (map (fun payload => "data: " ++ payload ++ lineFeed ++ lineFeed)
                  payloads)).
  rewrite <- IH.
  rewrite <- (splitMessages_line ("data: " ++ payload)).
  - now rewrite !append_assoc.
  - simpl. repeat split; try reflexivity. exact Hline.
Qed.

Lemma consumeEvents_progress (messages : list string) (rest : list Event)
  (result : option Report.t) (page : Page) :
  consumeEvents (map Progress messages ++ rest) result page
  = consumeEvents rest result (showing page messages).
Proof.
  revert page. induction messages as [|message messages IH]; intros page.
  - destruct page; simpl; [now rewrite app_nil_r | reflexivity].
  - cbn [map app consumeEvents]. unfold andThen.
    destruct page as [shown|]; cbn [addProgressMessage]; rewrite IH;
      [|reflexivity].
    unfold showing. cbn [option_map]. now rewrite <- app_assoc.
Qed.

(** The outcome of the consumer does not depend on the progress events:
    without them, and on any page, it is the same. *)
Lemma progress_is_informational (events : list Event)
  (result : option Report.t) (page page' : Page) :
  snd (consumeEvents events result page)
  = snd (consumeEvents (filter (fun e => negb (isProgress e)) events)
           result page').
Proof.
  revert result page page'.
  induction events as [|[message|data|message|] events IH];
    intros result page page'; cbn [filter isProgress negb consumeEvents].
  - reflexivity.
  - unfold andThen. destruct page; cbn [addProgressMessage]; apply IH.
  - apply IH.
  - reflexivity.
  - apply IH.
Qed.

(** C8. A stream of progress events that ends with one terminal event,
    however it is cut into chunks, decides the call by that terminal event
    alone: an [error] event makes [performAnalysis] throw an error with its
    message; a [complete] event makes it return the report the event
    carries, every metric under its key with its score, status,
    recommendations and data as reported and its details in one text, and
    the total, the status and the website type of the report under
    [_totalScore]; a stream with no terminal event (or a [complete] event
    without data) makes it throw.  The progress events are appended to the
    page and change nothing else. *)
Theorem terminal_event_decides
  (fetch : Request -> Js.Outcome Response)
  (parse : string -> Js.Outcome Event)
  (url : string) (page : Page)
  (chunks payloads messages : list string) (ending : Ending) :
  (forall request,
      endpoint request = "http://localhost:5001/api/analyze-stream" ->
      fetch request = Js.Return {| ok := true; body := bodyOf chunks |}) ->
  textOf chunks = frame payloads ->
  Forall singleLine payloads ->
  Forall2 (fun payload event => parse payload = Js.Return event)
    payloads (map Progress messages ++ terminalEvents ending) ->
  wellFormed ending ->
  performAnalysis fetch parse url page
  = (showing page messages, decided ending).
Proof.
  intros Hfetch Htext Hlines Hparsed Hformed. unfold performAnalysis.
  rewrite Hfetch by reflexivity.
  unfold andThen at 1. unfold lift. cbn [ok body negb].
  unfold andThen. rewrite readAll_text, Htext, splitMessages_frame by assumption.
  rewrite removelast_last.
  rewrite (handleLines_events parse payloads _ None page Hparsed).
  rewrite consumeEvents_progress.
  destruct ending as [|message|[report|]]; try reflexivity.
  cbn [wellFormed] in Hformed. cbn [terminalEvents consumeEvents decided].
  unfold ret. now rewrite (toResults_converted report Hformed).
Qed.

(** A progress event and a complete event, cut in the middle of the
    separator between them. *)
Lemma terminal_event_decides_witness :
  performAnalysis sampleFetch sampleParse "example.com" (Some [])
  = (Some ["half way"],
     Js.Return
       [ ("pageSpeed",
          OfMetric
            {| Result.score := 85;
               Result.status := "good";
               Result.recommendations := Strings ["Enable browser caching"];
               Result.details := "slow images; no caching";
               Result.specificData := Reported [("loadTime", "1800")] |});
         ("sitemap",
          OfMetric
            {| Result.score := 100;
               Result.status := "excellent";
               Result.recommendations := Strings [];
               Result.details := "";
               Result.specificData := Reported [] |});
         ("_totalScore",
          OfTotal
            {| TotalInfo.score := 104;
               TotalInfo.status := "excellent";
               TotalInfo.websiteType := "content" |}) ]).
Proof.
  apply (terminal_event_decides sampleFetch sampleParse "example.com" (Some [])
           [ "data: P" ++ lineFeed;
             lineFeed ++ "data: C" ++ lineFeed ++ lineFeed ]
           ["P"; "C"] ["half way"] (Completed (Some sampleReport))).
  - reflexivity.
  - reflexivity.
  - repeat constructor.
  - repeat constructor.
  - repeat split.
    + repeat constructor; simpl; intuition discriminate.
    + simpl; intuition discriminate.
    + simpl; intuition discriminate.
Defined.

(** ** What the report view does with the total *)

Lemma ownProperty_replaceOrAdd {A : Type} (obj : list (string * A))
  (key : string) (value : A) :
  Js.ownProperty (replaceOrAdd obj key value) key = Some value.
Proof.
  induction obj as [|[k v] obj IH]; simpl.
  - now rewrite String.eqb_refl.
  - destruct (String.eqb k key) eqn:E; simpl; rewrite E; [reflexivity|].
    exact IH.
Qed.

(** The results [performAnalysis] returns carry the total of the backend,
    and the report is displayed with that total: [calculateTotalScore] is
    the fallback for a results object without one. *)
Lemma backend_total_is_displayed (this : Analyzer) (report : Report.t) :
  displayedTotal this (toResults report)
  = Js.Return
      (Provided
         (OfTotal
            {| TotalInfo.score := Report.totalScore report;
               TotalInfo.status := Report.status report;
               TotalInfo.websiteType := Report.websiteType report |})).
Proof.
  unfold displayedTotal, toResults, setProperty.
  change (String.eqb "_totalScore" "__proto__") with false. cbv iota.
  now rewrite ownProperty_replaceOrAdd.
Qed.

(** The loop of [collectAllIssues] does not skip the [_totalScore] entry as
    the loops of the report view do: a total of 75 or more is passed over
    like any good score, a lower one has no metric to name and the call
    throws. *)
Lemma total_entry_is_not_skipped (total : TotalInfo.t) :
  collectAllIssues newAnalyzer [("_totalScore", OfTotal total)]
  = if TotalInfo.score total <? 75 then Js.Throw Js.TypeError
    else Js.Return [].
Proof.
  unfold collectAllIssues. cbn [collectLoop scoreOf].
  now destruct (TotalInfo.score total <? 75).
Qed.

Section Refused.

Variable fetch : Request -> Js.Outcome Response.
Variable parse : string -> Js.Outcome Event.

(** A response that is not [ok] makes [performAnalysis] throw before it
    reads the body. *)
Lemma refused_request_throws (url : string) (page : Page) (response : Response) :
  (forall request, fetch request = Js.Return response) ->
  ok response = false ->
  performAnalysis fetch parse url page = (page, Js.Throw (Js.Error "分析请求失败")).
Proof.
  intros Hfetch Hok. unfold performAnalysis. rewrite Hfetch.
  unfold andThen, lift. now rewrite Hok.
Qed.

End Refused.

(** On any sequence of events, the first [error] event ends the consumer,
    whatever came before it; without one, the last [complete] event
    decides. *)
Lemma first_error_event_throws (before after : list Event) (message : string)
  (result : option Report.t) (page : Page) :
  Forall (fun event => isFailed event = false) before ->
  snd (consumeEvents (before ++ Failed message :: after) result page)
  = Js.Throw (Js.Error message).
Proof.
  intros Hbefore. revert result page.
  induction Hbefore as [|[m|data|m|] before Hevent _ IH]; intros result page;
    cbn [app consumeEvents]; try discriminate; try apply IH.
  - reflexivity.
  - unfold andThen. destruct page; cbn [addProgressMessage]; apply IH.
Qed.

Lemma last_complete_event_decides (events : list Event)
  (result : option Report.t) (page : Page) :
  Forall (fun event => isFailed event = false) events ->
  snd (consumeEvents events result page)
  = Js.Return (lastComplete events result).
Proof.
  intros Hevents. revert result page.
  induction Hevents as [|[m|data|m|] events Hevent _ IH]; intros result page;
    cbn [consumeEvents lastComplete]; try discriminate; try apply IH.
  - reflexivity.
  - unfold andThen. destruct page; cbn [addProgressMessage]; apply IH.
Qed.

(** ** More on the stream consumer *)

Lemma splitMessages_frame_then (payloads : list string) (rest : string) :
  Forall singleLine payloads ->
  splitMessages (frame payloads ++ rest)
  = (map (String.append "data: ") payloads ++ splitMessages rest)%list.
Proof.
  unfold frame. induction 1 as [|payload payloads Hline _ IH];
    [reflexivity|].
  cbn [map textOf fold_right app].
  fold (textOf (map (fun payload => "data: " ++ payload ++ lineFeed ++ lineFeed)
                  payloads)).
  rewrite <- IH.
  rewrite <- (splitMessages_line ("data: " ++ payload)).
  - now rewrite !append_assoc.
  - simpl. repeat split; try reflexivity. exact Hline.
Qed.

Lemma splitMessages_whole (s : string) :
  hasBlankLine s = false -> splitMessages s = [s].
Proof.
  induction s as [|a|a b r _ IH] using string_pairs_ind; try reflexivity.
  intros H. change (hasBlankLine (String a (String b r)))
    with ((isLF a && isLF b) || hasBlankLine (String b r)) in H.
  apply orb_false_iff in H. destruct H as [Hsep Hrest].
  rewrite splitMessages_step, Hsep, (IH Hrest). reflexivity.
Qed.

Section Streams.

Variable fetch : Request -> Js.Outcome Response.
Variable parse : string -> Js.Outcome Event.

(** The call on a body whose complete lines are the given payloads, parsed
    as the given events, and whose last piece has no separator after it. *)
Lemma performAnalysis_events (url : string) (page : Page)
  (chunks payloads : list string) (tail : string) (events : list Event) :
  (forall request,
      endpoint request = "http://localhost:5001/api/analyze-stream" ->
      fetch request = Js.Return {| ok := true; body := bodyOf chunks |}) ->
  textOf chunks = (frame payloads ++ tail)%string ->
  hasBlankLine tail = false ->
  Forall singleLine payloads ->
  Forall2 (fun payload event => parse payload = Js.Return event)
    payloads events ->
  performAnalysis fetch parse url page
  = (fst (consumeEvents events None page),
     Js.bind (snd (consumeEvents events None page)) settle).
Proof.
  intros Hfetch Htext Htail Hlines Hparsed. unfold performAnalysis.
  rewrite Hfetch by reflexivity.
  unfold andThen at 1. unfold lift. cbn [ok body negb].
  unfold andThen. rewrite readAll_text, Htext.
  rewrite splitMessages_frame_then, splitMessages_whole by assumption.
  rewrite removelast_last.
  rewrite (handleLines_events parse payloads events None page Hparsed).
  destruct (consumeEvents events None page) as [page' [[report|]|e]];
    reflexivity.
Qed.

End Streams.

Lemma consumeEvents_first_error (before after : list Event) (message : string)
  (result : option Report.t) (page : Page) :
  Forall (fun event => isFailed event = false) before ->
  consumeEvents (before ++ Failed message :: after) result page
  = (showing page (progressMessages before), Js.Throw (Js.Error message)).
Proof.
  intros Hbefore. revert result page.
  induction Hbefore as [|[m|data|m|] before Hevent _ IH]; intros result page;
    cbn [app consumeEvents progressMessages]; try discriminate;
    try apply IH.
  - unfold throw, showing. destruct page; simpl; [now rewrite app_nil_r|reflexivity].
  - unfold andThen. destruct page as [shown|]; cbn [addProgressMessage];
      rewrite IH; [|reflexivity].
    unfold showing. cbn [option_map]. now rewrite <- app_assoc.
Qed.

Lemma consumeEvents_no_error (events : list Event)
  (result : option Report.t) (page : Page) :
  Forall (fun event => isFailed event = false) events ->
  consumeEvents events result page
  = (showing page (progressMessages events),
     Js.Return (lastComplete events result)).
Proof.
  intros Hevents. revert result page.
  induction Hevents as [|[m|data|m|] events Hevent _ IH]; intros result page;
    cbn [consumeEvents progressMessages lastComplete]; try discriminate;
    try apply IH.
  - unfold ret, showing. destruct page; simpl; [now rewrite app_nil_r|reflexivity].
  - unfold andThen. destruct page as [shown|]; cbn [addProgressMessage];
      rewrite IH; [|reflexivity].
    unfold showing. cbn [option_map]. now rewrite <- app_assoc.
Qed.

Section StreamProperties.

Variable parse : string -> Js.Outcome Event.

(** X1. How the body is cut into chunks does not matter: two responses with
    the same status whose chunks add up to the same text give the same
    outcome and leave the same page. *)
Theorem chunking_does_not_matter
  (fetch1 fetch2 : Request -> Js.Outcome Response) (accepted : bool)
  (chunks1 chunks2 : list string) (url : string) (page : Page) :
  (forall request,
      fetch1 request = Js.Return {| ok := accepted; body := bodyOf chunks1 |}) ->
  (forall request,
      fetch2 request = Js.Return {| ok := accepted; body := bodyOf chunks2 |}) ->
  textOf chunks1 = textOf chunks2 ->
  performAnalysis fetch1 parse url page = performAnalysis fetch2 parse url page.
Proof.
  intros H1 H2 Htext. unfold performAnalysis. rewrite H1, H2.
  unfold andThen at 1 3. unfold lift. cbn [ok body].
  destruct accepted; cbn [negb]; [|reflexivity].
  unfold andThen. now rewrite !readAll_text, Htext.
Qed.

(** X2. A last piece of the body that no blank line follows is never
    handled: the outcome is that of the body without it, so a complete event
    that is not terminated by the separator does not count. *)
Theorem unterminated_tail_is_ignored
  (fetch1 fetch2 : Request -> Js.Outcome Response)
  (chunks1 chunks2 payloads : list string) (tail url : string) (page : Page) :
  (forall request,
      fetch1 request = Js.Return {| ok := true; body := bodyOf chunks1 |}) ->
  (forall request,
      fetch2 request = Js.Return {| ok := true; body := bodyOf chunks2 |}) ->
  textOf chunks1 = (frame payloads ++ tail)%string ->
  textOf chunks2 = frame payloads ->
  hasBlankLine tail = false ->
  Forall singleLine payloads ->
  performAnalysis fetch1 parse url page = performAnalysis fetch2 parse url page.
Proof.
  intros H1 H2 Htext1 Htext2 Htail Hlines. unfold performAnalysis.
  rewrite H1, H2. unfold andThen at 1 3. unfold lift. cbn [ok body negb].
  unfold andThen. rewrite !readAll_text, Htext1, Htext2.
  rewrite splitMessages_frame_then, splitMessages_whole by assumption.
  rewrite splitMessages_frame by assumption.
  now rewrite !removelast_last.
Qed.

End StreamProperties.

Lemma chunking_does_not_matter_witness :
  performAnalysis (serving oneChunk) readEvent "example.com" (Some [])
  = performAnalysis (serving threeChunks) readEvent "example.com" (Some []).
Proof.
  apply (chunking_does_not_matter readEvent (serving oneChunk)
           (serving threeChunks) true oneChunk threeChunks).
  - reflexivity.
  - reflexivity.
  - reflexivity.
Defined.

Lemma unterminated_tail_is_ignored_witness :
  performAnalysis (serving cutShort) readEvent "example.com" (Some [])
  = performAnalysis (serving progressOnly) readEvent "example.com" (Some []).
Proof.
  apply (unterminated_tail_is_ignored readEvent (serving cutShort)
           (serving progressOnly) cutShort progressOnly ["P"] "data: C").
  - reflexivity.
  - reflexivity.
  - reflexivity.
  - reflexivity.
  - reflexivity.
  - repeat constructor.
Defined.

Section Calls.

Variable fetch : Request -> Js.Outcome Response.
Variable parse : string -> Js.Outcome Event.

Lemma handleLines_malformed (good rest : list string) (bad : string)
  (events : list Event) (e : Js.Exn) (result : option Report.t) (page : Page) :
  Forall2 (fun payload event => parse payload = Js.Return event) good events ->
  Forall (fun event => isFailed event = false) events ->
  parse bad = Js.Throw e ->
  handleLines parse (map (String.append "data: ") (good ++ bad :: rest))
    result page
  = (showing page (progressMessages events), Js.Throw e).
Proof.
  intros Hparsed Hevents Hbad.
  rewrite map_app, handleLines_app. unfold andThen.
  rewrite (handleLines_events parse good events result page Hparsed).
  rewrite consumeEvents_no_error by assumption.
  cbn [map handleLines]. unfold andThen, handleLine.
  rewrite prefix_data, slice6_data, Hbad. reflexivity.
Qed.

(** X3. The first [error] event ends the call with its message, whatever
    came before it (a [complete] event included) and whatever follows it;
    the page shows the progress messages sent before it and none sent
    after. *)
Theorem first_error_ends_the_call (url : string) (page : Page)
  (chunks payloads : list string) (tail : string)
  (before after : list Event) (message : string) :
  (forall request,
      endpoint request = "http://localhost:5001/api/analyze-stream" ->
      fetch request = Js.Return {| ok := true; body := bodyOf chunks |}) ->
  textOf chunks = (frame payloads ++ tail)%string ->
  hasBlankLine tail = false ->
  Forall singleLine payloads ->
  Forall2 (fun payload event => parse payload = Js.Return event)
    payloads (before ++ Failed message :: after) ->
  Forall (fun event => isFailed event = false) before ->
  performAnalysis fetch parse url page
  = (showing page (progressMessages before), Js.Throw (Js.Error message)).
Proof.
  intros Hfetch Htext Htail Hlines Hparsed Hbefore.
  rewrite (performAnalysis_events fetch parse url page chunks payloads tail
             (before ++ Failed message :: after)) by assumption.
  now rewrite consumeEvents_first_error.
Qed.

(** X4. Without an [error] event the data of the last [complete] event is
    the result, converted for the views; earlier [complete] events are
    overwritten, events of other types change nothing, every progress
    message is shown (those after the [complete] event too), and a stream
    with no [complete] event, or whose last one has no data, throws. *)
Theorem last_complete_is_the_result (url : string) (page : Page)
  (chunks payloads : list string) (tail : string) (events : list Event) :
  (forall request,
      endpoint request = "http://localhost:5001/api/analyze-stream" ->
      fetch request = Js.Return {| ok := true; body := bodyOf chunks |}) ->
  textOf chunks = (frame payloads ++ tail)%string ->
  hasBlankLine tail = false ->
  Forall singleLine payloads ->
  Forall2 (fun payload event => parse payload = Js.Return event)
    payloads events ->
  Forall (fun event => isFailed event = false) events ->
  performAnalysis fetch parse url page
  = (showing page (progressMessages events),
     settle (lastComplete events None)).
Proof.
  intros Hfetch Htext Htail Hlines Hparsed Hevents.
  rewrite (performAnalysis_events fetch parse url page chunks payloads tail
             events) by assumption.
  now rewrite consumeEvents_no_error.
Qed.

(** X5. A line after [data: ] that [JSON.parse] rejects ends the call with
    the parser's exception: the loop has no [try] of its own, so one
    malformed event discards a result already received. *)
Theorem malformed_event_ends_the_call (url : string) (page : Page)
  (chunks good rest : list string) (bad tail : string)
  (events : list Event) (e : Js.Exn) :
  (forall request,
      endpoint request = "http://localhost:5001/api/analyze-stream" ->
      fetch request = Js.Return {| ok := true; body := bodyOf chunks |}) ->
  textOf chunks = (frame (good ++ bad :: rest) ++ tail)%string ->
  hasBlankLine tail = false ->
  Forall singleLine (good ++ bad :: rest) ->
  Forall2 (fun payload event => parse payload = Js.Return event) good events ->
  Forall (fun event => isFailed event = false) events ->
  parse bad = Js.Throw e ->
  performAnalysis fetch parse url page
  = (showing page (progressMessages events), Js.Throw e).
Proof.
  intros Hfetch Htext Htail Hlines Hparsed Hevents Hbad.
  unfold performAnalysis. rewrite Hfetch by reflexivity.
  unfold andThen at 1. unfold lift. cbn [ok body negb].
  unfold andThen. rewrite readAll_text, Htext.
  rewrite splitMessages_frame_then, splitMessages_whole by assumption.
  rewrite removelast_last.
  now rewrite (handleLines_malformed good rest bad events e None page).
Qed.

(** X6. When the request fails or the response is not [ok], the call
    throws (the request's own exception, or the fixed error) without reading
    the body and without touching the page. *)
Theorem failed_request_reads_nothing (url : string) (page : Page)
  (outcome : Js.Outcome Response) :
  (forall request, fetch request = outcome) ->
  (forall response, outcome = Js.Return response -> ok response = false) ->
  performAnalysis fetch parse url page
  = (page, Js.Throw (requestError outcome)).
Proof.
  intros Hfetch Hrefused. unfold performAnalysis. rewrite Hfetch.
  unfold andThen, lift. destruct outcome as [response|e]; [|reflexivity].
  now rewrite (Hrefused response eq_refl).
Qed.

(** X7. A read of the body that is rejected ends the call with that
    exception, after the events of the chunks read so far were handled. *)
Theorem rejected_read_ends_the_call (url : string) (page : Page)
  (payloads : list string) (events : list Event) (e : Js.Exn) :
  (forall request,
      fetch request
      = Js.Return {| ok := true; body := Chunk (frame payloads) (Rejected e) |}) ->
  Forall singleLine payloads ->
  Forall2 (fun payload event => parse payload = Js.Return event)
    payloads events ->
  Forall (fun event => isFailed event = false) events ->
  performAnalysis fetch parse url page
  = (showing page (progressMessages events), Js.Throw e).
Proof.
  intros Hfetch Hlines Hparsed Hevents. unfold performAnalysis.
  rewrite Hfetch. unfold andThen at 1. unfold lift. cbn [ok body negb].
  unfold andThen. rewrite readAll_Chunk. cbn [String.append].
  rewrite <- (append_empty_r (frame payloads)).
  rewrite splitMessages_frame_then by assumption.
  cbn [splitMessages]. rewrite removelast_last, last_last.
  unfold andThen.
  rewrite (handleLines_events parse payloads events None page Hparsed).
  now rewrite consumeEvents_no_error.
Qed.

End Calls.

Lemma first_error_ends_the_call_witness :
  performAnalysis (serving (sending ["P"; "C"; "E"; "P"])) readEvent
    "example.com" (Some [])
  = (Some ["half way"], Js.Throw (Js.Error "backend down")).
Proof.
  apply (first_error_ends_the_call (serving (sending ["P"; "C"; "E"; "P"]))
           readEvent "example.com" (Some [])
           (sending ["P"; "C"; "E"; "P"]) ["P"; "C"; "E"; "P"] EmptyString
           [Progress "half way"; Complete (Some sampleReport)]
           [Progress "half way"] "backend down").
  - reflexivity.
  - reflexivity.
  - reflexivity.
  - repeat constructor.
  - repeat constructor.
  - repeat constructor.
Defined.

Lemma last_complete_is_the_result_witness :
  performAnalysis (serving (sending ["N"; "P"; "C"; "P"])) readEvent
    "example.com" (Some [])
  = (Some ["half way"; "half way"], Js.Return (toResults sampleReport)).
Proof.
  apply (last_complete_is_the_result (serving (sending ["N"; "P"; "C"; "P"]))
           readEvent "example.com" (Some [])
           (sending ["N"; "P"; "C"; "P"]) ["N"; "P"; "C"; "P"] EmptyString
           [Complete None; Progress "half way"; Complete (Some sampleReport);
            Progress "half way"]).
  - reflexivity.
  - reflexivity.
  - reflexivity.
  - repeat constructor.
  - repeat constructor.
  - repeat constructor.
Defined.

Lemma malformed_event_ends_the_call_witness :
  performAnalysis (serving (sending ["C"; "{"; "P"])) readEvent
    "example.com" (Some [])
  = (Some [], Js.Throw Js.SyntaxError).
Proof.
  apply (malformed_event_ends_the_call (serving (sending ["C"; "{"; "P"]))
           readEvent "example.com" (Some [])
           (sending ["C"; "{"; "P"]) ["C"] ["P"] "{" EmptyString
           [Complete (Some sampleReport)] Js.SyntaxError).
  - reflexivity.
  - reflexivity.
  - reflexivity.
  - repeat constructor.
  - repeat constructor.
  - repeat constructor.
  - reflexivity.
Defined.

Lemma failed_request_reads_nothing_witness :
  performAnalysis refusing readEvent "example.com" (Some [])
  = (Some [], Js.Throw (Js.Error "分析请求失败")).
Proof.
  apply (failed_request_reads_nothing refusing readEvent "example.com"
           (Some []) (refusing {| endpoint := EmptyString; url := EmptyString;
                                  fullSiteAnalysis := false |})).
  - reflexivity.
  - intros response H. injection H as <-. reflexivity.
Defined.

Lemma rejected_read_ends_the_call_witness :
  performAnalysis (breakingOff ["P"; "C"] Js.TypeError) readEvent
    "example.com" (Some [])
  = (Some ["half way"], Js.Throw Js.TypeError).
Proof.
  apply (rejected_read_ends_the_call (breakingOff ["P"; "C"] Js.TypeError)
           readEvent "example.com" (Some []) ["P"; "C"]
           [Progress "half way"; Complete (Some sampleReport)] Js.TypeError).
  - reflexivity.
  - repeat constructor.
  - repeat constructor.
  - repeat constructor.
Defined.

(** ** The address and the converted report *)

Lemma prefix_https (s : string) : String.prefix "https://" ("https://" ++ s) = true.
Proof. simpl. now destruct s. Qed.

Lemma withProtocol_cases (s : string) :
  (withProtocol s = s
   /\ negb (String.prefix "http://" s) && negb (String.prefix "https://" s)
      = false)
  \/ (withProtocol s = ("https://" ++ s)%string
      /\ negb (String.prefix "http://" s) && negb (String.prefix "https://" s)
         = true).
Proof.
  unfold withProtocol.
  destruct (negb (String.prefix "http://" s) && negb (String.prefix "https://" s));
    [right | left]; now split.
Qed.

Lemma withProtocol_fixed (s : string) : withProtocol (withProtocol s) = withProtocol s.
Proof.
  destruct (withProtocol_cases s) as [[-> H]|[-> _]].
  - unfold withProtocol. now rewrite H.
  - unfold withProtocol. rewrite prefix_https.
    now rewrite andb_false_r.
Qed.

Lemma performAnalysis_request (fetch : Request -> Js.Outcome Response)
  (parse : string -> Js.Outcome Event) (s : string) (page : Page) :
  performAnalysis fetch parse s page
  = andThen (lift (fetch (requestFor s)))
      (fun response =>
         if negb (ok response) then throw (Js.Error "分析请求失败")
         else
           andThen (readAll parse (body response) EmptyString None)
             (fun result => lift (settle result))) page.
Proof.
  unfold performAnalysis, requestFor, withProtocol, andThen, lift.
  destruct (fetch _) as [response|e]; [|reflexivity].
  destruct (negb (ok response)); [reflexivity|].
  destruct (readAll parse (body response) EmptyString None page)
    as [page' [[report|]|e]]; reflexivity.
Qed.

(** X8. The address is completed with [https://] when it starts with neither
    protocol, the same way where it is validated and where it is sent: the
    completion starts with a protocol and completing twice changes nothing,
    so an address is valid exactly when its completion is, the call with the
    completed address is the call with the address, and the call makes one
    request, to the fixed endpoint, with the completed address and without
    the full-site option. *)
Theorem address_is_completed_once (s : string) :
  withProtocol (withProtocol s) = withProtocol s
  /\ String.prefix "http://" (withProtocol s)
     || String.prefix "https://" (withProtocol s) = true
  /\ (forall newURL, isValidUrl newURL (withProtocol s) = isValidUrl newURL s)
  /\ (forall fetch parse page,
         performAnalysis fetch parse (withProtocol s) page
         = performAnalysis fetch parse s page)
  /\ (forall fetch1 fetch2 parse page,
         fetch1 (requestFor s) = fetch2 (requestFor s) ->
         performAnalysis fetch1 parse s page
         = performAnalysis fetch2 parse s page).
Proof.
  split; [apply withProtocol_fixed|]. split; [|split; [|split]].
  - destruct (withProtocol_cases s) as [[-> H]|[-> _]].
    + destruct (String.prefix "http://" s), (String.prefix "https://" s);
        first [reflexivity | discriminate].
    + rewrite prefix_https. apply orb_true_r.
  - intros newURL. unfold isValidUrl. now rewrite withProtocol_fixed.
  - intros fetch parse page. rewrite !performAnalysis_request.
    unfold requestFor. now rewrite withProtocol_fixed.
  - intros fetch1 fetch2 parse page H. rewrite !performAnalysis_request.
    now rewrite H.
Qed.

Lemma ownProperty_converted {A B : Type} (convert : A -> B)
  (entries : list (string * A)) (rest : list (string * B))
  (key : string) (a : A) :
  NoDup (map fst entries) ->
  In (key, a) entries ->
  Js.ownProperty
    (map (fun entry => (fst entry, convert (snd entry))) entries ++ rest)%list
    key
  = Some (convert a).
Proof.
  induction entries as [|[k v] entries IH]; intros Hnodup Hin;
    [contradiction|].
  cbn [map fst snd app Js.ownProperty].
  cbn [map fst] in Hnodup. inversion Hnodup as [|? ? Hk Hrest]; subst.
  destruct Hin as [Heq|Hin].
  - injection Heq as -> ->. now rewrite String.eqb_refl.
  - destruct (String.eqb k key) eqn:E.
    + apply String.eqb_eq in E. subst k. exfalso. apply Hk.
      now apply (in_map fst) in Hin.
    + now apply IH.
Qed.

(** X9. A report whose metric keys are distinct and are neither [__proto__]
    nor [_totalScore] is converted entry by entry in the report's order,
    with the total added last: every metric of the report is an own property
    of the results under its key, with the score, the status, the
    recommendations and the data of the report unchanged and its details
    joined by a semicolon and a space; the total keeps the score, the
    status and the website type of the report. *)
Theorem report_is_converted_in_order (report : Report.t) :
  NoDup (Js.keys (Report.results report)) ->
  ~ In "__proto__" (Js.keys (Report.results report)) ->
  ~ In "_totalScore" (Js.keys (Report.results report)) ->
  toResults report = converted report
  /\ Js.keys (toResults report)
     = (Js.keys (Report.results report) ++ ["_totalScore"])%list
  /\ (forall key metricData,
         In (key, metricData) (Report.results report) ->
         Js.ownProperty (toResults report) key
         = Some
             (OfMetric
                {| Result.score := Reported.score metricData;
                   Result.status := Reported.status metricData;
                   Result.recommendations :=
                     Strings (Reported.recommendations metricData);
                   Result.details :=
                     String.concat "; " (Reported.details metricData);
                   Result.specificData := Reported.specificData metricData |}))
  /\ Js.ownProperty (toResults report) "_totalScore"
     = Some
         (OfTotal
            {| TotalInfo.score := Report.totalScore report;
               TotalInfo.status := Report.status report;
               TotalInfo.websiteType := Report.websiteType report |}).
Proof.
  intros Hnodup Hproto Htotal.
  assert (Hconv : toResults report = converted report)
    by (apply toResults_converted; repeat split; assumption).
  split; [exact Hconv|]. split; [|split].
  - rewrite Hconv. unfold converted, Js.keys. now rewrite map_app, map_map.
  - intros key metricData Hin. rewrite Hconv. unfold converted.
    exact (ownProperty_converted
             (fun md =>
                OfMetric
                  {| Result.score := Reported.score md;
                     Result.status := Reported.status md;
                     Result.recommendations :=
                       Strings (Reported.recommendations md);
                     Result.details := String.concat "; " (Reported.details md);
                     Result.specificData := Reported.specificData md |})
             (Report.results report) _ key metricData Hnodup Hin).
  - unfold toResults, setProperty.
    change (String.eqb "_totalScore" "__proto__") with false. cbv iota.
    apply ownProperty_replaceOrAdd.
Qed.

Lemma report_is_converted_in_order_witness :
  toResults sampleReport
  = [ ("pageSpeed",
       OfMetric
         {| Result.score := 85;
            Result.status := "good";
            Result.recommendations := Strings ["Enable browser caching"];
            Result.details := "slow images; no caching";
            Result.specificData := Reported [("loadTime", "1800")] |});
      ("sitemap",
       OfMetric
         {| Result.score := 100;
            Result.status := "excellent";
            Result.recommendations := Strings [];
            Result.details := "";
            Result.specificData := Reported [] |});
      ("_totalScore",
       OfTotal
         {| TotalInfo.score := 104;
            TotalInfo.status := "excellent";
            TotalInfo.websiteType := "content" |}) ].
Proof.
  refine (proj1 (report_is_converted_in_order sampleReport _ _ _)).
  - repeat constructor; simpl; intuition discriminate.
  - simpl; intuition discriminate.
  - simpl; intuition discriminate.
Defined.

(** ** Totals of partial and unusual results *)

Lemma weightPresent_pos (results : Results) :
  results <> [] ->
  Forall (fun entry => In (fst entry) metricKeys) results ->
  0 < weightPresent results.
Proof.
  unfold weightPresent, Js.keys. intros Hne Hkeys.
  assert (0 <= sumZ (map tableWeight (map fst results))
          /\ (results <> [] -> 0 < sumZ (map tableWeight (map fst results))))
    as [_ H]; [|now apply H].
  clear Hne. induction Hkeys as [|entry results Hkey _ [IH _]].
  - split; [simpl; lia | congruence].
  - rewrite !map_cons, sumZ_cons.
    destruct (metric_of_key _ Hkey) as (m & Hm & Hpos).
    assert (0 < tableWeight (fst entry)) by (unfold tableWeight; now rewrite Hm).
    split; [lia | intros _; lia].
Qed.

Lemma calculateTotalScore_present (results : Results) :
  results <> [] ->
  Forall (fun entry => In (fst entry) metricKeys) results ->
  calculateTotalScore newAnalyzer results
  = Js.Return
      {| Total.score := Js.Num (meanOfPresent results);
         Total.status := getScoreStatus (Js.Num (meanOfPresent results));
         Total.weightedSum := Js.Num (weightedScores results);
         Total.totalWeight := Js.Num (weightPresent results) |}.
Proof.
  intros Hne Hkeys. pose proof (weightPresent_pos results Hne Hkeys) as Hpos.
  unfold calculateTotalScore. rewrite (sumLoop_table results 0 0 Hkeys).
  cbn [Js.bind fst snd Z.add]. fold (weightPresent results).
  unfold Js.roundDiv, meanOfPresent.
  destruct (Z.eqb_spec (weightPresent results) 0) as [H0|_]; [lia|].
  reflexivity.
Qed.

(** X10. For a non-empty results object with some of the twelve metrics only,
    [calculateTotalScore] divides by the weights of the metrics present, not
    by 100: the total is the rounded weighted mean of the scores present and
    stays between the lowest and the highest of them. *)
Theorem total_is_mean_of_metrics_present (results : Results) (lo hi : Z) :
  results <> [] ->
  Forall (fun entry => In (fst entry) metricKeys) results ->
  Forall (fun entry => lo <= scoreOf (snd entry) <= hi) results ->
  calculateTotalScore newAnalyzer results
  = Js.Return
      {| Total.score := Js.Num (meanOfPresent results);
         Total.status := getScoreStatus (Js.Num (meanOfPresent results));
         Total.weightedSum := Js.Num (weightedScores results);
         Total.totalWeight := Js.Num (weightPresent results) |}
  /\ 0 < weightPresent results
  /\ lo <= meanOfPresent results <= hi.
Proof.
  intros Hne Hkeys Hrange.
  split; [now apply calculateTotalScore_present|].
  pose proof (weightPresent_pos results Hne Hkeys) as Hpos.
  split; [exact Hpos|].
  pose proof (weightedScores_bounds results lo hi Hkeys Hrange) as Hb.
  fold (weightPresent results) in Hb. unfold meanOfPresent. split.
  - apply Z.div_le_lower_bound; nia.
  - assert ((2 * weightedScores results + weightPresent results)
            / (2 * weightPresent results) < hi + 1); [|lia].
    apply Z.div_lt_upper_bound; nia.
Qed.

Lemma total_is_mean_of_metrics_present_witness :
  calculateTotalScore newAnalyzer twoResults
  = Js.Return
      {| Total.score := Js.Num 77;
         Total.status := "good";
         Total.weightedSum := Js.Num 1380;
         Total.totalWeight := Js.Num 18 |}
  /\ 0 < weightPresent twoResults
  /\ 60 <= meanOfPresent twoResults <= 80.
Proof.
  apply (total_is_mean_of_metrics_present twoResults 60 80).
  - discriminate.
  - repeat constructor; simpl; tauto.
  - repeat constructor; simpl; lia.
Defined.

Lemma noLower_keys (results1 results2 : Results) :
  noLower results1 results2 -> Js.keys results1 = Js.keys results2.
Proof.
  unfold Js.keys. induction 1 as [|e1 e2 l1 l2 [Hk _] _ IH]; [reflexivity|].
  cbn [map]. now rewrite Hk, IH.
Qed.

Lemma noLower_weightedScores (results1 results2 : Results) :
  noLower results1 results2 ->
  Forall (fun entry => In (fst entry) metricKeys) results1 ->
  weightedScores results1 <= weightedScores results2.
Proof.
  unfold weightedScores.
  induction 1 as [|e1 e2 l1 l2 [Hk Hs] _ IH]; intros Hkeys; [simpl; lia|].
  inversion Hkeys as [|? ? Hkey Hrest]; subst.
  rewrite !map_cons, !sumZ_cons. specialize (IH Hrest).
  destruct (metric_of_key _ Hkey) as (m & Hm & Hpos).
  assert (0 < tableWeight (fst e1)) by (unfold tableWeight; now rewrite Hm).
  rewrite <- Hk. nia.
Qed.

(** X11. The total never falls when scores rise: of two non-empty results
    objects with the same metrics, the one whose scores are nowhere lower
    gets a total that is not lower. *)
Theorem total_is_monotone (results1 results2 : Results) :
  results1 <> [] ->
  Forall (fun entry => In (fst entry) metricKeys) results1 ->
  noLower results1 results2 ->
  exists total1 total2 t1 t2,
    calculateTotalScore newAnalyzer results1 = Js.Return total1
    /\ calculateTotalScore newAnalyzer results2 = Js.Return total2
    /\ Total.score total1 = Js.Num t1
    /\ Total.score total2 = Js.Num t2
    /\ t1 <= t2.
Proof.
  intros Hne Hkeys Hlower.
  pose proof (noLower_keys _ _ Hlower) as Hsame.
  assert (Hne2 : results2 <> []).
  { intros ->. inversion Hlower; subst. now apply Hne. }
  assert (Hkeys2 : Forall (fun entry => In (fst entry) metricKeys) results2).
  { clear Hne Hne2 Hsame.
    induction Hlower as [|e1 e2 l1 l2 [Hk _] _ IH]; [constructor|].
    inversion Hkeys; subst. constructor; [now rewrite <- Hk | now apply IH]. }
  do 2 eexists. exists (meanOfPresent results1), (meanOfPresent results2).
  rewrite (calculateTotalScore_present results1 Hne Hkeys).
  rewrite (calculateTotalScore_present results2 Hne2 Hkeys2).
  do 4 (split; [reflexivity|]).
  pose proof (weightPresent_pos results1 Hne Hkeys) as Hpos.
  pose proof (noLower_weightedScores _ _ Hlower Hkeys) as Hws.
  unfold meanOfPresent, weightPresent in *. rewrite <- Hsame.
  apply Z.div_le_mono; lia.
Qed.

Lemma total_is_monotone_witness :
  exists total1 total2 t1 t2,
    calculateTotalScore newAnalyzer twoResults = Js.Return total1
    /\ calculateTotalScore newAnalyzer twoBetter = Js.Return total2
    /\ Total.score total1 = Js.Num t1
    /\ Total.score total2 = Js.Num t2
    /\ t1 <= t2.
Proof.
  apply (total_is_monotone twoResults twoBetter).
  - discriminate.
  - repeat constructor; simpl; tauto.
  - repeat constructor; simpl; lia.
Defined.

Lemma sumLoop_throws (this : Analyzer) (results : Results)
  (weightedSum totalWeight : Js.Number) (e : Js.Exn) :
  sumLoop this results weightedSum totalWeight = Js.Throw e <->
  e = Js.TypeError /\ Exists (unknownKey this) (Js.keys results).
Proof.
  revert weightedSum totalWeight.
  induction results as [|[key result] results IH]; intros weightedSum totalWeight.
  - cbn. split; [discriminate|]. intros [_ H]. inversion H.
  - cbn [sumLoop Js.keys map fst]. unfold unknownKey at 1.
    destruct (Js.get (metrics this) key) as [m|member|] eqn:Hget;
      cbn [weightOf Js.bind].
    + rewrite IH. unfold Js.keys. split; intros [He Hex]; (split; [exact He|]).
      * now apply Exists_cons_tl.
      * inversion Hex as [? ? Hhd|? ? Htl]; subst; [|exact Htl].
        unfold unknownKey in Hhd. congruence.
    + rewrite IH. unfold Js.keys. split; intros [He Hex]; (split; [exact He|]).
      * now apply Exists_cons_tl.
      * inversion Hex as [? ? Hhd|? ? Htl]; subst; [|exact Htl].
        unfold unknownKey in Hhd. congruence.
    + split.
      * intros H. injection H as <-. split; [reflexivity|].
        apply Exists_cons_hd. exact Hget.
      * intros [-> _]. reflexivity.
Qed.

(** X12. [calculateTotalScore] throws exactly when [results] has a key that
    the table reads as [undefined], and then a [TypeError]: one unknown key
    leaves the caller without a total, whatever the other entries are. *)
Theorem total_throws_on_unknown_key (this : Analyzer) (results : Results) :
  (forall e, calculateTotalScore this results = Js.Throw e -> e = Js.TypeError)
  /\ (calculateTotalScore this results = Js.Throw Js.TypeError
      <-> Exists (unknownKey this) (Js.keys results)).
Proof.
  assert (forall e, calculateTotalScore this results = Js.Throw e
                    <-> sumLoop this results (Js.Num 0) (Js.Num 0) = Js.Throw e)
    as Hsame.
  { intros e. unfold calculateTotalScore.
    destruct (sumLoop this results (Js.Num 0) (Js.Num 0)) as [sums|e'];
      simpl; split; intros H;
      first [discriminate H | injection H as ->; reflexivity]. }
  split.
  - intros e H. apply Hsame in H. now apply sumLoop_throws in H.
  - rewrite Hsame, sumLoop_throws. tauto.
Qed.

Lemma toResults_has_total (report : Report.t) :
  In "_totalScore" (Js.keys (toResults report)).
Proof.
  pose proof (backend_total_is_displayed newAnalyzer report) as H.
  unfold displayedTotal in H.
  destruct (Js.ownProperty (toResults report) "_totalScore") as [value|] eqn:E.
  - apply ownProperty_In in E. unfold Js.keys.
    now apply (in_map fst) in E.
  - destruct (calculateTotalScore newAnalyzer (toResults report));
      discriminate H.
Qed.

(** X13. Whatever [performAnalysis] returns carries the total of the
    backend, so the report is shown with that total and the fallback is not
    run; run on such results, the fallback would throw, because the table
    has no metric for the key [_totalScore]. *)
Theorem returned_results_carry_the_total
  (fetch : Request -> Js.Outcome Response) (parse : string -> Js.Outcome Event)
  (url : string) (page page' : Page) (results : Results) (this : Analyzer) :
  performAnalysis fetch parse url page = (page', Js.Return results) ->
  (exists total,
      displayedTotal this results = Js.Return (Provided (OfTotal total)))
  /\ calculateTotalScore newAnalyzer results = Js.Throw Js.TypeError.
Proof.
  intros Hcall. rewrite performAnalysis_request in Hcall.
  unfold andThen, lift in Hcall.
  destruct (fetch (requestFor url)) as [response|e]; [|discriminate Hcall].
  destruct (negb (ok response)); [discriminate Hcall|].
  destruct (readAll parse (body response) EmptyString None page)
    as [page'' [[report|]|e]]; try discriminate Hcall.
  cbn [settle] in Hcall. injection Hcall as _ <-. split.
  - eexists. apply backend_total_is_displayed.
  - unfold calculateTotalScore.
    destruct (sumLoop newAnalyzer (toResults report) (Js.Num 0) (Js.Num 0))
      as [sums|e] eqn:Hloop.
    + exfalso.
      assert (Hthrow : sumLoop newAnalyzer (toResults report) (Js.Num 0) (Js.Num 0)
                       = Js.Throw Js.TypeError).
      { apply sumLoop_throws. split; [reflexivity|].
        apply Exists_exists. exists "_totalScore".
        split; [apply toResults_has_total | reflexivity]. }
      congruence.
    + apply sumLoop_throws in Hloop. destruct Hloop as [-> _]. reflexivity.
Qed.

Lemma returned_results_carry_the_total_witness :
  (exists total,
      displayedTotal newAnalyzer (toResults sampleReport)
      = Js.Return (Provided (OfTotal total)))
  /\ calculateTotalScore newAnalyzer (toResults sampleReport)
     = Js.Throw Js.TypeError.
Proof.
  apply (returned_results_carry_the_total (serving oneChunk) readEvent
           "example.com" (Some []) (Some ["half way"])
           (toResults sampleReport) newAnalyzer).
  reflexivity.
Defined.

Lemma sumLoop_NaN (this : Analyzer) (results : Results) :
  Forall (fun key => ~ unknownKey this key) (Js.keys results) ->
  sumLoop this results Js.NaN Js.NaN = Js.Return (Js.NaN, Js.NaN).
Proof.
  unfold Js.keys. induction results as [|[key result] results IH];
    intros Hkeys; [reflexivity|].
  cbn [map fst] in Hkeys. inversion Hkeys as [|? ? Hkey Hrest]; subst.
  cbn [sumLoop]. unfold unknownKey in Hkey.
  destruct (Js.get (metrics this) key) as [m|member|];
    [| |contradiction]; cbn [weightOf Js.bind Js.mul Js.add]; now apply IH.
Qed.

Lemma sumLoop_inherited (this : Analyzer) (results : Results)
  (weightedSum totalWeight : Js.Number) :
  Forall (fun key => ~ unknownKey this key) (Js.keys results) ->
  Exists (inheritedKey this) (Js.keys results) ->
  sumLoop this results weightedSum totalWeight = Js.Return (Js.NaN, Js.NaN).
Proof.
  unfold Js.keys. revert weightedSum totalWeight.
  induction results as [|[key result] results IH];
    intros weightedSum totalWeight Hkeys Hex; [inversion Hex|].
  cbn [map fst] in Hkeys, Hex. inversion Hkeys as [|? ? Hkey Hrest]; subst.
  cbn [sumLoop]. unfold unknownKey in Hkey.
  destruct (Js.get (metrics this) key) as [m|member|] eqn:Hget;
    [| |contradiction]; cbn [weightOf Js.bind].
  - apply IH; [exact Hrest|].
    inversion Hex as [? ? [member Hhd]|? ? Htl]; subst; [congruence|exact Htl].
  - replace (Js.add weightedSum (Js.mul (Js.Num (scoreOf result)) Js.NaN))
      with Js.NaN by now destruct weightedSum.
    replace (Js.add totalWeight Js.NaN) with Js.NaN by now destruct totalWeight.
    now apply sumLoop_NaN.
Qed.

Lemma own_key_of_table (key : string) (m : Metric.t) :
  Js.get metricTable key = Js.Own m -> In key metricKeys.
Proof.
  unfold Js.get. destruct (Js.ownProperty metricTable key) as [v|] eqn:E.
  - intros _. apply ownProperty_In in E. apply (in_map fst) in E.
    exact E.
  - destruct (Js.inString key Js.objectPrototype); discriminate.
Qed.

(** X14. When every key of [results] is read from the table as something,
    [calculateTotalScore] returns, and its total is never infinite; it is
    [NaN] (shown with status poor) exactly when [results] is empty, where it
    divides 0 by 0, or when a key names a member the table inherits from
    [Object.prototype], which has no weight. *)
Theorem total_is_a_number_unless (results : Results) :
  Forall (fun key => ~ unknownKey newAnalyzer key) (Js.keys results) ->
  exists total,
    calculateTotalScore newAnalyzer results = Js.Return total
    /\ (forall negative, Total.score total <> Js.Infinity negative)
    /\ (Total.score total = Js.NaN
        <-> results = [] \/ Exists (inheritedKey newAnalyzer) (Js.keys results))
    /\ (Total.score total = Js.NaN -> Total.status total = "poor").
Proof.
  intros Hkeys.
  destruct (Exists_dec (inheritedKey newAnalyzer) (Js.keys results)) as [Hex|Hnone].
  { intros key. unfold inheritedKey.
    destruct (Js.get (metrics newAnalyzer) key) as [m|member|];
      [right; intros [? ?]; discriminate
      | left; now exists member
      | right; intros [? ?]; discriminate]. }
  - eexists. unfold calculateTotalScore.
    rewrite (sumLoop_inherited newAnalyzer results _ _ Hkeys Hex).
    cbn [Js.bind fst snd Js.roundDiv Total.score Total.status].
    split; [reflexivity|]. split; [discriminate|]. split; [|reflexivity].
    split; [now right | reflexivity].
  - assert (Hown : Forall (fun entry => In (fst entry) metricKeys) results).
    { apply Forall_forall. intros [key result] Hin. cbn [fst].
      apply (in_map fst) in Hin. cbn [fst] in Hin.
      rewrite Forall_forall in Hkeys. specialize (Hkeys key Hin).
      unfold unknownKey in Hkeys.
      destruct (Js.get (metrics newAnalyzer) key) as [m|member|] eqn:Hget;
        [now apply (own_key_of_table key m) | | contradiction].
      exfalso. apply Hnone. apply Exists_exists. exists key.
      split; [exact Hin | now exists member]. }
    destruct results as [|entry results].
    + eexists. split; [reflexivity|]. cbn.
      split; [discriminate|]. split; [|reflexivity].
      split; [now left | reflexivity].
    + eexists. rewrite calculateTotalScore_present by (assumption || discriminate).
      split; [reflexivity|]. cbn [Total.score Total.status].
      split; [discriminate|]. split; [|discriminate].
      split; [discriminate|]. intros [H|H]; [discriminate H | contradiction].
Qed.

Lemma total_is_a_number_unless_witness :
  exists total,
    calculateTotalScore newAnalyzer withInherited = Js.Return total
    /\ (forall negative, Total.score total <> Js.Infinity negative)
    /\ (Total.score total = Js.NaN
        <-> withInherited = []
            \/ Exists (inheritedKey newAnalyzer) (Js.keys withInherited))
    /\ (Total.score total = Js.NaN -> Total.status total = "poor").
Proof.
  apply (total_is_a_number_unless withInherited).
  repeat constructor; unfold unknownKey; simpl; discriminate.
Defined.

(** ** Statuses, severities and their labels *)

Lemma getScoreStatus_cases (score : Z) :
  (90 <= score /\ getScoreStatus (Js.Num score) = "excellent")
  \/ (75 <= score < 90 /\ getScoreStatus (Js.Num score) = "good")
  \/ (60 <= score < 75 /\ getScoreStatus (Js.Num score) = "warning")
  \/ (score < 60 /\ getScoreStatus (Js.Num score) = "poor").
Proof.
  unfold getScoreStatus, Js.ge.
  destruct (Z.leb_spec 90 score); [now left|].
  destruct (Z.leb_spec 75 score); [right; left; split; [lia|reflexivity]|].
  destruct (Z.leb_spec 60 score);
    [right; right; left; split; [lia|reflexivity]|].
  right; right; right. split; [lia|reflexivity].
Qed.

(** X15. A higher score never gets a worse status nor a more severe
    grade. *)
Theorem grades_follow_the_score (score1 score2 : Z) :
  score1 <= score2 ->
  statusGrade (getScoreStatus (Js.Num score1))
  <= statusGrade (getScoreStatus (Js.Num score2))
  /\ rankOfSeverity (getIssueSeverity score1)
     <= rankOfSeverity (getIssueSeverity score2).
Proof.
  intros Hle. split.
  - destruct (getScoreStatus_cases score1) as [[? ->]|[[? ->]|[[? ->]|[? ->]]]];
      destruct (getScoreStatus_cases score2) as [[? ->]|[[? ->]|[[? ->]|[? ->]]]];
      first [lia | (cbv; discriminate)].
  - destruct (getIssueSeverity_cases score1) as [[? ->]|[[? ->]|[[? ->]|[? ->]]]];
      destruct (getIssueSeverity_cases score2) as [[? ->]|[[? ->]|[[? ->]|[? ->]]]];
      first [lia | (cbv; discriminate)].
Qed.

Lemma grades_follow_the_score_witness :
  statusGrade (getScoreStatus (Js.Num 59))
  <= statusGrade (getScoreStatus (Js.Num 60))
  /\ rankOfSeverity (getIssueSeverity 59)
     <= rankOfSeverity (getIssueSeverity 60).
Proof.
  apply (grades_follow_the_score 59 60). lia.
Defined.

(** X16. The scores that give rise to an issue (below 75) are those with
    status warning or poor, and the severity of an issue refines its status:
    critical and high issues are poor, low issues are warnings, and medium
    issues are poor below 60 and warnings from 60 on. *)
Theorem severity_refines_status (score : Z) :
  ((score <? 75) = true
   <-> getScoreStatus (Js.Num score) = "warning"
       \/ getScoreStatus (Js.Num score) = "poor")
  /\ (getIssueSeverity score = "critical" \/ getIssueSeverity score = "high" ->
      getScoreStatus (Js.Num score) = "poor")
  /\ ((score <? 75) = true -> getIssueSeverity score = "low" ->
      getScoreStatus (Js.Num score) = "warning")
  /\ (getIssueSeverity score = "medium" ->
      getScoreStatus (Js.Num score)
      = if score <? 60 then "poor" else "warning").
Proof.
  rewrite Z.ltb_lt.
  destruct (getScoreStatus_cases score) as [[? ->]|[[? ->]|[[? ->]|[? ->]]]];
    destruct (getIssueSeverity_cases score) as [[? ->]|[[? ->]|[[? ->]|[? ->]]]];
    try lia;
    (split; [split; [intros; first [lia | now left | now right]
                    | intros [H'|H']; first [lia | discriminate H']]|]);
    (split; [intros [H'|H']; first [reflexivity | discriminate H']|]);
    (split; [intros ? H'; first [reflexivity | discriminate H' | lia]|]);
    intros H'; try discriminate H';
    destruct (Z.ltb_spec score 60); first [reflexivity | lia].
Qed.

(** X17. Every status and severity the code computes has a label and an
    icon of its own: on them the four lookups never fall back on the
    "unknown" text or the question mark.  For each of the four lookups, a
    string that is neither a key of its table nor the name of an inherited
    member gets the fallback, and the name of an inherited member gets that
    member, not a text. *)
Theorem computed_grades_have_labels :
  (forall score,
      properLabel (getStatusText (getScoreStatus score)) "未知"
      /\ properLabel (getStatusIcon (getScoreStatus score))
           "fas fa-question-circle")
  /\ (forall score,
         properLabel (getSeverityText (getIssueSeverity score)) "未知"
         /\ properLabel (getSeverityIcon (getIssueSeverity score))
              "fas fa-question-circle")
  /\ (forall key,
         In key ["excellent"; "good"; "warning"; "poor"] \/
         Js.inString key Js.objectPrototype = true \/
         (getStatusText key = LabelText "未知"
          /\ getStatusIcon key = LabelText "fas fa-question-circle"))
  /\ (forall key,
         In key ["critical"; "high"; "medium"; "low"] \/
         Js.inString key Js.objectPrototype = true \/
         (getSeverityText key = LabelText "未知"
          /\ getSeverityIcon key = LabelText "fas fa-question-circle"))
  /\ (forall key,
         Js.inString key Js.objectPrototype = true ->
         getStatusText key = LabelMember key
         /\ getStatusIcon key = LabelMember key
         /\ getSeverityText key = LabelMember key
         /\ getSeverityIcon key = LabelMember key).
Proof.
  split; [|split; [|split; [|split]]].
  - intros score. unfold getScoreStatus.
    destruct (Js.ge score 90); [|destruct (Js.ge score 75);
                                  [|destruct (Js.ge score 60)]];
      (split; eexists; (split; [reflexivity | discriminate])).
  - intros score.
    destruct (getIssueSeverity_cases score) as [[? ->]|[[? ->]|[[? ->]|[? ->]]]];
      (split; eexists; (split; [reflexivity | discriminate])).
  - intros key. unfold getStatusText, getStatusIcon, Js.get.
    cbn [Js.ownProperty].
    destruct (String.eqb_spec "excellent" key) as [<-|_]; [left; simpl; tauto|].
    destruct (String.eqb_spec "good" key) as [<-|_]; [left; simpl; tauto|].
    destruct (String.eqb_spec "warning" key) as [<-|_]; [left; simpl; tauto|].
    destruct (String.eqb_spec "poor" key) as [<-|_]; [left; simpl; tauto|].
    right. destruct (Js.inString key Js.objectPrototype); [now left|].
    right. split; reflexivity.
  - intros key. unfold getSeverityText, getSeverityIcon, Js.get.
    cbn [Js.ownProperty].
    destruct (String.eqb_spec "critical" key) as [<-|_]; [left; simpl; tauto|].
    destruct (String.eqb_spec "high" key) as [<-|_]; [left; simpl; tauto|].
    destruct (String.eqb_spec "medium" key) as [<-|_]; [left; simpl; tauto|].
    destruct (String.eqb_spec "low" key) as [<-|_]; [left; simpl; tauto|].
    right. destruct (Js.inString key Js.objectPrototype); [now left|].
    right. split; reflexivity.
  - intros key Hmember.
    assert (Hnot : forall k, In k ["excellent"; "good"; "warning"; "poor";
                                   "critical"; "high"; "medium"; "low"] ->
                             String.eqb k key = false).
    { intros k Hk. destruct (String.eqb_spec k key) as [<-|]; [|reflexivity].
      simpl in Hk.
      repeat (destruct Hk as [<-|Hk]; [discriminate Hmember|]).
      contradiction. }
    unfold getStatusText, getStatusIcon, getSeverityText, getSeverityIcon, Js.get.
    cbn [Js.ownProperty].
    rewrite !Hnot by (simpl; tauto). rewrite Hmember. repeat split.
Qed.

(** ** The order of the collected issues *)

Lemma insertSorted_past {A : Type} (after : A -> A -> bool) (x : A)
  (l1 l2 : list A) :
  (forall y, In y l1 -> after x y = true) ->
  Js.insertSorted after x (l1 ++ l2) = (l1 ++ Js.insertSorted after x l2)%list.
Proof.
  induction l1 as [|y l1 IH]; intros Hpast; [reflexivity|].
  cbn [app Js.insertSorted]. rewrite (Hpast y (or_introl eq_refl)).
  f_equal. apply IH. intros z Hz. apply Hpast. now right.
Qed.

Lemma insertSorted_stop {A : Type} (after : A -> A -> bool) (x : A)
  (l : list A) :
  (forall y, In y l -> after x y = false) ->
  Js.insertSorted after x l = x :: l.
Proof.
  destruct l as [|y l]; intros Hstop; [reflexivity|].
  cbn [Js.insertSorted]. now rewrite (Hstop y (or_introl eq_refl)).
Qed.

Lemma ofSeverity_In (severity : string) (issues : list Issue.t) (i : Issue.t) :
  In i (ofSeverity severity issues) ->
  In i issues /\ Issue.severity i = severity.
Proof.
  unfold ofSeverity. rewrite filter_In. intros [Hin Heq].
  split; [exact Hin | now apply String.eqb_eq].
Qed.

Lemma after_by_rank (x y : Issue.t) :
  graded x -> graded y ->
  Js.gt (compareSeverity x y) 0
  = (rankOfSeverity (Issue.severity y) <? rankOfSeverity (Issue.severity x)).
Proof. apply compare_graded. Qed.

Lemma sort_bySeverity (issues : list Issue.t) :
  Forall graded issues ->
  Js.sort compareSeverity issues = bySeverity issues.
Proof.
  unfold Js.sort. induction 1 as [|x l Hx Hl IH]; [reflexivity|].
  cbn [fold_right]. rewrite IH. clear IH.
  set (after := fun a b => Js.gt (compareSeverity a b) 0).
  assert (Hafter : forall severity y,
             In y (ofSeverity severity l) ->
             after x y
             = (rankOfSeverity severity <? rankOfSeverity (Issue.severity x))).
  { intros severity y Hy. apply ofSeverity_In in Hy. destruct Hy as [Hy <-].
    unfold after. apply after_by_rank; [exact Hx|].
    rewrite Forall_forall in Hl. now apply Hl. }
  unfold bySeverity, ofSeverity. cbn [filter]. fold (ofSeverity "critical" l).
  fold (ofSeverity "high" l). fold (ofSeverity "medium" l).
  fold (ofSeverity "low" l).
  assert (Hin : forall l1 l2 l3 l4 (y : Issue.t),
             In y (l1 ++ l2 ++ l3 ++ l4)%list ->
             In y l1 \/ In y l2 \/ In y l3 \/ In y l4).
  { intros l1 l2 l3 l4 y. rewrite !in_app_iff. tauto. }
  unfold graded in Hx.
  destruct (getIssueSeverity_cases (Issue.score x))
    as [[_ Hs]|[[_ Hs]|[[_ Hs]|[_ Hs]]]]; rewrite Hs in Hx; rewrite Hx in *;
    cbn [String.eqb Ascii.eqb Bool.eqb andb].
  - cbn [app]. apply insertSorted_stop. intros y Hy.
    apply Hin in Hy. destruct Hy as [Hy|[Hy|[Hy|Hy]]];
      now rewrite (Hafter _ y Hy).
  - rewrite insertSorted_past
      by (intros y Hy; now rewrite (Hafter _ y Hy)).
    f_equal. cbn [app]. apply insertSorted_stop. intros y Hy.
    rewrite !in_app_iff in Hy. destruct Hy as [Hy|[Hy|Hy]];
      now rewrite (Hafter _ y Hy).
  - rewrite insertSorted_past
      by (intros y Hy; now rewrite (Hafter _ y Hy)).
    f_equal.
    rewrite insertSorted_past
      by (intros y Hy; now rewrite (Hafter _ y Hy)).
    f_equal. cbn [app]. apply insertSorted_stop. intros y Hy.
    rewrite !in_app_iff in Hy. destruct Hy as [Hy|Hy];
      now rewrite (Hafter _ y Hy).
  - rewrite insertSorted_past
      by (intros y Hy; now rewrite (Hafter _ y Hy)).
    f_equal.
    rewrite insertSorted_past
      by (intros y Hy; now rewrite (Hafter _ y Hy)).
    f_equal.
    rewrite insertSorted_past
      by (intros y Hy; now rewrite (Hafter _ y Hy)).
    f_equal. cbn [app]. apply insertSorted_stop. intros y Hy.
    now rewrite (Hafter _ y Hy).
Qed.

Lemma slice0_three {A : Type} (l : list A) : (List.length (slice0 l 3) <= 3)%nat.
Proof.
  unfold slice0. change (3 <? 0) with false. cbv iota.
  rewrite length_firstn. apply Nat.le_min_l.
Qed.

(** X18. For results of the twelve metrics, [collectAllIssues] returns the
    issues in one definite order: the critical ones, then the high, the
    medium and the low ones, the issues of one severity in the order their
    metrics have in [results]; each issue carries at most three
    recommendations. *)
Theorem issues_keep_their_order_within_a_severity (results : Results) :
  Forall metricEntry results ->
  collectAllIssues newAnalyzer results
  = Js.Return
      (bySeverity (map expectedIssue (filter needsAttention results)))
  /\ Forall (fun i => (List.length (Issue.recommendations i) <= 3)%nat)
       (map expectedIssue (filter needsAttention results)).
Proof.
  intros Hentries. split.
  - unfold collectAllIssues.
    rewrite (collectLoop_entries results [] Hentries).
    cbn [Js.bind app]. rewrite sort_bySeverity; [reflexivity|].
    apply Forall_forall. intros i Hi. apply in_map_iff in Hi.
    destruct Hi as (entry & <- & _). reflexivity.
  - apply Forall_forall. intros i Hi. apply in_map_iff in Hi.
    destruct Hi as (entry & <- & _). unfold expectedIssue.
    cbn [Issue.recommendations].
    destruct (snd entry) as [r|t]; [|simpl; lia].
    destruct (Result.recommendations r); [apply slice0_three | simpl; lia].
Qed.

Lemma issues_keep_their_order_within_a_severity_witness :
  collectAllIssues newAnalyzer twoWarnings
  = Js.Return
      (map expectedIssue
         [ scored "metaTags" 20; scored "pageSpeed" 70; scored "sitemap" 66 ])
  /\ Forall (fun i => (List.length (Issue.recommendations i) <= 3)%nat)
       (map expectedIssue (filter needsAttention twoWarnings)).
Proof.
  apply (issues_keep_their_order_within_a_severity twoWarnings).
  repeat constructor; simpl; tauto.
Defined.

Lemma collectLoop_throws (this : Analyzer) (results : Results)
  (issues : list Issue.t) (e : Js.Exn) :
  collectLoop this results issues = Js.Throw e <->
  e = Js.TypeError /\ Exists (uncollectable this) results.
Proof.
  revert issues. induction results as [|[key result] results IH]; intros issues.
  - cbn. split; [discriminate|]. intros [_ H]. inversion H.
  - cbn [collectLoop].
    assert (Htail : forall P : Prop,
               ~ uncollectable this (key, result) ->
               (P <-> e = Js.TypeError /\ Exists (uncollectable this) results) ->
               (P <-> e = Js.TypeError
                      /\ Exists (uncollectable this) ((key, result) :: results))).
    { intros P Hnot ->. split; intros [He Hex]; (split; [exact He|]).
      - now apply Exists_cons_tl.
      - inversion Hex; subst; [contradiction | assumption]. }
    assert (Hhead : uncollectable this (key, result) ->
               (Js.Throw Js.TypeError = Js.Throw e :> Js.Outcome (list Issue.t))
               <-> e = Js.TypeError
                   /\ Exists (uncollectable this) ((key, result) :: results)).
    { intros Hun. split.
      - intros H. injection H as <-. split; [reflexivity|].
        now apply Exists_cons_hd.
      - intros [-> _]. reflexivity. }
    assert (Hcase : uncollectable this (key, result)
                    <-> scoreOf result < 75
                        /\ (Js.get (metrics this) key = Js.Undefined
                            \/ match result with
                               | OfMetric r =>
                                   match Result.recommendations r with
                                   | Strings _ => False
                                   | Member _ => True
                                   end
                               | OfTotal _ => True
                               end)) by reflexivity.
    destruct (Z.ltb_spec (scoreOf result) 75) as [Hlow|Hhigh];
      [|apply Htail; [rewrite Hcase; lia | apply IH]].
    destruct (Js.get (metrics this) key) as [m|member|] eqn:Hget;
      cbn [nameOf Js.bind]; [| |apply Hhead; rewrite Hcase; now auto].
    + destruct result as [r|t]; cbn [extractIssueData];
        [|apply Hhead; rewrite Hcase; now auto].
      destruct (Result.recommendations r) as [items|member];
        cbn [Js.bind]; [|apply Hhead; rewrite Hcase; now auto].
      apply Htail; [|apply IH]. rewrite Hcase.
      intros [_ [H|H]]; [discriminate H | exact H].
    + destruct result as [r|t]; cbn [extractIssueData];
        [|apply Hhead; rewrite Hcase; now auto].
      destruct (Result.recommendations r) as [items|member'];
        cbn [Js.bind]; [|apply Hhead; rewrite Hcase; now auto].
      apply Htail; [|apply IH]. rewrite Hcase.
      intros [_ [H|H]]; [discriminate H | exact H].
Qed.

(** X19. [collectAllIssues] throws exactly when some entry with a score
    below 75 cannot be made an issue, because the table has no metric for
    its key or because it has no array of recommendations (the total, for
    one), and then a [TypeError]; entries with a score of 75 or more are
    passed over whatever their key. *)
Theorem issues_throw_on_uncollectable_entry (this : Analyzer)
  (results : Results) :
  (forall e, collectAllIssues this results = Js.Throw e -> e = Js.TypeError)
  /\ (collectAllIssues this results = Js.Throw Js.TypeError
      <-> Exists (uncollectable this) results).
Proof.
  assert (forall e, collectAllIssues this results = Js.Throw e
                    <-> collectLoop this results [] = Js.Throw e) as Hsame.
  { intros e. unfold collectAllIssues.
    destruct (collectLoop this results []) as [issues|e']; simpl;
      split; intros H;
      first [discriminate H | injection H as ->; reflexivity]. }
  split.
  - intros e H. apply Hsame in H. now apply collectLoop_throws in H.
  - rewrite Hsame, collectLoop_throws. tauto.
Qed.

(** ** The total among the collected entries *)

Lemma toResults_total_entry (report : Report.t) :
  In ("_totalScore",
      OfTotal
        {| TotalInfo.score := Report.totalScore report;
           TotalInfo.status := Report.status report;
           TotalInfo.websiteType := Report.websiteType report |})
    (toResults report).
Proof.
  apply ownProperty_In. unfold toResults, setProperty.
  change (String.eqb "_totalScore" "__proto__") with false. cbv iota.
  apply ownProperty_replaceOrAdd.
Qed.

(** C10. On the results [performAnalysis] builds, [collectAllIssues] does
    not return the metrics below 75 when the total of the report is below
    75: its loop does not pass the [_totalScore] entry over as the loops of
    the report view do, finds no metric for it in the table, and throws a
    [TypeError] on reading the name of the metric, whatever the metrics of
    the report are. *)
Theorem low_total_stops_issue_collection (report : Report.t) :
  Report.totalScore report < 75 ->
  collectAllIssues newAnalyzer (toResults report) = Js.Throw Js.TypeError.
Proof.
  intros Hlow. unfold collectAllIssues.
  assert (Hloop : collectLoop newAnalyzer (toResults report) []
                  = Js.Throw Js.TypeError).
  { apply collectLoop_throws. split; [reflexivity|].
    apply Exists_exists. eexists. split; [apply toResults_total_entry|].
    split; [exact Hlow | left; reflexivity]. }
  now rewrite Hloop.
Qed.

(** A report with two weak metrics and a total of 54: collecting the issues
    throws, where the summary of the same results passes the total over
    and ends normally. *)
Lemma low_total_stops_issue_collection_witness :
  collectAllIssues newAnalyzer (toResults lowReport) = Js.Throw Js.TypeError
  /\ snd (generateSummaryCards newAnalyzer (toResults lowReport) (Some []))
     = Js.Return tt.
Proof.
  split.
  - apply (low_total_stops_issue_collection lowReport). simpl. lia.
  - reflexivity.
Defined.

(** ** What the evaluators can return *)

Ltac split_tests :=
  repeat match goal with
         | |- context [if ?c then _ else _] => destruct c eqn:?
         end.

Ltac table cases :=
  match goal with
  | m : _ |- _ =>
      destruct m;
      repeat match goal with b : bool |- _ => destruct b end;
      cbv [deducted fold_right guard condition deduction rule ruleUnder always
           andb negb cases];
      cbn beta iota delta
        [ PageSpeed.loadTime MetaTags.titleLength MetaTags.descriptionLength
          SSLCertificate.hasSSL RobotsTxt.hasRobotsTxt Sitemap.hasSitemap
          HeadingStructure.h1Count ]
  end.

Lemma deducted_pageSpeed m : deducted pageSpeedRules m <= 100.
Proof. table pageSpeedRules; split_tests; lia. Qed.

Lemma deducted_mobileOptimization m : deducted mobileOptimizationRules m <= 100.
Proof. table mobileOptimizationRules; split_tests; lia. Qed.

Lemma deducted_metaTags m : deducted metaTagsRules m <= 70.
Proof. table metaTagsRules; split_tests; lia. Qed.

Lemma deducted_headingStructure m : deducted headingStructureRules m <= 75.
Proof.
  table headingStructureRules;
    match goal with
    | |- context [?h =? 0] =>
        destruct (Z.gtb_spec h 1); destruct (Z.eqb_spec h 0)
    end; split_tests; lia.
Qed.

Lemma deducted_imageOptimization m : deducted imageOptimizationRules m <= 70.
Proof. table imageOptimizationRules; split_tests; lia. Qed.

Lemma deducted_internalLinking m : deducted internalLinkingRules m <= 90.
Proof. table internalLinkingRules; split_tests; lia. Qed.

Lemma deducted_sslCertificate m : deducted sslCertificateRules m <= 100.
Proof. table sslCertificateRules; split_tests; lia. Qed.

Lemma deducted_socialMediaTags m : deducted socialMediaTagsRules m <= 90.
Proof. table socialMediaTagsRules; split_tests; lia. Qed.

Lemma deducted_contentQuality m : deducted contentQualityRules m <= 100.
Proof. table contentQualityRules; split_tests; lia. Qed.

Lemma deducted_urlStructure m : deducted urlStructureRules m <= 70.
Proof. table urlStructureRules; split_tests; lia. Qed.

Lemma deducted_robotsTxt m : deducted robotsTxtRules m <= 55.
Proof. table robotsTxtRules; split_tests; lia. Qed.

Lemma deducted_sitemap m : deducted sitemapRules m <= 50.
Proof. table sitemapRules; split_tests; lia. Qed.

Lemma deducted_fives {M : Type} (rules : list (Rule M)) (m : M) :
  Forall (fun r => deduction r mod 5 = 0) rules ->
  deducted rules m mod 5 = 0.
Proof.
  induction 1 as [|r rules Hr _ IH]; [reflexivity|].
  cbn [deducted fold_right]. fold (deducted rules m).
  rewrite Z.add_mod, IH by lia.
  destruct (guard r m && condition r m); [now rewrite Hr | reflexivity].
Qed.

Lemma deductions_fives :
  Forall (fun e => Forall (fun r => deduction r mod 5 = 0) (rules e)) evaluators.
Proof.
  unfold evaluators.
  repeat (apply Forall_cons; [ cbn [rules]; repeat constructor | ]).
  apply Forall_nil.
Qed.

Lemma score_above {M : Type} (rules : list (Rule M)) (m : M)
  (a : Analysis.t) (allClear : string) (lowest : Z) :
  verdict a = conclude (applyGuarded rules m) allClear ->
  Forall (fun r => 0 < deduction r) rules ->
  Forall (fun r => deduction r mod 5 = 0) rules ->
  0 <= lowest ->
  deducted rules m <= 100 - lowest ->
  Analysis.score a = 100 - deducted rules m
  /\ lowest <= Analysis.score a <= 100
  /\ Analysis.score a mod 5 = 0.
Proof.
  intros Hrules Hpos Hfives Hlowest Hbound.
  rewrite (score_from_rules _ _ _ _ Hrules).
  pose proof (deducted_nonneg rules m Hpos).
  pose proof (deducted_fives rules m Hfives) as Hmod.
  rewrite Z.max_l by lia. split; [reflexivity|]. split; [lia|].
  rewrite Zminus_mod, Hmod. reflexivity.
Qed.

Lemma deducted_metaTags_drawn m :
  metaTagsDrawn m -> deducted metaTagsRules m <= 65.
Proof.
  intros (Htitle & Hdescription & _). unfold drawn in *.
  destruct m as [title description [] [] duplicates number];
    cbv [deducted fold_right guard condition deduction rule ruleUnder always
         andb negb metaTagsRules];
    cbn [MetaTags.titleLength MetaTags.descriptionLength] in *;
    destruct (Z.ltb_spec title 30); try lia;
    destruct (Z.gtb_spec description 160); try lia;
    split_tests; lia.
Qed.

Lemma deducted_headingStructure_drawn m :
  headingStructureDrawn m -> deducted headingStructureRules m <= 65.
Proof.
  intros (Hh1 & _). unfold drawn in *.
  destruct m as [h1 h2 h3 missing skipped];
    cbv [deducted fold_right guard condition deduction rule ruleUnder always
         andb negb headingStructureRules];
    cbn [HeadingStructure.h1Count] in *;
    destruct (Z.eqb_spec h1 0); try lia; split_tests; lia.
Qed.

Lemma deducted_contentQuality_drawn m :
  contentQualityDrawn m -> deducted contentQualityRules m <= 80.
Proof.
  intros (_ & Hdensity & _). unfold drawn in *.
  assert (Hunused : (ContentQuality.keywordDensity m <? 1)
                    || (ContentQuality.keywordDensity m >? 3) = false).
  { destruct (Z.ltb_spec (ContentQuality.keywordDensity m) 1); [lia|].
    destruct (Z.gtb_spec (ContentQuality.keywordDensity m) 3); [lia|].
    reflexivity. }
  destruct m as [words density readability duplicates links];
    cbv [deducted fold_right guard condition deduction rule ruleUnder always
         andb negb contentQualityRules];
    cbn [ContentQuality.keywordDensity] in *;
    rewrite Hunused; split_tests; lia.
Qed.

Lemma deductions_within_base :
  Forall (fun e => forall m, deducted (rules e) m <= 100) evaluators.
Proof.
  unfold evaluators.
  repeat (apply Forall_cons; [ cbn [rules Measured]; intros m | ]).
  13: apply Forall_nil.
  - apply deducted_pageSpeed.
  - apply deducted_mobileOptimization.
  - pose proof (deducted_metaTags m). lia.
  - pose proof (deducted_headingStructure m). lia.
  - pose proof (deducted_imageOptimization m). lia.
  - pose proof (deducted_internalLinking m). lia.
  - apply deducted_sslCertificate.
  - pose proof (deducted_socialMediaTags m). lia.
  - apply deducted_contentQuality.
  - pose proof (deducted_urlStructure m). lia.
  - pose proof (deducted_robotsTxt m). lia.
  - pose proof (deducted_sitemap m). lia.
Qed.

Lemma lowest_from_bound {M : Type} (rules : list (Rule M)) (m : M)
  (a : Analysis.t) (allClear : string) (lowest : Z) :
  verdict a = conclude (applyGuarded rules m) allClear ->
  deducted rules m <= 100 - lowest ->
  lowest <= Analysis.score a.
Proof.
  intros Hrules Hbound. rewrite (score_from_rules _ _ _ _ Hrules). lia.
Qed.

Ltac is_drawn :=
  cbv [pageSpeedDrawn mobileOptimizationDrawn metaTagsDrawn
       headingStructureDrawn imageOptimizationDrawn internalLinkingDrawn
       sslCertificateDrawn socialMediaTagsDrawn contentQualityDrawn
       urlStructureDrawn robotsTxtDrawn sitemapDrawn drawn drawnShare];
  simpl; repeat split; lia.

(** X20. No evaluator ever needs its floor at 0: the deductions that can
    fire together never exceed the base of 100, so the score is exactly 100
    less the deductions of the fired rules, a multiple of 5 from 0 to 100.
    On the numbers the evaluators draw themselves the lowest scores are 0
    for page speed, mobile optimisation and SSL, 10 for internal linking and
    social tags, 20 for content quality, 30 for images and URLs, 35 for meta
    tags and headings, 45 for robots.txt and 50 for the sitemap: no draw
    gives less, and each of them is drawn. *)
Theorem evaluators_reach_their_lowest_scores :
  Forall
    (fun e => forall m,
         Analysis.score (evaluate e m) = 100 - deducted (rules e) m
         /\ 0 <= Analysis.score (evaluate e m) <= 100
         /\ Analysis.score (evaluate e m) mod 5 = 0)
    evaluators
  /\ lowestDrawn analyzePageSpeed pageSpeedDrawn 0
  /\ lowestDrawn analyzeMobileOptimization mobileOptimizationDrawn 0
  /\ lowestDrawn analyzeMetaTags metaTagsDrawn 35
  /\ lowestDrawn analyzeHeadingStructure headingStructureDrawn 35
  /\ lowestDrawn analyzeImageOptimization imageOptimizationDrawn 30
  /\ lowestDrawn analyzeInternalLinking internalLinkingDrawn 10
  /\ lowestDrawn analyzeSSLCertificate sslCertificateDrawn 0
  /\ lowestDrawn analyzeSocialMediaTags socialMediaTagsDrawn 10
  /\ lowestDrawn analyzeContentQuality contentQualityDrawn 20
  /\ lowestDrawn analyzeURLStructure urlStructureDrawn 30
  /\ lowestDrawn analyzeRobotsTxt robotsTxtDrawn 45
  /\ lowestDrawn analyzeSitemap sitemapDrawn 50.
Proof.
  split.
  { generalize (Forall_and evaluators_follow_rules
                  (Forall_and deductions_positive
                     (Forall_and deductions_fives deductions_within_base))).
    apply Forall_impl. intros e (Hrules & Hpos & Hfives & Hbase) m.
    exact (score_above _ _ _ _ 0 (Hrules m) Hpos Hfives (Z.le_refl 0)
             (Hbase m)). }
  repeat match goal with |- _ /\ _ => split end; unfold lowestDrawn; split.
  - intros m _. eapply lowest_from_bound;
      [apply analyzePageSpeed_rules | apply deducted_pageSpeed].
  - exists {| PageSpeed.loadTime := 2001; PageSpeed.totalSize := 1501;
              PageSpeed.imageSize := 501; PageSpeed.cssSize := 151;
              PageSpeed.jsSize := 201 |}.
    split; [is_drawn | reflexivity].
  - intros m _. eapply lowest_from_bound;
      [apply analyzeMobileOptimization_rules
      | apply deducted_mobileOptimization].
  - exists {| MobileOptimization.hasViewport := false;
              MobileOptimization.touchTargets := 5;
              MobileOptimization.smallTouchTargets := 4;
              MobileOptimization.fontSize := 12;
              MobileOptimization.hasMobileMenu := false |}.
    split; [is_drawn | reflexivity].
  - intros m Hdrawn. eapply lowest_from_bound;
      [apply analyzeMetaTags_rules | now apply deducted_metaTags_drawn].
  - exists worstMetaTags. split; [is_drawn | reflexivity].
  - intros m Hdrawn. eapply lowest_from_bound;
      [apply analyzeHeadingStructure_rules
      | now apply deducted_headingStructure_drawn].
  - exists worstHeadingStructure. split; [is_drawn | reflexivity].
  - intros m _. eapply lowest_from_bound;
      [apply analyzeImageOptimization_rules
      | apply deducted_imageOptimization].
  - exists {| ImageOptimization.totalImages := 5;
              ImageOptimization.largeImages := 4;
              ImageOptimization.missingAlt := 3;
              ImageOptimization.webpImages := 0;
              ImageOptimization.lazyLoaded := 0 |}.
    split; [is_drawn | reflexivity].
  - intros m _. eapply lowest_from_bound;
      [apply analyzeInternalLinking_rules | apply deducted_internalLinking].
  - exists {| InternalLinking.totalLinks := 10;
              InternalLinking.brokenLinks := 2;
              InternalLinking.externalLinks := 5;
              InternalLinking.orphanPages := 4;
              InternalLinking.deepLinks := 6 |}.
    split; [is_drawn | reflexivity].
  - intros m _. eapply lowest_from_bound;
      [apply analyzeSSLCertificate_rules | apply deducted_sslCertificate].
  - exists {| SSLCertificate.hasSSL := false;
              SSLCertificate.daysToExpire := 1;
              SSLCertificate.hasHSTS := false;
              SSLCertificate.mixedContent := 1 |}.
    split; [is_drawn | reflexivity].
  - intros m _. eapply lowest_from_bound;
      [apply analyzeSocialMediaTags_rules | apply deducted_socialMediaTags].
  - exists {| SocialMediaTags.hasOpenGraph := false;
              SocialMediaTags.hasTwitterCards := false;
              SocialMediaTags.hasImage := false;
              SocialMediaTags.hasDescription := false |}.
    split; [exact I | reflexivity].
  - intros m Hdrawn. eapply lowest_from_bound;
      [apply analyzeContentQuality_rules
      | now apply deducted_contentQuality_drawn].
  - exists worstContentQuality. split; [is_drawn | reflexivity].
  - intros m _. eapply lowest_from_bound;
      [apply analyzeURLStructure_rules | apply deducted_urlStructure].
  - exists {| URLStructure.urlLength := 61;
              URLStructure.hasKeywords := false;
              URLStructure.hasSpecialChars := true;
              URLStructure.hasNumbers := true;
              URLStructure.depth := 4 |}.
    split; [is_drawn | reflexivity].
  - intros m _. eapply lowest_from_bound;
      [apply analyzeRobotsTxt_rules | apply deducted_robotsTxt].
  - exists {| RobotsTxt.hasRobotsTxt := true;
              RobotsTxt.blocksImportantPages := true;
              RobotsTxt.hasSitemapReference := false;
              RobotsTxt.blocksCSS := true |}.
    split; [exact I | reflexivity].
  - intros m _. eapply lowest_from_bound;
      [apply analyzeSitemap_rules | apply deducted_sitemap].
  - exists {| Sitemap.hasSitemap := false; Sitemap.totalPages := 10;
              Sitemap.lastModified := 8; Sitemap.hasImages := false;
              Sitemap.submittedToGoogle := false |}.
    split; [is_drawn | reflexivity].
Qed.

Lemma issues_fold_guarded {M : Type} (rules : list (Rule M)) (m : M) (t : Tally) :
  issues
    (fold_left
       (fun t r =>
          if guard r m && condition r m then penalize (deduction r) (issue r m) t
          else t)
       rules t)
  = (issues t ++ firedIssues rules m)%list.
Proof.
  unfold firedIssues. revert t.
  induction rules as [|r rules IH]; intros t; cbn [fold_left filter map].
  - now rewrite app_nil_r.
  - rewrite IH. unfold fired at 2.
    destruct (guard r m && condition r m); [|reflexivity].
    cbn [penalize issues map]. now rewrite <- app_assoc.
Qed.

Lemma issues_applyGuarded {M : Type} (rules : list (Rule M)) (m : M) :
  issues (applyGuarded rules m) = firedIssues rules m.
Proof. unfold applyGuarded. now rewrite issues_fold_guarded. Qed.

Lemma nothing_fired {M : Type} (rules : list (Rule M)) (m : M) :
  Forall (fun r => 0 < deduction r) rules ->
  deducted rules m = 0 <-> firedIssues rules m = [].
Proof.
  unfold firedIssues. intros Hpos.
  induction Hpos as [|r rules Hr Hrest IH]; [now split|].
  cbn [deducted fold_right filter]. fold (deducted rules m).
  pose proof (deducted_nonneg rules m Hrest). unfold fired at 1.
  destruct (guard r m && condition r m); cbn [map].
  - split; [lia | discriminate].
  - rewrite <- IH. lia.
Qed.

(** X21. The details of every evaluator list the issues of the rules that
    fired, in the order of the code and joined by a semicolon and a space;
    they are the evaluator's "all clear" text when none fired, and that is
    exactly when the score is 100. *)
Theorem details_list_the_fired_rules :
  Forall
    (fun e => forall m,
         Analysis.details (evaluate e m)
         = match firedIssues (rules e) m with
           | [] => allClear e
           | _ :: _ => Js.join "; " (firedIssues (rules e) m)
           end
         /\ (Analysis.score (evaluate e m) = 100
             <-> firedIssues (rules e) m = []))
    evaluators.
Proof.
  generalize (Forall_and evaluators_follow_rules deductions_positive).
  apply Forall_impl. intros e [Hrules Hpos] m. split.
  - specialize (Hrules m). unfold verdict, conclude in Hrules.
    apply (f_equal snd) in Hrules. cbn [snd] in Hrules. rewrite Hrules.
    unfold describe. now rewrite issues_applyGuarded.
  - rewrite (score_from_rules _ _ _ _ (Hrules m)).
    pose proof (deducted_nonneg (rules e) m Hpos).
    rewrite <- (nothing_fired (rules e) m Hpos). lia.
Qed.

(** ** Rules that the draws never reach *)

Lemma metaTags_score m :
  Analysis.score (analyzeMetaTags m) = Z.max (100 - deducted metaTagsRules m) 0.
Proof. exact (score_from_rules _ _ _ _ (analyzeMetaTags_rules m)). Qed.

Lemma headingStructure_score m :
  Analysis.score (analyzeHeadingStructure m)
  = Z.max (100 - deducted headingStructureRules m) 0.
Proof. exact (score_from_rules _ _ _ _ (analyzeHeadingStructure_rules m)). Qed.

Lemma contentQuality_score m :
  Analysis.score (analyzeContentQuality m)
  = Z.max (100 - deducted contentQualityRules m) 0.
Proof. exact (score_from_rules _ _ _ _ (analyzeContentQuality_rules m)). Qed.

(** X22. Four rules can never fire on the numbers the evaluators draw
    themselves: the title is never shorter than 30, the description never
    longer than 160, there is always an H1, and the keyword density is never
    outside 1 to 3.  On their own draws the meta tag and heading evaluators
    therefore return 35 at least and the content evaluator 20 at least,
    and these scores are drawn. *)
Theorem drawn_numbers_leave_rules_unused :
  (forall m, metaTagsDrawn m ->
             (MetaTags.titleLength m <? 30) = false
             /\ (MetaTags.descriptionLength m >? 160) = false
             /\ 35 <= Analysis.score (analyzeMetaTags m))
  /\ (forall m, headingStructureDrawn m ->
                (HeadingStructure.h1Count m =? 0) = false
                /\ 35 <= Analysis.score (analyzeHeadingStructure m))
  /\ (forall m, contentQualityDrawn m ->
                (ContentQuality.keywordDensity m <? 1)
                || (ContentQuality.keywordDensity m >? 3) = false
                /\ 20 <= Analysis.score (analyzeContentQuality m))
  /\ (metaTagsDrawn worstMetaTags
      /\ Analysis.score (analyzeMetaTags worstMetaTags) = 35)
  /\ (headingStructureDrawn worstHeadingStructure
      /\ Analysis.score (analyzeHeadingStructure worstHeadingStructure) = 35)
  /\ (contentQualityDrawn worstContentQuality
      /\ Analysis.score (analyzeContentQuality worstContentQuality) = 20).
Proof.
  split; [|split; [|split; [|split; [|split]]]].
  - intros m (Htitle & Hdescription & _). unfold drawn in *.
    rewrite metaTags_score.
    assert (deducted metaTagsRules m <= 65); [|
      split; [apply Z.ltb_ge; lia|split; [|lia]];
      destruct (Z.gtb_spec (MetaTags.descriptionLength m) 160);
      [lia|reflexivity]].
    destruct m as [title description [] [] duplicates number];
      cbv [deducted fold_right guard condition deduction rule ruleUnder always
           andb negb metaTagsRules];
      cbn [MetaTags.titleLength MetaTags.descriptionLength] in *;
      destruct (Z.ltb_spec title 30); try lia;
      destruct (Z.gtb_spec description 160); try lia;
      split_tests; lia.
  - intros m (Hh1 & _). unfold drawn in *. rewrite headingStructure_score.
    assert (deducted headingStructureRules m <= 65); [|
      split; [apply Z.eqb_neq; lia | lia]].
    destruct m as [h1 h2 h3 missing skipped];
      cbv [deducted fold_right guard condition deduction rule ruleUnder always
           andb negb headingStructureRules];
      cbn [HeadingStructure.h1Count] in *;
      destruct (Z.eqb_spec h1 0); try lia; split_tests; lia.
  - intros m (_ & Hdensity & _). unfold drawn in *.
    rewrite contentQuality_score.
    assert (Hunused : (ContentQuality.keywordDensity m <? 1)
                      || (ContentQuality.keywordDensity m >? 3) = false).
    { destruct (Z.ltb_spec (ContentQuality.keywordDensity m) 1); [lia|].
      destruct (Z.gtb_spec (ContentQuality.keywordDensity m) 3); [lia|].
      reflexivity. }
    split; [exact Hunused|].
    assert (deducted contentQualityRules m <= 80); [|lia].
    destruct m as [words density readability duplicates links];
      cbv [deducted fold_right guard condition deduction rule ruleUnder always
           andb negb contentQualityRules];
      cbn [ContentQuality.keywordDensity] in *;
      rewrite Hunused; split_tests; lia.
  - split; [unfold metaTagsDrawn, drawn; simpl; lia | reflexivity].
  - split; [unfold headingStructureDrawn, drawn; simpl; lia | reflexivity].
  - split; [unfold contentQualityDrawn, drawn; simpl; lia | reflexivity].
Qed.

(** ** The views and the data of the evaluators *)

(** X23. The key data of an issue reads only fields the evaluator of its
    metric writes: for each of the twelve metrics, the name the table gives
    the metric is a case of [getKeyDataForIssue], and every field that case
    interpolates is in the data the metric's evaluator returns, whatever it
    measured; nothing is shown as undefined. *)
Theorem key_data_reads_written_fields :
  Forall
    (fun e =>
       exists metric,
         Js.ownProperty metricTable (dispatchKey e) = Some metric
         /\ Metric.name metric = displayName e
         /\ forall m,
              unwritten keyDataCases (Metric.name metric)
                (Analysis.specificData (evaluate e m))
              = Some [])
    evaluators.
Proof.
  unfold evaluators.
  repeat (apply Forall_cons;
          [ eexists; split; [reflexivity|]; split; [reflexivity|];
            intros m; destruct m; reflexivity | ]).
  apply Forall_nil.
Qed.

(** X24. The summary cards read fields the evaluators do not write.  On the
    data of the frontend's own evaluators [extractKeyInfo] finds no image
    counts for page speed, no [urlDepth] and [hasKeyword] for the URL
    structure, no [blockingCSS] for robots.txt and no [includesImages] for
    the sitemap, and it has no case for the social media tags at all; the
    other fields it reads are written.  So the card of the URL structure
    shows a depth of 0 and no keyword whatever was measured, and the card of
    the social media tags only says that there is no key information. *)
Theorem summary_reads_unwritten_fields :
  Forall2
    (fun e missing =>
       exists metric,
         Js.ownProperty metricTable (dispatchKey e) = Some metric
         /\ forall m,
              unwritten keyInfoCases (Metric.name metric)
                (Analysis.specificData (evaluate e m))
              = missing)
    evaluators unwrittenKeyInfo
  /\ (forall d,
         extractKeyInfo (Some "URL Structure")
           (OfMetric (generateMetricResult newAnalyzer (EntryOf "urlStructure") d))
         = (row ++ "<strong>URL长度:</strong> "
            ++ (if negb (URLStructure.urlLength (forURLStructure d) =? 0)%Z
                then Js.show (URLStructure.urlLength (forURLStructure d))
                else "0")
            ++ "字符<br>" ++ row ++ "<strong>URL深度:</strong> 0层<br>"
            ++ row ++ "<strong>包含关键词:</strong> ✗" ++ rowEnd)%string)
  /\ (forall d,
         extractKeyInfo (Some "Social Media Tags")
           (OfMetric
              (generateMetricResult newAnalyzer (EntryOf "socialMediaTags") d))
         = "暂无关键信息").
Proof.
  split; [|split].
  - unfold evaluators, unwrittenKeyInfo.
    repeat (apply Forall2_cons;
            [ eexists; split; [reflexivity|];
              intros m; destruct m; reflexivity | ]).
    apply Forall2_nil.
  - intros d. destruct d as [? ? ? ? ? ? ? ? ? [urlLength ? ? ? ?] ? ?].
    reflexivity.
  - intros d. reflexivity.
Qed.

Lemma createSummaryCard_table (key : string) (result : Entry) :
  In key metricKeys ->
  createSummaryCard (Js.get metricTable key) result
  = Js.Return (cardOf (key, result)).
Proof.
  intros Hkey. destruct (metric_of_key key Hkey) as (m & Hm & _).
  unfold createSummaryCard, cardOf, Js.get. cbn [fst snd].
  now rewrite Hm.
Qed.

Lemma appendCards_table (results : Results) (shown : list Card.t) :
  Forall (fun entry => In (fst entry) metricKeys) (metricsOf results) ->
  appendCards newAnalyzer results shown
  = ((shown ++ map cardOf (metricsOf results))%list, Js.Return tt).
Proof.
  revert shown. induction results as [|[key result] results IH];
    intros shown Hkeys.
  - cbn. now rewrite app_nil_r.
  - cbn [appendCards metricsOf filter fst] in *.
    destruct (String.eqb key "_totalScore"); cbn [negb] in *.
    + now apply IH.
    + inversion Hkeys as [|? ? Hkey Hrest]; subst. cbn [fst] in Hkey.
      change (metrics newAnalyzer) with metricTable.
      rewrite (createSummaryCard_table key result Hkey).
      rewrite (IH _ Hrest). cbn [map]. now rewrite <- app_assoc.
Qed.

(** X25. The summary shows one card for each metric of the results, in
    their order, and passes the total over, as long as the table has a
    metric for every key.  At the first key it has none for, it throws a
    [TypeError] with the cards of the entries before it in place: a report
    with a metric the frontend does not know cannot be shown. *)
Theorem summary_needs_known_metrics (old : list Card.t) :
  (forall results,
      Forall (fun entry => In (fst entry) metricKeys) (metricsOf results) ->
      generateSummaryCards newAnalyzer results (Some old)
      = (Some (map cardOf (metricsOf results)), Js.Return tt))
  /\ (forall before key result after,
         Forall (fun entry => In (fst entry) metricKeys) (metricsOf before) ->
         key <> "_totalScore" ->
         unknownKey newAnalyzer key ->
         generateSummaryCards newAnalyzer
           (before ++ (key, result) :: after)%list (Some old)
         = (Some (map cardOf (metricsOf before)), Js.Throw Js.TypeError))
  /\ (forall results,
         generateSummaryCards newAnalyzer results None = (None, Js.Return tt)).
Proof.
  split; [|split].
  - intros results Hkeys. unfold generateSummaryCards.
    now rewrite (appendCards_table results [] Hkeys).
  - intros before key result after Hkeys Htotal Hunknown.
    unfold generateSummaryCards.
    assert (Hloop : forall shown,
               appendCards newAnalyzer
                 (before ++ (key, result) :: after)%list shown
               = ((shown ++ map cardOf (metricsOf before))%list,
                  Js.Throw Js.TypeError)).
    { clear old. induction before as [|[k r] before IH]; intros shown.
      - cbn [app appendCards metricsOf filter map].
        apply String.eqb_neq in Htotal. rewrite Htotal.
        unfold unknownKey in Hunknown. rewrite Hunknown.
        cbn. now rewrite app_nil_r.
      - cbn [app appendCards metricsOf filter fst] in *.
        destruct (String.eqb k "_totalScore"); cbn [negb] in *.
        + now apply IH.
        + inversion Hkeys as [|? ? Hkey Hrest]; subst. cbn [fst] in Hkey.
          change (metrics newAnalyzer) with metricTable.
          rewrite (createSummaryCard_table k r Hkey).
          rewrite (IH Hrest). cbn [map]. now rewrite <- app_assoc. }
    now rewrite Hloop.
  - reflexivity.
Qed.

(** ** The entry point *)

Section EntryPointProperties.

Variable newURL : string -> Js.Outcome unit.
Variable fetch : Request -> Js.Outcome Response.
Variable parse : string -> Js.Outcome Event.
Variable engineMessage : Js.Exn -> string.
Variable displayResults : Results -> Js.Outcome unit.

(** X26. [analyzeWebsite] never leaves the loading overlay up.  For an
    empty or invalid address it raises one alert and touches nothing else:
    no progress message is cleared and no analysis is run.  Otherwise it
    ends with the overlay hidden and the button enabled whether the
    analysis or the display threw or not, and it raises one alert, with the
    message of the exception, exactly when one of them threw. *)
Theorem loading_is_always_hidden (url : string) (screen : Screen.t) :
  (url = EmptyString \/ isValidUrl newURL url = false ->
   exists message,
     analyzeWebsite newURL fetch parse engineMessage displayResults url screen
     = alert message screen)
  /\ (url <> EmptyString /\ isValidUrl newURL url = true ->
      exists page outcome,
        analyzeAndDisplay fetch parse displayResults url
          (clearProgressMessages (Screen.progress screen))
        = (page, outcome)
        /\ analyzeWebsite newURL fetch parse engineMessage displayResults url
             screen
           = {| Screen.progress := page;
                Screen.loading := false;
                Screen.buttonDisabled := false;
                Screen.alerts :=
                  match outcome with
                  | Js.Return _ => Screen.alerts screen
                  | Js.Throw error =>
                      (Screen.alerts screen
                       ++ [("分析失败，请重试。错误: "
                            ++ messageOf engineMessage error)%string])%list
                  end |}).
Proof.
  unfold analyzeWebsite. split.
  - intros [->|Hinvalid].
    + eexists. reflexivity.
    + destruct (String.eqb url EmptyString); rewrite ?Hinvalid;
        eexists; reflexivity.
  - intros [Hurl Hvalid]. apply String.eqb_neq in Hurl.
    rewrite Hurl, Hvalid. cbn [negb showLoading Screen.progress].
    destruct (analyzeAndDisplay fetch parse displayResults url
                (clearProgressMessages (Screen.progress screen)))
      as [page [[]|e]]; do 2 eexists; (split; [reflexivity|]); reflexivity.
Qed.

End EntryPointProperties.

(** ** Page speed *)

(** X27. The page speed score never rises when the page gets slower or
    heavier: a page with no smaller load time and sizes gets no higher
    score. *)
Theorem page_speed_score_is_antitone (m m' : PageSpeed.Measured) :
  noFaster m m' ->
  Analysis.score (analyzePageSpeed m') <= Analysis.score (analyzePageSpeed m).
Proof.
  intros (Hload & Htotal & Himage & Hcss & Hjs).
  rewrite !(score_from_rules _ _ _ _ (analyzePageSpeed_rules _)).
  assert (deducted pageSpeedRules m <= deducted pageSpeedRules m'); [|lia].
  destruct m as [l t i c j], m' as [l' t' i' c' j'].
  cbn [PageSpeed.loadTime PageSpeed.totalSize PageSpeed.imageSize
       PageSpeed.cssSize PageSpeed.jsSize] in *.
  cbv [deducted fold_right guard condition deduction rule ruleUnder always
       andb negb pageSpeedRules].
  cbn [PageSpeed.loadTime PageSpeed.totalSize PageSpeed.imageSize
       PageSpeed.cssSize PageSpeed.jsSize].
  repeat match goal with
         | |- context [?a >? ?b] => destruct (Z.gtb_spec a b); try lia
         end.
Qed.

Lemma page_speed_score_is_antitone_witness :
  Analysis.score
    (analyzePageSpeed
       {| PageSpeed.loadTime := 2500; PageSpeed.totalSize := 900;
          PageSpeed.imageSize := 300; PageSpeed.cssSize := 80;
          PageSpeed.jsSize := 150 |})
  <= Analysis.score
       (analyzePageSpeed
          {| PageSpeed.loadTime := 1200; PageSpeed.totalSize := 900;
             PageSpeed.imageSize := 300; PageSpeed.cssSize := 80;
             PageSpeed.jsSize := 150 |}).
Proof.
  apply (page_speed_score_is_antitone
           {| PageSpeed.loadTime := 1200; PageSpeed.totalSize := 900;
              PageSpeed.imageSize := 300; PageSpeed.cssSize := 80;
              PageSpeed.jsSize := 150 |}
           {| PageSpeed.loadTime := 2500; PageSpeed.totalSize := 900;
              PageSpeed.imageSize := 300; PageSpeed.cssSize := 80;
              PageSpeed.jsSize := 150 |}).
  unfold noFaster. simpl. lia.
Defined.
